(** * ixdat.db: the database facade, the Saveable base class, placeholders

    A shallow embedding of [src/ixdat/db.py].  Python objects are records,
    attribute assignment is explicit state passing, the module-level
    singleton [DB] lives in a [World] that every operation threads, and an
    exception is a [Raise] result that leaves the world as it was when the
    exception left the frame (Python does not roll anything back).

    The modules [ixdat.backends], [ixdat.tools] and [ixdat.exceptions] are
    imported by [db.py] but are not part of the sources at hand: what
    [db.py] uses of them is gathered in the class [Collaborators].

    An object is passed to an operation and comes back from it as the
    operation leaves it; two names for one object are two copies here, and
    what an operation did to an object before it raised is not kept.
    Where Python may recurse without end, the operation takes a [depth],
    the number of nested calls that the interpreter still allows, and
    raises [RecursionError] when it is used up.

    The two timestamp functions of [src/ixdat/readers/reading_tools.py]
    follow the definitions for [db.py]: what they use of the module
    [time], of the file system and of the terminal is gathered in the
    class [TimeModule] and in the record [terminal]. *)

From stdpp Require Import base strings list.

Set Warnings "-register-all".
Local Open Scope string_scope.
Local Open Scope Z_scope.
Local Open Scope list_scope.
Local Open Scope stdpp_scope.

(** ** Exceptions and results *)

Inductive exn : Type :=
| NotImplementedError
| DataBaseError
| ValueError
| AttributeError
| KeyError
| IndexError
| TypeError
| RecursionError
| CollaboratorError (what : string).

Inductive result (A : Type) : Type :=
| Ok (a : A)
| Raise (e : exn).
Arguments Ok {A} a.
Arguments Raise {A} e.

(** ** Plain data held in serialised attributes

    A float is held as the 64 bits of its double. *)

Inductive value : Type :=
| VNone
| VBool (b : bool)
| VInt (n : Z)
| VFloat (bits : Z)
| VStr (s : string)
| VList (l : list value).

(** ** Dictionaries with string keys

    A Python [dict] keeps its keys in the order of their insertion:
    a list of pairs, where setting a key replaces its value in place or
    adds the pair at the end. *)

Definition dict (V : Type) : Type := list (string * V).

Fixpoint dict_get {V} (k : string) (d : dict V) : option V :=
  match d with
  | [] => None
  | (k', v) :: rest => if String.eqb k' k then Some v else dict_get k rest
  end.

(** [k in d] *)
Definition dict_has {V} (k : string) (d : dict V) : bool :=
  match dict_get k d with Some _ => true | None => false end.

(** [d[k] = v] *)
Fixpoint dict_set {V} (k : string) (v : V) (d : dict V) : dict V :=
  match d with
  | [] => [(k, v)]
  | (k', v') :: rest =>
      if String.eqb k' k then (k', v) :: rest
      else (k', v') :: dict_set k v rest
  end.

(** [x in l] for a list of strings and for a list of integers *)
Definition str_in (x : string) (l : list string) : bool :=
  existsb (String.eqb x) l.

Definition int_in (x : Z) (l : list Z) : bool :=
  existsb (Z.eqb x) l.

Definition kwargs : Type := dict value.

(** ** Backends, as [db.py] sees them

    A backend is an object with an identity (compared with [is]) and the
    three descriptive attributes [name], [backend_type] and [address]. *)

Record Backend : Type := mkBackend {
  backend_uid : nat;
  backend_name_of : string;
  backend_type_of : string;
  backend_address : string
}.

(** What a variable meant to hold a backend can hold at run time: [None],
    a name, or a backend object. *)
Inductive backend_ref : Type :=
| BNone
| BStr (s : string)
| BObj (b : Backend).

(** Python truthiness: [None] and the empty string are falsy, objects of a
    class without [__bool__] or [__len__] are truthy. *)
Definition truthy (r : backend_ref) : bool :=
  match r with
  | BNone => false
  | BStr s => negb (String.eqb s "")
  | BObj _ => true
  end.

(** [a or b] *)
Definition py_or (a b : backend_ref) : backend_ref :=
  if truthy a then a else b.

(** [a is b] *)
Definition is_same (a b : backend_ref) : bool :=
  match a, b with
  | BNone, BNone => true
  | BStr s, BStr t => String.eqb s t
  | BObj x, BObj y => Nat.eqb (backend_uid x) (backend_uid y)
  | _, _ => false
  end.

(** ** Table metadata *)

Record Column : Type := mkColumn {
  column_name : string;
  column_ctype : string;
  column_attribute_name : string;
  column_foreign_key : option (string * string)
}.

(** [Column.__init__]: [attribute_name or name]; [foreign_key=False] is [None]. *)
Definition Column__init__ (name ctype : string) (attribute_name : option string)
    (foreign_key : option (string * string)) : Column :=
  mkColumn name ctype
    (match attribute_name with
     | Some a => if String.eqb a "" then name else a
     | None => name
     end)
    foreign_key.

(** [Column.__eq__] *)
Definition Column__eq__ (self other : Column) : bool :=
  String.eqb (column_name self) (column_name other)
  && String.eqb (column_ctype self) (column_ctype other)
  && String.eqb (column_attribute_name self) (column_attribute_name other).

Record OwnedObjectList : Type := mkOwnedObjectList {
  list_name : string;
  owned_object_table_name : string;
  joining_table_name : string;
  parent_object_id_column_name : option string;
  owned_object_id_column_name : option string
}.

(** ** Classes

    A class object knows its name, its bases and what its own body
    declares; an attribute that the body does not declare is looked up
    along the method resolution order.  [object] is left out of the bases
    and of the resolution order: [get_column_resolution_order] skips it. *)

Inductive PyClass : Type := mkClass {
  cls_name : string;
  cls_bases : list PyClass;
  decl_table_name : option (option string);
  decl_columns : option (list Column);
  decl_owned_object_lists : option (list OwnedObjectList);
  decl_column_attrs : option (option (list string));
  decl_extra_column_attrs : option (dict (list string));
  decl_extra_linkers : option (dict (string * string));
  decl_child_attrs : option (list string);
  decl_SKIP_IN_TABLE_SCAN : bool
}.

(** [a is b] on classes.  A class object is known by its name: the
    classes of a program are taken to have names of their own, and two
    class objects of one name are not told apart. *)
Definition same_class (a b : PyClass) : bool :=
  String.eqb (cls_name a) (cls_name b).

(** The class [Saveable] itself: [table_name = None], [columns = []],
    [owned_object_lists = []]. *)
Definition Saveable_class : PyClass :=
  mkClass "Saveable" [] (Some None) (Some []) (Some []) None None None None false.

(** *** Method resolution order

    [cls.mro()] is Python's C3 linearisation: the class, then the merge of
    the linearisations of its bases and of the list of bases. *)

Definition in_tail (c : PyClass) (seq : list PyClass) : bool :=
  existsb (same_class c) (tail seq).

(** The first head that is in no tail. *)
Fixpoint mro_candidate (seqs todo : list (list PyClass)) : option PyClass :=
  match todo with
  | [] => None
  | [] :: todo' => mro_candidate seqs todo'
  | (c :: _) :: todo' =>
      if existsb (in_tail c) seqs then mro_candidate seqs todo' else Some c
  end.

Definition drop_head (c : PyClass) (seq : list PyClass) : list PyClass :=
  match seq with
  | h :: t => if same_class c h then t else seq
  | [] => []
  end.

Definition nonempty {A} (l : list A) : bool :=
  match l with [] => false | _ => true end.

Fixpoint mro_merge (fuel : nat) (seqs : list (list PyClass))
    : option (list PyClass) :=
  match fuel with
  | O => None
  | S fuel' =>
      match List.filter nonempty seqs with
      | [] => Some []
      | seqs' =>
          match mro_candidate seqs' seqs' with
          | None => None
          | Some c =>
              option_map (cons c) (mro_merge fuel' (map (drop_head c) seqs'))
          end
      end
  end.

Definition total_length {A} (seqs : list (list A)) : nat :=
  fold_right (λ l n, (length l + n)%nat) 0%nat seqs.

(** [None] is the [TypeError] with which Python refuses to create a class
    whose bases have no consistent order. *)
Fixpoint mro (c : PyClass) : option (list PyClass) :=
  match c with
  | mkClass _ bases _ _ _ _ _ _ _ _ =>
      let fix mros (bs : list PyClass) : option (list (list PyClass)) :=
        match bs with
        | [] => Some []
        | b :: bs' =>
            match mro b, mros bs' with
            | Some l, Some ls => Some (l :: ls)
            | _, _ => None
            end
        end in
      match mros bases with
      | Some ls =>
          let seqs := ls ++ [bases] in
          option_map (cons c) (mro_merge (S (total_length seqs)) seqs)
      | None => None
      end
  end.

(** [issubclass(a, b)] *)
Definition issubclass (a b : PyClass) : bool :=
  match mro a with
  | Some l => existsb (same_class b) l
  | None => false
  end.

(** Class attribute lookup: the first class of the resolution order whose
    body declares the attribute. *)
Definition class_attr {A} (decl : PyClass → option A) (c : PyClass)
    : result A :=
  match mro c with
  | Some l =>
      match omap decl l with
      | a :: _ => Ok a
      | [] => Raise AttributeError
      end
  | None => Raise TypeError
  end.

#[export] Instance result_ret : MRet result := λ A a, Ok a.
#[export] Instance result_bind : MBind result := λ A B k r,
  match r with
  | Ok a => k a
  | Raise e => Raise e
  end.

(** A [for] loop whose body updates the loop state or raises. *)
Fixpoint for_each {A S} (body : S → A → result S) (s : S) (l : list A)
    : result S :=
  match l with
  | [] => Ok s
  | a :: l' => s' ← body s a; for_each body s' l'
  end.

(** Truthiness of a [table_name]. *)
Definition table_name_truthy (t : option string) : bool :=
  match t with
  | Some s => negb (String.eqb s "")
  | None => false
  end.

Definition table_name_eqb (a b : option string) : bool :=
  match a, b with
  | Some x, Some y => String.eqb x y
  | None, None => true
  | _, _ => false
  end.

Definition is_Some_b {A} (o : option A) : bool :=
  match o with Some _ => true | None => false end.

(** The dictionary [table_classes], whose keys are table names. *)
Fixpoint table_class (table_name : option string)
    (table_classes : list (option string * PyClass)) : option PyClass :=
  match table_classes with
  | [] => None
  | (t, c) :: rest =>
      if table_name_eqb t table_name then Some c
      else table_class table_name rest
  end.

(** [SaveableMetaClass.__new__]: the integrity checks made when a class is
    created (the class is also recorded in [ALL_SAVABLE_CLASSES], which no
    operation of this module reads). *)
Definition SaveableMetaClass__new__ (new_cls : PyClass) : result PyClass :=
  table_name ← class_attr decl_table_name new_cls;
  if table_name_truthy table_name && negb (decl_SKIP_IN_TABLE_SCAN new_cls)
  then
    match decl_columns new_cls with
    | Some (_ :: _) =>
        match decl_table_name new_cls with
        | None => Raise ValueError
        | Some own_table_name =>
            for_each (λ (_ : unit) base_class,
                base_table_name ← class_attr decl_table_name base_class;
                if table_name_eqb own_table_name base_table_name
                then Raise ValueError else Ok ())
              () (cls_bases new_cls);;
            Ok new_cls
        end
    | _ => Ok new_cls
    end
  else Ok new_cls.

(** [Saveable.column_names] *)
Definition column_names (cls : PyClass) : result (list string) :=
  columns ← class_attr decl_columns cls;
  Ok (map column_name columns).

(** The inner loop of [get_column_resolution_order]: insert before the
    first class of the list that is a subclass, else append. *)
Fixpoint cro_insert (cls_in_mro : PyClass) (cro_class_list : list PyClass)
    : list PyClass :=
  match cro_class_list with
  | [] => [cls_in_mro]
  | cls_in_cro :: rest =>
      if issubclass cls_in_cro cls_in_mro
      then cls_in_mro :: cls_in_cro :: rest
      else cls_in_cro :: cro_insert cls_in_mro rest
  end.

(** [Saveable.get_column_resolution_order] *)
Definition get_column_resolution_order (cls : PyClass)
    : result (list PyClass) :=
  match mro cls with
  | None => Raise TypeError
  | Some mro_class_list =>
      Ok (fold_left
            (λ cro_class_list cls_in_mro,
               if negb (issubclass cls_in_mro Saveable_class)
               then cro_class_list
               else if same_class cls_in_mro Saveable_class
               then cro_class_list
               else cro_insert cls_in_mro cro_class_list)
            mro_class_list [])
  end.

(** The condition under which a second column for an attribute is let
    through: it is a foreign key into a table already met, naming one of
    that table's columns. *)
Definition refers_to_known_column (column : Column)
    (table_classes : list (option string * PyClass)) : result bool :=
  match column_foreign_key column with
  | None => Ok false
  | Some (fk_table, fk_column) =>
      match table_class (Some fk_table) table_classes with
      | None => Ok false
      | Some cls =>
          names ← column_names cls;
          Ok (str_in fk_column names)
      end
  end.

(** The body of the inner loop of [get_full_columns]. *)
Definition add_column (table_classes : list (option string * PyClass))
    (acc : list Column * list string) (column : Column)
    : result (list Column * list string) :=
  let '(full_column_list, full_saved_attribute_list) := acc in
  let attr := column_attribute_name column in
  if str_in attr full_saved_attribute_list
  then
    known ← refers_to_known_column column table_classes;
    if (known : bool)
    then Ok (full_column_list, full_saved_attribute_list)
    else Raise ValueError
  else Ok (full_column_list ++ [column], full_saved_attribute_list ++ [attr]).

(** [Saveable.get_full_columns] *)
Definition get_full_columns (cls : PyClass) : result (list Column) :=
  cro ← get_column_resolution_order cls;
  acc ←
    for_each
      (λ (acc : list Column * list string
                * list (option string * PyClass))
         parent_class,
         let '(full_column_list, full_saved_attribute_list, table_classes) :=
           acc in
         table_name ← class_attr decl_table_name parent_class;
         if is_Some_b (table_class table_name table_classes)
         then Ok acc
         else
           let table_classes := table_classes ++ [(table_name, parent_class)] in
           columns ← class_attr decl_columns parent_class;
           lists ←
             for_each (add_column table_classes)
               (full_column_list, full_saved_attribute_list) columns;
           Ok (lists, table_classes))
      ([], [], []) cro;
  Ok (acc.1.1).

(** The body of the inner loop of [get_full_owned_object_lists]. *)
Definition add_owned_object_list (acc : list OwnedObjectList * list string)
    (owned_object_list : OwnedObjectList)
    : result (list OwnedObjectList * list string) :=
  let '(full_owned_object_list, full_linking_attribute_list) := acc in
  let attr := list_name owned_object_list in
  if str_in attr full_linking_attribute_list
  then Raise ValueError
  else Ok (full_owned_object_list ++ [owned_object_list],
           full_linking_attribute_list ++ [attr]).

(** [Saveable.get_full_owned_object_lists] *)
Definition get_full_owned_object_lists (cls : PyClass)
    : result (list OwnedObjectList) :=
  cro ← get_column_resolution_order cls;
  acc ←
    for_each
      (λ (acc : list OwnedObjectList * list string
                * list (option string * PyClass))
         parent_class,
         let '(full_owned_object_list, full_linking_attribute_list,
               table_classes) := acc in
         table_name ← class_attr decl_table_name parent_class;
         if is_Some_b (table_class table_name table_classes)
         then Ok acc
         else
           let table_classes := table_classes ++ [(table_name, parent_class)] in
           owned_object_lists ←
             class_attr decl_owned_object_lists parent_class;
           lists ←
             for_each add_owned_object_list
               (full_owned_object_list, full_linking_attribute_list)
               owned_object_lists;
           Ok (lists, table_classes))
      ([], [], []) cro;
  Ok (acc.1.1).

(** ** Objects *)

Record PlaceHolderObject : Type := mkPlaceHolderObject {
  ph_uid : nat;
  ph_id : Z;
  ph_cls : PyClass;
  ph_backend : backend_ref
}.

(** A [Saveable] instance: its identity, its class, the two managed
    attributes [_id] and [_backend], its data attributes and its lists of
    owned objects, which hold loaded objects and placeholders alike.
    [table_name], [column_attrs], [extra_column_attrs], [extra_linkers]
    and [child_attrs] are read from the class. *)
Inductive Saveable : Type := mkSaveable {
  obj_uid : nat;
  obj_class : PyClass;
  _id : option Z;
  _backend : backend_ref;
  obj_attrs : dict value;
  obj_lists : list (string * list (Saveable + PlaceHolderObject))
}.

Definition item : Type := (Saveable + PlaceHolderObject)%type.

(** The class of placeholders, which is not a [Saveable] class. *)
Definition PlaceHolderObject_class : PyClass :=
  mkClass "PlaceHolderObject" [] None None None None None None None false.

(** [s.__class__] *)
Definition item_class (s : item) : PyClass :=
  match s with
  | inl obj => obj_class obj
  | inr _ => PlaceHolderObject_class
  end.

(** An element of [obj_ids]: a bare id, or a backend with an id. *)
Inductive identity : Type :=
| Id_int (i : Z)
| Id_pair (backend : backend_ref) (i : Z).

Definition with_id (self : Saveable) (i : option Z) : Saveable :=
  mkSaveable (obj_uid self) (obj_class self) i (_backend self)
    (obj_attrs self) (obj_lists self).

Definition with_backend (self : Saveable) (b : backend_ref) : Saveable :=
  mkSaveable (obj_uid self) (obj_class self) (_id self) b
    (obj_attrs self) (obj_lists self).

Definition with_lists (self : Saveable)
    (ls : list (string * list item)) : Saveable :=
  mkSaveable (obj_uid self) (obj_class self) (_id self) (_backend self)
    (obj_attrs self) ls.

(** ** The collaborators of [db.py]

    [ixdat.backends] provides the two registries [database_backends]
    (name to ready instance) and [BACKEND_CLASSES] (name to class), and the
    backend classes with their methods; [ixdat.tools] provides
    [thing_is_close].  A backend keeps its tables in a state of its own,
    [store]; calling a backend class builds a backend from keyword
    arguments.  A method of a backend either returns or raises. *)

Class Collaborators : Type := {
  store : Type;
  thing_is_close : value → value → bool;
  database_backends : dict Backend;
  BACKEND_CLASSES : dict (kwargs → store → result Backend * store);
  backend_get : Backend → PyClass → Z → store → result Saveable * store;
  backend_save : Backend → item → store → result item * store;
  backend_get_next_available_id :
    Backend → option string → Saveable → store → result Z * store
}.

(** Calls made to the collaborators, in the order they are made. *)
Inductive call : Type :=
| Call_new (class_key : string)
| Call_get (b : Backend) (cls : string) (i : Z)
| Call_save (b : Backend) (uid : nat)
| Call_get_next_available_id (b : Backend) (table : option string) (uid : nat).

(** What [print] writes: the one message of [db.py], with the three parts
    of [Saveable.__repr__] (class name, id, name) and the name given. *)
Inductive output : Type :=
| WARNING_unrecognized_backend (cls : string) (id : Z) (name : value)
    (new_backend : string).

(** ** The facade object and the world *)

Record DataBase : Type := mkDataBase {
  backend : backend_ref;
  new_object_backend : backend_ref
}.

Section Model.
Context `{Collab : Collaborators}.

Record World : Type := mkWorld {
  DB : DataBase;
  stdout : list output;
  calls : list call;
  next_uid : nat;
  stores : store
}.

(** Computations that read and write the world and may raise. *)
Definition M (A : Type) : Type := World → result A * World.

#[export] Instance M_ret : MRet M := λ A a w, (Ok a, w).
#[export] Instance M_bind : MBind M := λ A B k m w,
  match m w with
  | (Ok a, w') => k a w'
  | (Raise e, w') => (Raise e, w')
  end.

Definition raise {A} (e : exn) : M A := λ w, (Raise e, w).

Definition get_DB : M DataBase := λ w, (Ok (DB w), w).

Definition set_DB_backend (b : backend_ref) : M unit := λ w,
  (Ok (), mkWorld (mkDataBase b (new_object_backend (DB w)))
            (stdout w) (calls w) (next_uid w) (stores w)).

Definition set_DB_new_object_backend (b : backend_ref) : M unit := λ w,
  (Ok (), mkWorld (mkDataBase (backend (DB w)) b)
            (stdout w) (calls w) (next_uid w) (stores w)).

Definition print (o : output) : M unit := λ w,
  (Ok (), mkWorld (DB w) (stdout w ++ [o]) (calls w) (next_uid w) (stores w)).

(** The identity of a newly allocated object. *)
Definition fresh_uid : M nat := λ w,
  (Ok (next_uid w),
   mkWorld (DB w) (stdout w) (calls w) (S (next_uid w)) (stores w)).

Definition lift {A} (r : result A) : M A := λ w, (r, w).

(** A call into a collaborator: logged, then run on the stores. *)
Definition collaborate {A} (c : call) (f : store → result A * store) : M A :=
  λ w, let '(r, s) := f (stores w) in
       (r, mkWorld (DB w) (stdout w) (calls w ++ [c]) (next_uid w) s).

(** [d[k]] on a registry *)
Definition subscript {V} (d : dict V) (k : string) : M V :=
  match dict_get k d with
  | Some v => mret v
  | None => raise KeyError
  end.

(** Calling the class [BACKEND_CLASSES[k]] with the keyword arguments *)
Definition instantiate (k : string)
    (BackendClass : kwargs → store → result Backend * store)
    (db_kwargs : kwargs) : M Backend :=
  collaborate (Call_new k) (BackendClass db_kwargs).

(** [backend.get(cls, i)]; [None] and strings have no method [get]. *)
Definition call_get (b : backend_ref) (cls : PyClass) (i : Z) : M Saveable :=
  match b with
  | BObj b => collaborate (Call_get b (cls_name cls) i) (backend_get b cls i)
  | _ => raise AttributeError
  end.

(** *** class DataBase *)

(** [DataBase.__init__] *)
Definition DataBase__init__ (backend' : backend_ref) : result DataBase :=
  if truthy backend' then Ok (mkDataBase backend' (BStr "none"))
  else match dict_get "directory" database_backends with
       | Some d => Ok (mkDataBase (BObj d) (BStr "none"))
       | None => Raise KeyError
       end.

(** [DataBase.get] *)
Definition DataBase_get (cls : PyClass) (i : Z) (backend' : backend_ref)
    : M Saveable :=
  self ← get_DB;
  let backend' := py_or backend' (backend self) in
  obj ← call_get backend' cls i;
  mret obj.

(** [DataBase.set_backend] *)
Definition DataBase_set_backend (backend_name : backend_ref)
    (db_kwargs : kwargs) : M backend_ref :=
  match backend_name with
  | BStr s =>
      match dict_get s BACKEND_CLASSES with
      | Some BackendClass =>
          b ← instantiate s BackendClass db_kwargs;
          set_DB_backend (BObj b);;
          self ← get_DB; mret (backend self)
      | None => raise NotImplementedError
      end
  | _ =>
      set_DB_backend backend_name;;
      self ← get_DB; mret (backend self)
  end.

(** [change_database] *)
Definition change_database (db_name : backend_ref) (db_kwargs : kwargs)
    : M unit :=
  DataBase_set_backend db_name db_kwargs;; mret ().

(** [Saveable.get], the class method *)
Definition Saveable_get (cls : PyClass) (i : Z) (backend' : backend_ref)
    : M Saveable :=
  db ← get_DB;
  let old_backend := backend db in
  DataBase_set_backend (py_or backend' old_backend) [];;
  obj ← DataBase_get cls i BNone;
  DataBase_set_backend old_backend [];;
  mret obj.

(** *** class Saveable: identity and backend *)

(** Truthiness of [_id]: [None] and [0] are falsy. *)
Definition id_truthy (i : option Z) : bool :=
  match i with
  | Some i => negb (i =? 0)
  | None => false
  end.

(** The getter of the property [backend] *)
Definition Saveable_backend (self : Saveable) : M (backend_ref * Saveable) :=
  if negb (truthy (_backend self))
  then
    none ← subscript database_backends "none";
    let self := with_backend self (BObj none) in
    mret (_backend self, self)
  else mret (_backend self, self).

(** The property [backend_type]: [self.backend.backend_type] *)
Definition Saveable_backend_type (self : Saveable) : M (string * Saveable) :=
  '(b, self) ← Saveable_backend self;
  match b with
  | BObj b => mret (backend_type_of b, self)
  | _ => raise AttributeError
  end.

(** The property [backend_name]: [self.backend.name] *)
Definition Saveable_backend_name (self : Saveable) : M (string * Saveable) :=
  '(b, self) ← Saveable_backend self;
  match b with
  | BObj b => mret (backend_name_of b, self)
  | _ => raise AttributeError
  end.

(** [self.table_name] *)
Definition Saveable_table_name (self : Saveable) : M (option string) :=
  lift (class_attr decl_table_name (obj_class self)).

(** [getattr(self, attr)] for a data attribute *)
Definition getattr (self : Saveable) (attr : string) : result value :=
  match dict_get attr (obj_attrs self) with
  | Some v => Ok v
  | None => Raise AttributeError
  end.

(** [backend.get_next_available_id(table_name, obj=obj)] *)
Definition call_get_next_available_id (b : backend_ref)
    (table_name : option string) (obj : Saveable) : M Z :=
  match b with
  | BObj b =>
      collaborate (Call_get_next_available_id b table_name (obj_uid obj))
        (backend_get_next_available_id b table_name obj)
  | _ => raise AttributeError
  end.

(** [Saveable.__repr__], given the property [id] it reads:
    [f"{self.__class__.__name__}(id={self.id}, name='{self.name}')"] *)
Definition repr_with (id : Saveable → M (Z * Saveable)) (self : Saveable)
    : M (string * Z * value * Saveable) :=
  '(i, self) ← id self;
  name ← lift (getattr self "name");
  mret (cls_name (obj_class self), i, name, self).

(** The property [id].  When the object has no id and its backend is
    neither "none" nor "memory", the message of the [DataBaseError] is
    formatted first, and it formats [self]: [__repr__] reads [self.id]
    again, one call deeper.  [depth] bounds the nesting of such calls as
    the interpreter's recursion limit does. *)
Fixpoint Saveable_id (depth : nat) (self : Saveable) : M (Z * Saveable) :=
  match depth with
  | O => raise RecursionError
  | S depth' =>
      if negb (id_truthy (_id self))
      then
        '(backend_type, self) ← Saveable_backend_type self;
        if str_in backend_type ["none"; "memory"]
        then
          '(b, self) ← Saveable_backend self;
          table_name ← Saveable_table_name self;
          i ← call_get_next_available_id b table_name self;
          let self := with_id self (Some i) in
          mret (i, self)
        else
          '(_, self) ← repr_with (Saveable_id depth') self;
          '(_, self) ← Saveable_backend_name self;
          raise DataBaseError
      else mret (default 0 (_id self), self)
  end.

(** [Saveable.__repr__] *)
Definition Saveable__repr__ (depth : nat) (self : Saveable)
    : M (string * Z * value * Saveable) :=
  repr_with (Saveable_id depth) self.

(** The setter of the property [backend] *)
Definition Saveable_backend_setter (depth : nat) (self : Saveable)
    (new_backend : backend_ref) : M Saveable :=
  db ← get_DB;
  let new_backend := py_or new_backend (new_object_backend db) in
  '(new_backend, self) ←
    match new_backend with
    | BStr s =>
        match dict_get s database_backends with
        | Some b => mret (BObj b, self)
        | None =>
            match dict_get s BACKEND_CLASSES with
            | Some BackendClass =>
                b ← instantiate s BackendClass [];
                mret (BObj b, self)
            | None =>
                '(cls, i, name, self) ← Saveable__repr__ depth self;
                print (WARNING_unrecognized_backend cls i name s);;
                mret (new_backend, self)
            end
        end
    | _ => mret (new_backend, self)
    end;
  mret (with_backend self new_backend).

(** [Saveable.set_id] *)
Definition Saveable_set_id (self : Saveable) (i : option Z) : Saveable :=
  with_id self i.

(** [Saveable.set_backend] *)
Definition Saveable_set_backend (depth : nat) (self : Saveable)
    (backend' : backend_ref) : M Saveable :=
  Saveable_backend_setter depth self backend'.

(** The property [short_identity] of a [Saveable] *)
Definition Saveable_short_identity (depth : nat) (self : Saveable)
    : M (identity * Saveable) :=
  '(b, self) ← Saveable_backend self;
  db ← get_DB;
  if is_same b (backend db)
  then '(i, self) ← Saveable_id depth self; mret (Id_int i, self)
  else
    '(b, self) ← Saveable_backend self;
    '(i, self) ← Saveable_id depth self;
    mret (Id_pair b i, self).

(** *** class Saveable: serialisation and equality *)

(** Identity of an element of an object list. *)
Definition item_uid (x : item) : nat :=
  match x with
  | inl obj => obj_uid obj
  | inr ph => ph_uid ph
  end.

(** [getattr(self, name)] for a list of owned objects *)
Definition getattr_list (self : Saveable) (name : string)
    : result (list item) :=
  match dict_get name (obj_lists self) with
  | Some l => Ok l
  | None => Raise AttributeError
  end.

Fixpoint mapM {A B} (f : A → M B) (l : list A) : M (list B) :=
  match l with
  | [] => mret []
  | a :: rest => b ← f a; bs ← mapM f rest; mret (b :: bs)
  end.

(** A [for] loop in the world. *)
Fixpoint for_eachM {A S} (body : S → A → M S) (s : S) (l : list A) : M S :=
  match l with
  | [] => mret s
  | a :: rest => s' ← body s a; for_eachM body s' rest
  end.

(** [backend.save(obj)], whose return value [as_dict] drops; the object
    comes back as the backend leaves it. *)
Definition call_save (b : Backend) (obj : item) : M item :=
  collaborate (Call_save b (item_uid obj)) (backend_save b obj).

(** The body of the first loop of [as_dict]:
    [if child_obj.backend is database_backends["none"]:
         database_backends["memory"].save(child_obj)] *)
Definition save_if_unsaved (child_obj : item) : M item :=
  '(b, child_obj) ←
    match child_obj with
    | inl obj => '(b, obj) ← Saveable_backend obj; mret (b, inl obj)
    | inr ph => mret (ph_backend ph, inr ph)
    end;
  none ← subscript database_backends "none";
  if is_same b (BObj none)
  then
    memory ← subscript database_backends "memory";
    call_save memory child_obj
  else mret child_obj.

(** [{attr: getattr(self, attr) for attr in attrs if attr not in exclude}],
    added to [d] *)
Definition attrs_into (self : Saveable) (exclude : list string)
    (d : dict value) (attrs : list string) : result (dict value) :=
  for_each
    (λ d attr,
       if str_in attr exclude then Ok d
       else v ← getattr self attr; Ok (dict_set attr v d))
    d attrs.

(** [Saveable.get_main_dict] *)
Definition Saveable_get_main_dict (depth : nat) (self : Saveable)
    (exclude : list string) : M (dict value) :=
  column_attrs ← lift (class_attr decl_column_attrs (obj_class self));
  match column_attrs with
  | None =>
      Saveable__repr__ depth self;;
      raise DataBaseError
  | Some column_attrs => lift (attrs_into self exclude [] column_attrs)
  end.

(** [Saveable.as_dict] *)
Definition Saveable_as_dict (depth : nat) (self : Saveable)
    (exclude : list string) : M (dict value * Saveable) :=
  child_attrs ← lift (class_attr decl_child_attrs (obj_class self));
  self ←
    for_eachM
      (λ self child_object_list_name,
         children ← lift (getattr_list self child_object_list_name);
         children ← mapM save_if_unsaved children;
         mret (with_lists self
                 (dict_set child_object_list_name children (obj_lists self))))
      self child_attrs;
  self_as_dict ← Saveable_get_main_dict depth self exclude;
  extra_column_attrs ←
    lift (class_attr decl_extra_column_attrs (obj_class self));
  self_as_dict ←
    lift (for_each
            (λ d '(table_name, extras), attrs_into self exclude d extras)
            self_as_dict extra_column_attrs);
  extra_linkers ← lift (class_attr decl_extra_linkers (obj_class self));
  self_as_dict ←
    lift (for_each
            (λ d '(table_name, (linked_table_name, attr)),
               attrs_into self exclude d [attr])
            self_as_dict extra_linkers);
  mret (self_as_dict, self).

(** One turn of the loop of [__eq__] over the keys: does it return
    [False]?  A key among the linker id names meets [pass] and is compared
    like any other.  The key is a key of both dictionaries when the two
    values are read. *)
Definition key_differs (self_as_dict other_as_dict : dict value)
    (linker_id_names : list string) (key : string) : bool :=
  if negb (dict_has key other_as_dict) then true
  else
    let '() := if str_in key linker_id_names then () else () in
    match dict_get key self_as_dict, dict_get key other_as_dict with
    | Some v, Some v' => negb (thing_is_close v v')
    | _, _ => true
    end.

(** The loop over [zip(object_list, other_object_list)], given [!=]. *)
Fixpoint zip_differs (ne : item → item → M bool) (l1 l2 : list item)
    : M bool :=
  match l1, l2 with
  | object :: l1', other_object :: l2' =>
      d ← ne object other_object;
      if (d : bool) then mret true else zip_differs ne l1' l2'
  | _, _ => mret false
  end.

(** The loop over [self.child_attrs], given [!=]. *)
Fixpoint lists_differ (ne : item → item → M bool) (self other : Saveable)
    (child_attrs : list string) : M bool :=
  match child_attrs with
  | [] => mret false
  | object_list_name :: rest =>
      object_list ← lift (getattr_list self object_list_name);
      other_object_list ← lift (getattr_list other object_list_name);
      d ← zip_differs ne object_list other_object_list;
      if (d : bool) then mret true else lists_differ ne self other rest
  end.

(** [object != other_object], given [Saveable.__eq__]: neither class
    defines [__ne__], so a [Saveable] on either side answers with the
    negation of its [__eq__], and two placeholders are compared by
    identity. *)
Definition item_ne (eq : Saveable → item → M bool) (object other_object : item)
    : M bool :=
  match object, other_object with
  | inl obj, _ => b ← eq obj other_object; mret (negb b)
  | inr ph, inl obj => b ← eq obj object; mret (negb b)
  | inr ph, inr ph' => mret (negb (Nat.eqb (ph_uid ph) (ph_uid ph')))
  end.

(** [Saveable.__eq__].  [depth] bounds the nesting of the calls, as the
    interpreter's recursion limit does.  A placeholder is of another class
    than any [Saveable]; it has no [as_dict]. *)
Fixpoint Saveable__eq__ (depth : nat) (self : Saveable) (other : item)
    : M bool :=
  match depth with
  | O => raise RecursionError
  | S depth' =>
      if Nat.eqb (obj_uid self) (item_uid other) then mret true
      else if negb (same_class (obj_class self) (item_class other))
      then mret false
      else
        match other with
        | inr _ => raise AttributeError
        | inl other =>
            '(self_as_dict, self) ← Saveable_as_dict depth' self [];
            '(other_as_dict, other) ← Saveable_as_dict depth' other [];
            if negb (Nat.eqb (length self_as_dict) (length other_as_dict))
            then mret false
            else
              extra_linkers ←
                lift (class_attr decl_extra_linkers (obj_class self));
              let linker_id_names :=
                map (λ '(linker_table_name, (linked_table_name, id_name)),
                       id_name)
                  extra_linkers in
              if existsb
                   (key_differs self_as_dict other_as_dict linker_id_names)
                   (map fst self_as_dict)
              then mret false
              else
                child_attrs ←
                  lift (class_attr decl_child_attrs (obj_class self));
                d ← lists_differ (item_ne (Saveable__eq__ depth'))
                      self other child_attrs;
                mret (negb d)
        end
  end.

(** *** class PlaceHolderObject *)

(** [backend == "none"]: a backend object is not equal to a string. *)
Definition equals_none_str (b : backend_ref) : bool :=
  match b with
  | BStr s => String.eqb s "none"
  | _ => false
  end.

(** [PlaceHolderObject.__init__] *)
Definition PlaceHolderObject__init__ (i : Z) (cls : PyClass)
    (backend' : backend_ref) : M PlaceHolderObject :=
  uid ← fresh_uid;
  db ← get_DB;
  let backend' := if negb (truthy backend') then backend db else backend' in
  invalid ←
    (if negb (truthy backend') then mret true
     else if equals_none_str backend' then mret true
     else none ← subscript database_backends "none";
          mret (is_same backend' (BObj none)));
  if (invalid : bool) then raise DataBaseError
  else mret (mkPlaceHolderObject uid i cls backend').

(** [PlaceHolderObject.get_object] *)
Definition PlaceHolderObject_get_object (self : PlaceHolderObject)
    : M Saveable :=
  Saveable_get (ph_cls self) (ph_id self) (ph_backend self).

(** The property [short_identity] of a placeholder *)
Definition PlaceHolderObject_short_identity (self : PlaceHolderObject)
    : M identity :=
  db ← get_DB;
  if is_same (ph_backend self) (backend db)
  then mret (Id_int (ph_id self))
  else mret (Id_pair (ph_backend self) (ph_id self)).

(** *** fill_object_list *)

(** [s.id] for an element of an object list *)
Definition item_id (depth : nat) (s : item) : M (Z * item) :=
  match s with
  | inl obj => '(i, obj) ← Saveable_id depth obj; mret (i, inl obj)
  | inr ph => mret (ph_id ph, inr ph)
  end.

(** [[s.id for s in object_list]], with the objects as the reads leave
    them *)
Fixpoint item_ids (depth : nat) (object_list : list item)
    : M (list Z * list item) :=
  match object_list with
  | [] => mret ([], [])
  | s :: rest =>
      '(i, s) ← item_id depth s;
      '(ids, rest) ← item_ids depth rest;
      mret (i :: ids, s :: rest)
  end.

(** The loop of [fill_object_list] over [obj_ids] *)
Fixpoint fill_loop (cls : PyClass) (provided_series_ids : list Z)
    (object_list : list item) (obj_ids : list identity) : M (list item) :=
  match obj_ids with
  | [] => mret object_list
  | identity :: rest =>
      '(backend', i) ←
        match identity with
        | Id_int i => db ← get_DB; mret (backend db, i)
        | Id_pair b i => mret (b, i)
        end;
      if negb (int_in i provided_series_ids)
      then
        ph ← PlaceHolderObject__init__ i cls backend';
        fill_loop cls provided_series_ids (object_list ++ [inr ph]) rest
      else fill_loop cls provided_series_ids object_list rest
  end.

(** [fill_object_list(object_list, obj_ids, cls=None)] *)
Definition fill_object_list (depth : nat) (object_list : option (list item))
    (obj_ids : option (list identity)) (cls : option PyClass)
    : M (list item) :=
  cls ←
    match cls with
    | Some cls => mret cls
    | None =>
        match object_list with
        | None => raise TypeError
        | Some [] => raise IndexError
        | Some (first :: _) => mret (item_class first)
        end
    end;
  let object_list :=
    match object_list with
    | None | Some [] => []
    | Some l => l
    end in
  '(provided_series_ids, object_list) ← item_ids depth object_list;
  match obj_ids with
  | None | Some [] => mret object_list
  | Some obj_ids => fill_loop cls provided_series_ids object_list obj_ids
  end.

(** *** with_memory *)

(** The decorator: the wrapped function is any computation on the world. *)
Definition with_memory {A B} (function : A → M B) : A → M B :=
  λ args,
    set_DB_new_object_backend (BStr "memory");;
    to_return ← function args;
    set_DB_new_object_backend (BStr "none");;
    mret to_return.

End Model.

(** ** A small installation to run the model on

    Three registered backends and the three backend classes of the
    same names, a [thing_is_close] that is equality but for floats, and
    a memory of counters, one per table, counting from 1. *)

Module Installation.

(** The bits of a finite float that is not negative: those below the
    bits of infinity. *)
Definition finite_float (bits : Z) : bool :=
  (0 <=? bits) && (9218868437227405312 >? bits).

(** Two floats within the tolerance.  Of the tolerance only its least
    part is taken: the same double, or two finite doubles that are not
    negative and next to each other. *)
Definition float_close (x y : Z) : bool :=
  (x =? y) || (finite_float x && finite_float y && (Z.abs (x - y) <=? 1)).

(** Modelled from the spec: [thing_is_close] of [ixdat.tools], which is
    not among the sources.  Attributes are compared for being close
    enough: floats within a tolerance, everything else for equality, as
    the comments in [Saveable.__eq__] say as well; a list is close to a
    list of the same length whose elements are close one by one. *)
Fixpoint value_close (a b : value) : bool :=
  match a, b with
  | VNone, VNone => true
  | VBool x, VBool y => Bool.eqb x y
  | VInt x, VInt y => (x =? y)%Z
  | VFloat x, VFloat y => float_close x y
  | VStr x, VStr y => String.eqb x y
  | VList l, VList l' =>
      (fix all2 (l l' : list value) : bool :=
         match l, l' with
         | [], [] => true
         | x :: l, y :: l' => value_close x y && all2 l l'
         | _, _ => false
         end) l l'
  | _, _ => false
  end.

Definition none_backend : Backend := mkBackend 1 "none" "none" "none".
Definition memory_backend : Backend := mkBackend 2 "memory" "memory" "memory".
Definition directory_backend : Backend :=
  mkBackend 3 "directory" "directory" "./ixdat".

Definition counters : Type := list (option string * Z).

Fixpoint counter (table_name : option string) (s : counters) : Z :=
  match s with
  | [] => 0
  | (t, n) :: rest =>
      if table_name_eqb t table_name then n else counter table_name rest
  end.

Definition next_id (table_name : option string) (s : counters) : Z :=
  counter table_name s + 1.

Definition count (table_name : option string) (s : counters) : counters :=
  (table_name, next_id table_name s) :: s.

(** A new backend of the class registered as "none", "memory" or
    "directory". *)
Definition BackendBase (_ : kwargs) (s : counters)
    : result Backend * counters :=
  (Ok (mkBackend 12 "none" "none" "none"), s).

Definition MemoryBackend (_ : kwargs) (s : counters)
    : result Backend * counters :=
  (Ok (mkBackend 10 "memory" "memory" "memory"), s).

Definition DirBackend (_ : kwargs) (s : counters)
    : result Backend * counters :=
  (Ok (mkBackend 11 "directory" "directory" "./ixdat"), s).

(** An object with a name and nothing else, as a backend builds it. *)
Definition loaded (b : Backend) (cls : PyClass) (i : Z) : Saveable :=
  mkSaveable 100 cls (Some i) (BObj b) [("name", VStr "loaded")] [].

(** Only the row with id 1 exists. *)
Definition get (b : Backend) (cls : PyClass) (i : Z) (s : counters)
    : result Saveable * counters :=
  if (i =? 1)%Z then (Ok (loaded b cls i), s)
  else (Raise (CollaboratorError "no such row"), s).

Definition get_next_available_id (b : Backend) (table_name : option string)
    (obj : Saveable) (s : counters) : result Z * counters :=
  (Ok (next_id table_name s), count table_name s).

(** Saving gives the object the backend, and an id when it has none. *)
Definition save (b : Backend) (obj : item) (s : counters)
    : result item * counters :=
  match obj with
  | inl o =>
      if id_truthy (_id o) then (Ok (inl (with_backend o (BObj b))), s)
      else
        let t := match class_attr decl_table_name (obj_class o) with
                 | Ok t => t
                 | Raise _ => None
                 end in
        (Ok (inl (with_backend (with_id o (Some (next_id t s))) (BObj b))),
         count t s)
  | inr ph => (Raise AttributeError, s)
  end.

Definition collaborators : Collaborators := {|
  store := counters;
  thing_is_close := value_close;
  database_backends :=
    [("none", none_backend); ("memory", memory_backend);
     ("directory", directory_backend)];
  BACKEND_CLASSES :=
    [("none", BackendBase); ("memory", MemoryBackend);
     ("directory", DirBackend)];
  backend_get := get;
  backend_save := save;
  backend_get_next_available_id := get_next_available_id
|}.

(** The world right after [DB = DataBase()]. *)
Definition w0 : @World collaborators :=
  @mkWorld collaborators (mkDataBase (BObj directory_backend) (BStr "none"))
    [] [] 1000%nat [].

(** The classes of the scenario: [Parent] with table "parent" and a
    column [name]; [Child(Parent)] with table "child" and the list
    "items". *)
Definition name_column : Column := Column__init__ "name" "str" None None.

Definition items : OwnedObjectList :=
  mkOwnedObjectList "items" "item" "child_item" None None.

Definition Parent : PyClass :=
  mkClass "Parent" [Saveable_class] (Some (Some "parent"))
    (Some [name_column]) None None None None None false.

(** [Child] as a class body that sets [table_name] and
    [owned_object_lists] and nothing else. *)
Definition Child : PyClass :=
  mkClass "Child" [Parent] (Some (Some "child"))
    None (Some [items]) None None None None false.

(** [Child] as a class body that also sets [columns = []]. *)
Definition Child_with_empty_columns : PyClass :=
  mkClass "Child" [Parent] (Some (Some "child"))
    (Some []) (Some [items]) None None None None false.

(** Classes in the older style that [as_dict] and [__eq__] read: a series
    with a name, and a measurement with a name, a list of series and the
    linker attribute [s_ids]. *)
Definition Series : PyClass :=
  mkClass "Series" [Saveable_class] (Some (Some "series")) None None
    (Some (Some ["name"])) (Some []) (Some []) (Some []) false.

Definition Measurement : PyClass :=
  mkClass "Measurement" [Saveable_class] (Some (Some "measurement")) None None
    (Some (Some ["name"])) (Some [])
    (Some [("measurement_series", ("series", "s_ids"))])
    (Some ["series_list"]) false.

Definition series (uid : nat) (i : Z) (name : string) : Saveable :=
  mkSaveable uid Series (Some i) (BObj memory_backend)
    [("name", VStr name)] [].

Definition measurement (uid : nat) (name : string) (s_ids : list Z)
    (series_list : list item) : Saveable :=
  mkSaveable uid Measurement (Some 1) (BObj memory_backend)
    [("name", VStr name); ("s_ids", VList (map VInt s_ids))]
    [("series_list", series_list)].

(** A reading: a name and a measured value, a float. *)
Definition Reading : PyClass :=
  mkClass "Reading" [Saveable_class] (Some (Some "reading")) None None
    (Some (Some ["name"; "value"])) (Some []) (Some []) (Some []) false.

Definition reading (uid : nat) (name : string) (bits : Z) : Saveable :=
  mkSaveable uid Reading (Some 1) (BObj memory_backend)
    [("name", VStr name); ("value", VFloat bits)] [].

End Installation.

(** ** Comparisons of owned objects

    What it means for two elements of lists of owned objects to compare
    equal, to compare unequal, or just to be compared without an
    exception, when [!=] is evaluated on them with [depth] calls of
    [__eq__] still allowed, in whatever world. *)

Definition items_equal `{Collab : Collaborators} (depth : nat)
    (object other_object : item) : Prop :=
  ∀ w, ∃ w',
    item_ne (Saveable__eq__ depth) object other_object w = (Ok false, w').

Definition items_unequal `{Collab : Collaborators} (depth : nat)
    (object other_object : item) : Prop :=
  ∀ w, ∃ w',
    item_ne (Saveable__eq__ depth) object other_object w = (Ok true, w').

Definition items_comparable `{Collab : Collaborators} (depth : nat)
    (object other_object : item) : Prop :=
  ∀ w, ∃ b w',
    item_ne (Saveable__eq__ depth) object other_object w = (Ok b, w').

(** The two objects both have the list [name], and a property holds of
    every pair that [zip] makes of the two lists. *)
Definition lists_related (R : item → item → Prop) (self other : Saveable)
    (name : string) : Prop :=
  ∃ l l', getattr_list self name = Ok l
          ∧ getattr_list other name = Ok l'
          ∧ Forall (λ p, R p.1 p.2) (zip l l').

(** An element of an object list whose id can be read without any
    effect: a placeholder, or an object that has its id. *)
Definition has_id (s : item) : Prop :=
  match s with
  | inl obj => id_truthy (_id obj) = true
  | inr _ => True
  end.

(** The id that such an element holds. *)
Definition stored_id (s : item) : Z :=
  match s with
  | inl obj => default 0 (_id obj)
  | inr ph => ph_id ph
  end.

(** What makes a backend one that a placeholder can carry. *)
Definition real_backend `{Collab : Collaborators} (b : backend_ref) : Prop :=
  truthy b = true ∧ equals_none_str b = false
  ∧ ∃ none, dict_get "none" database_backends = Some none
            ∧ is_same b (BObj none) = false.

(** The world after the allocation of one object. *)
Definition allocated `{Collab : Collaborators} (w : World) : World :=
  mkWorld (DB w) (stdout w) (calls w) (S (next_uid w)) (stores w).

(** ** Orders on lists of classes

    A class contributes to the column resolution order when it is a
    subclass of [Saveable] other than [Saveable] itself.  A method
    resolution order lists children first: no class is a subclass of one
    listed before it.  A column resolution order lists parents first: no
    class is a subclass of one listed after it. *)

Definition contributes (c : PyClass) : bool :=
  issubclass c Saveable_class && negb (same_class c Saveable_class).

Fixpoint children_first (l : list PyClass) : bool :=
  match l with
  | [] => true
  | a :: rest =>
      forallb (λ b, negb (issubclass b a)) rest && children_first rest
  end.

Fixpoint parents_first (l : list PyClass) : bool :=
  match l with
  | [] => true
  | a :: rest =>
      forallb (λ b, negb (issubclass a b)) rest && parents_first rest
  end.

(** One turn of the loop of [get_column_resolution_order]. *)
Definition cro_step (cro : list PyClass) (c : PyClass) : list PyClass :=
  if contributes c then cro_insert c cro else cro.

(** A class that stands right under [Saveable] and declares its table
    name and its columns. *)
Definition root_table_class (name : string) (table_name : option string)
    (columns : list Column) (owned_object_lists : list OwnedObjectList)
    : PyClass :=
  mkClass name [Saveable_class] (Some table_name) (Some columns)
    (Some owned_object_lists) None None None None false.


(** The same for [get_full_owned_object_lists]. *)
Definition lists_distinct (acc : list OwnedObjectList * list string) : Prop :=
  acc.2 = map list_name acc.1 ∧ NoDup acc.2.

(** A small hierarchy with a diamond: [A] under [Saveable], [B] and [C]
    under [A], [D] under [B] and [C]; each has its own table. *)

Module Hierarchy.

Definition table_class_named (name : string) (bases : list PyClass)
    (table_name : string) (columns : list Column) : PyClass :=
  mkClass name bases (Some (Some table_name)) (Some columns) (Some [])
    None None None None false.

Definition A : PyClass :=
  table_class_named "A" [Saveable_class] "a"
    [Column__init__ "name" "str" None None].

Definition B : PyClass :=
  table_class_named "B" [A] "b" [Column__init__ "x" "float" None None].

Definition C : PyClass :=
  table_class_named "C" [A] "c" [Column__init__ "y" "float" None None].

Definition D : PyClass :=
  table_class_named "D" [B; C] "d" [Column__init__ "z" "float" None None].

End Hierarchy.

(** A class right under another one, whose body declares neither a table
    name nor columns nor owned object lists. *)
Definition plain_subclass (name : string) (base : PyClass) : PyClass :=
  mkClass name [base] None None None None None None None false.

(** A class right under [Saveable] whose body declares columns and no
    table name. *)
Definition untabled_root_class (name : string) (columns : list Column)
    : PyClass :=
  mkClass name [Saveable_class] None (Some columns) None
    None None None None false.

(** ** What an element of [obj_ids] stands for

    The id, and the backend that a placeholder built for it carries: the
    backend of the pair when it is truthy, the active backend else. *)

Definition identity_id (x : identity) : Z :=
  match x with
  | Id_int i => i
  | Id_pair _ i => i
  end.

Definition identity_backend (active : backend_ref) (x : identity)
    : backend_ref :=
  match x with
  | Id_int _ => active
  | Id_pair b _ => py_or b active
  end.

(** The placeholders that [fill_object_list] appends for [obj_ids], the
    first one allocated at [uid]. *)
Fixpoint new_placeholders (cls : PyClass) (active : backend_ref)
    (provided : list Z) (uid : nat) (obj_ids : list identity) : list item :=
  match obj_ids with
  | [] => []
  | x :: rest =>
      if int_in (identity_id x) provided
      then new_placeholders cls active provided uid rest
      else inr (mkPlaceHolderObject uid (identity_id x) cls
                  (identity_backend active x))
           :: new_placeholders cls active provided (S uid) rest
  end.

(** The world after the allocation of [n] objects. *)
Definition allocated_n `{Collab : Collaborators} (n : nat) (w : World)
    : World :=
  mkWorld (DB w) (stdout w) (calls w) (n + next_uid w) (stores w).


(** The dictionary [d] is the serialisation of the attributes [names] of
    [self] that are not in [exclude]: its keys are those names, each
    once, and its values are the attributes. *)
Definition serialises (self : Saveable) (exclude names : list string)
    (d : dict value) : Prop :=
  NoDup (map fst d)
  ∧ ∀ k v, dict_get k d = Some v
           ↔ In k names ∧ str_in k exclude = false ∧ getattr self k = Ok v.

(** The names that [as_dict] serialises: the column attributes, those of
    the auxiliary tables and the linker attributes. *)
Definition serialised_names (column_attrs : list string)
    (extra_column_attrs : dict (list string))
    (extra_linkers : dict (string * string)) : list string :=
  column_attrs ++ concat (map snd extra_column_attrs)
  ++ map (λ linker, linker.2.2) extra_linkers.

(** An owned object that [as_dict] takes as saved: its backend is not
    the registered "none" backend [none]. *)
Definition saved (none : Backend) (child_obj : item) : Prop :=
  match child_obj with
  | inl obj =>
      truthy (_backend obj) = true
      ∧ is_same (_backend obj) (BObj none) = false
  | inr ph => is_same (ph_backend ph) (BObj none) = false
  end.

(** An owned object that [as_dict] takes as unsaved: it has no backend
    yet, or the registered "none" backend [none]. *)
Definition unsaved (none : Backend) (child_obj : item) : Prop :=
  match child_obj with
  | inl obj =>
      truthy (_backend obj) = false
      ∨ is_same (_backend obj) (BObj none) = true
  | inr ph => is_same (ph_backend ph) (BObj none) = true
  end.

(** Two elements of lists of owned objects, at least one of them a
    placeholder, that are not one and the same object.  A placeholder
    is an instance of [PlaceHolderObject], which no [Saveable] is. *)
Definition placeholder_mismatch (object other_object : item) : Prop :=
  match object, other_object with
  | inr ph, inr ph' => ph_uid ph ≠ ph_uid ph'
  | inl obj, inr ph | inr ph, inl obj =>
      obj_uid obj ≠ ph_uid ph
      ∧ same_class (obj_class obj) PlaceHolderObject_class = false
  | inl _, inl _ => False
  end.

(** * [ixdat.readers.reading_tools]

    ** The collaborators of [reading_tools.py]

    The module [time] of the standard library and the file system behind
    [Path.stat].  A float is truthy unless it is zero; each of the
    functions either returns or raises; [time_time] is what [time.time()]
    returns when it is called. *)

Class TimeModule : Type := {
  struct_time : Type;
  py_float : Type;
  py_float_truthy : py_float → bool;
  strptime : string → string → result struct_time;
  mktime : struct_time → result py_float;
  localtime : py_float → result struct_time;
  strftime : string → struct_time → result string;
  time_time : py_float;
  st_mtime : string → result py_float
}.

(** The argument [default] of [prompt_for_tstamp]: a string, a number,
    or a value of another type. *)
Inductive default_arg `{Time : TimeModule} : Type :=
| Default_str (s : string)
| Default_number (x : py_float)
| Default_other.

(** What the terminal shows: the prompt of [input], with the four values
    it is formatted from, and the message printed for an entry that did
    not parse. *)
Inductive terminal_output `{Time : TimeModule} : Type :=
| Please_input (path_to_file form : string) (default : default_arg)
    (default_timestring : string)
| Could_not_parse (timestamp_string form : string).

(** The terminal: the lines the user is going to type, and what has been
    shown. *)
Record terminal `{Time : TimeModule} : Type := mkTerminal {
  typed : list string;
  shown : list terminal_output
}.
Arguments mkTerminal {Time} typed shown.

Definition STANDARD_TIMESTAMP_FORM : string := "%m/%d/%Y %H:%M:%S".

Section ReadingTools.
Context `{Time : TimeModule}.

(** The loop of [timestamp_string_to_tstamp] over [forms]: a form that
    parses sets [struct], a [ValueError] is passed over, and either way
    the loop goes on with the next form. *)
Fixpoint try_forms (timestamp_string : string) (struct : option struct_time)
    (forms : list string) : result (option struct_time) :=
  match forms with
  | [] => Ok struct
  | form :: forms' =>
      match strptime timestamp_string form with
      | Ok struct' => try_forms timestamp_string (Some struct') forms'
      | Raise ValueError => try_forms timestamp_string struct forms'
      | Raise e => Raise e
      end
  end.

(** [time.mktime(struct)]: [None] is no time tuple. *)
Definition call_mktime (struct : option struct_time) : result py_float :=
  match struct with
  | Some struct => mktime struct
  | None => Raise TypeError
  end.

(** [timestamp_string_to_tstamp(timestamp_string, form, forms)]; the
    default of [form] is [None], that of [forms] is
    [[STANDARD_TIMESTAMP_FORM]]. *)
Definition timestamp_string_to_tstamp (timestamp_string : string)
    (form : option string) (forms : list string) : result py_float :=
  let forms :=
    match form with
    | Some form => if String.eqb form "" then forms else [form]
    | None => forms
    end in
  struct ← try_forms timestamp_string None forms;
  tstamp ← call_mktime struct;
  Ok tstamp.

(** [time.mktime(time.strptime(timestamp_string, form))] *)
Definition mktime_strptime (timestamp_string form : string)
    : result py_float :=
  struct ← strptime timestamp_string form; mktime struct.

(** The choice of [default_tstamp] in [prompt_for_tstamp] *)
Definition choose_default_tstamp (path_to_file : string)
    (default : default_arg) : result py_float :=
  match default with
  | Default_str s =>
      if String.eqb s "creation" then st_mtime path_to_file
      else if String.eqb s "now" then Ok time_time
      else Raise TypeError
  | Default_number x => Ok x
  | Default_other => Raise TypeError
  end.

(** The [while] loop of [prompt_for_tstamp]: each turn reads one line.
    At the end of the input, [input] raises [EOFError]. *)
Fixpoint prompt_loop (path_to_file form : string) (default : default_arg)
    (default_timestring : string) (typed : list string)
    (shown : list terminal_output) : result (option py_float) * terminal :=
  let shown :=
    shown ++ [Please_input path_to_file form default default_timestring] in
  match typed with
  | [] => (Raise (CollaboratorError "EOFError"), mkTerminal [] shown)
  | timestamp_string :: typed' =>
      if String.eqb timestamp_string "" then (Ok None, mkTerminal typed' shown)
      else
        match mktime_strptime timestamp_string form with
        | Ok tstamp => (Ok (Some tstamp), mkTerminal typed' shown)
        | Raise ValueError =>
            prompt_loop path_to_file form default default_timestring typed'
              (shown ++ [Could_not_parse timestamp_string form])
        | Raise e => (Raise e, mkTerminal typed' shown)
        end
  end.

(** [prompt_for_tstamp(path_to_file, default, form)]; the default of
    [default] is ["creation"], that of [form] is
    [STANDARD_TIMESTAMP_FORM]. *)
Definition prompt_for_tstamp (path_to_file : string) (default : default_arg)
    (form : string) (t : terminal) : result py_float * terminal :=
  match
    default_tstamp ← choose_default_tstamp path_to_file default;
    local ← localtime default_tstamp;
    default_timestring ← strftime form local;
    Ok (default_tstamp, default_timestring)
  with
  | Raise e => (Raise e, t)
  | Ok (default_tstamp, default_timestring) =>
      match prompt_loop path_to_file form default default_timestring
              (typed t) (shown t) with
      | (Ok tstamp, t') =>
          (Ok match tstamp with
              | Some tstamp =>
                  if py_float_truthy tstamp then tstamp else default_tstamp
              | None => default_tstamp
              end,
           t')
      | (Raise e, t') => (Raise e, t')
      end
  end.

End ReadingTools.

(** ** A clock for examples

    Two forms are known: ["%Y"] reads a year in digits, ["%s"] reads
    seconds since the epoch; a year has 365 days. *)

Module Clock.

Fixpoint digits (s : string) (acc : Z) : option Z :=
  match s with
  | EmptyString => Some acc
  | String c s' =>
      let n := Z.of_N (Ascii.N_of_ascii c) - 48 in
      if (0 <=? n) && (n <=? 9) then digits s' (10 * acc + n) else None
  end.

Definition number (s : string) : result Z :=
  match s, digits s 0 with
  | EmptyString, _ | _, None => Raise ValueError
  | _, Some n => Ok n
  end.

Definition year : Z := 31536000.

Definition parse (timestamp_string form : string) : result Z :=
  if String.eqb form "%Y"
  then n ← number timestamp_string; Ok ((n - 1970) * year)
  else if String.eqb form "%s" then number timestamp_string
  else Raise ValueError.

Definition format (form : string) (seconds : Z) : result string :=
  if String.eqb form "%Y"
  then Ok (if seconds <? year then "1970" else "later")
  else if String.eqb form "%s"
  then Ok (if seconds =? 0 then "0" else "later")
  else Raise ValueError.

Definition time_module : TimeModule := {|
  struct_time := Z;
  py_float := Z;
  py_float_truthy := λ x, negb (x =? 0);
  strptime := parse;
  mktime := λ seconds, Ok seconds;
  localtime := λ seconds, Ok seconds;
  strftime := format;
  time_time := 1700000000;
  st_mtime := λ path_to_file,
    if String.eqb path_to_file "" then Raise (CollaboratorError "no such file")
    else Ok 1600000000
|}.

End Clock.
(** * Properties *)

(** ** Reasoning about computations in the world *)

Section Computations.
Context `{Collab : Collaborators}.

Lemma bind_Ok {A B} (m : M A) (k : A → M B) w a w' :
  m w = (Ok a, w') → (m ≫= k) w = k a w'.
Proof. intros E. unfold mbind, M_bind. now rewrite E. Qed.

Lemma bind_Raise {A B} (m : M A) (k : A → M B) w e w' :
  m w = (Raise e, w') → (m ≫= k) w = (Raise e, w').
Proof. intros E. unfold mbind, M_bind. now rewrite E. Qed.

Lemma bind_Ok_inv {A B} (m : M A) (k : A → M B) w b w'' :
  (m ≫= k) w = (Ok b, w'') →
  ∃ a w', m w = (Ok a, w') ∧ k a w' = (Ok b, w'').
Proof.
  unfold mbind, M_bind. destruct (m w) as [[a|e] w'] eqn:E; intros K.
  - eauto.
  - discriminate.
Qed.

Lemma lift_Ok_inv {A} (r : result A) w a w' :
  lift r w = (Ok a, w') → r = Ok a ∧ w' = w.
Proof. unfold lift. intros [= -> ->]. auto. Qed.

(** A call into a collaborator leaves the facade and the output alone. *)
Lemma collaborate_DB {A} c (f : store → result A * store) w :
  DB (collaborate c f w).2 = DB w.
Proof. unfold collaborate. now destruct (f (stores w)). Qed.

Lemma call_get_DB b cls i w : DB (call_get b cls i w).2 = DB w.
Proof. destruct b; simpl; trivial. apply collaborate_DB. Qed.

Lemma DataBase_get_DB cls i b w : DB (DataBase_get cls i b w).2 = DB w.
Proof.
  unfold DataBase_get, get_DB, mbind, M_bind, mret, M_ret.
  pose proof (call_get_DB (py_or b (backend (DB w))) cls i w) as E.
  destruct (call_get _ cls i w) as [[obj|e] w']; exact E.
Qed.

(** Setting the backend to something that is not a name returns it and
    changes nothing but the active backend. *)
Lemma DataBase_set_backend_object b kw w :
  (∀ s, b ≠ BStr s) →
  DataBase_set_backend b kw w =
    (Ok b, mkWorld (mkDataBase b (new_object_backend (DB w)))
             (stdout w) (calls w) (next_uid w) (stores w)).
Proof. intros Hb. destruct b; try reflexivity. now destruct (Hb s). Qed.

(** Whatever [set_backend] is given, what it returns is the active
    backend it leaves. *)
Lemma DataBase_set_backend_returns b kw w r w' :
  DataBase_set_backend b kw w = (Ok r, w') → backend (DB w') = r.
Proof.
  unfold DataBase_set_backend.
  destruct b as [|s|b]; try (intros [= <- <-]; reflexivity).
  destruct (dict_get s BACKEND_CLASSES) as [C|]; [|discriminate].
  unfold instantiate, collaborate, mbind, M_bind, mret, M_ret.
  destruct (C kw (stores w)) as [[b|e] st]; [|discriminate].
  intros [= <- <-]. reflexivity.
Qed.

(** When [set_backend] raises, the active backend is the one before. *)
Lemma DataBase_set_backend_raises b kw w e w' :
  DataBase_set_backend b kw w = (Raise e, w') → DB w' = DB w.
Proof.
  unfold DataBase_set_backend.
  destruct b as [|s|b]; try discriminate.
  destruct (dict_get s BACKEND_CLASSES) as [C|]; [|intros [= _ <-]; reflexivity].
  unfold instantiate, collaborate, mbind, M_bind, mret, M_ret.
  destruct (C kw (stores w)) as [[b|e'] st]; [discriminate|].
  intros [= _ <-]. reflexivity.
Qed.

End Computations.

(** ** The class method [get] and the active backend *)

(** C1, as amended.  [T.get(i, backend=b)] first switches the active
    backend.  When the switch raises, the active backend is as it was.
    When the switch and the underlying [get] both return, [T.get]
    returns the object and [DB.backend] is as it was before the call,
    provided it was a backend object or [None] and not a bare name.
    When the underlying [get] raises, the exception leaves [T.get] at
    once and the active backend stays the one that the switch
    installed. *)
Theorem Saveable_get_restores_on_return `{Collab : Collaborators}
    (cls : PyClass) (i : Z) (b : backend_ref) (w : World) :
  (∀ e w1, DataBase_set_backend (py_or b (backend (DB w))) [] w
             = (Raise e, w1) →
     Saveable_get cls i b w = (Raise e, w1)
     ∧ backend (DB w1) = backend (DB w))
  ∧ (∀ r w1 obj w2,
       (∀ s, backend (DB w) ≠ BStr s) →
       DataBase_set_backend (py_or b (backend (DB w))) [] w = (Ok r, w1) →
       DataBase_get cls i BNone w1 = (Ok obj, w2) →
       ∃ w', Saveable_get cls i b w = (Ok obj, w')
             ∧ backend (DB w') = backend (DB w))
  ∧ (∀ r w1 e w2,
       DataBase_set_backend (py_or b (backend (DB w))) [] w = (Ok r, w1) →
       DataBase_get cls i BNone w1 = (Raise e, w2) →
       Saveable_get cls i b w = (Raise e, w2) ∧ backend (DB w2) = r).
Proof.
  split; [|split].
  - intros e w1 K. split.
    + unfold Saveable_get, get_DB.
      unfold mbind at 1, M_bind at 1.
      now rewrite (bind_Raise _ _ _ _ _ K).
    + now rewrite (DataBase_set_backend_raises _ _ _ _ _ K).
  - intros r w1 obj w2 Hold K1 K2. eexists.
    unfold Saveable_get, get_DB.
    unfold mbind at 1, M_bind at 1.
    rewrite (bind_Ok _ _ _ _ _ K1).
    rewrite (bind_Ok _ _ _ _ _ K2).
    rewrite (bind_Ok _ _ _ _ _
               (DataBase_set_backend_object (backend (DB w)) [] w2 Hold)).
    split; reflexivity.
  - intros r w1 e w2 K1 K2. split.
    + unfold Saveable_get, get_DB.
      unfold mbind at 1, M_bind at 1.
      rewrite (bind_Ok _ _ _ _ _ K1).
      now rewrite (bind_Raise _ _ _ _ _ K2).
    + pose proof (DataBase_get_DB cls i BNone w1) as E. rewrite K2 in E.
      simpl in E. rewrite E.
      exact (DataBase_set_backend_returns _ _ _ _ _ K1).
Qed.

Lemma Saveable_get_restores_on_return_witness :
  ∃ obj w',
    @Saveable_get Installation.collaborators Installation.Parent 1
      (BObj Installation.memory_backend) Installation.w0 = (Ok obj, w')
    ∧ backend (DB w') = BObj Installation.directory_backend.
Proof.
  destruct (proj1 (proj2 (@Saveable_get_restores_on_return
                            Installation.collaborators Installation.Parent 1
                            (BObj Installation.memory_backend)
                            Installation.w0)) _ _ _ _
              ltac:(discriminate) eq_refl eq_refl) as (w' & E & R).
  eexists _, w'. split; [exact E | exact R].
Defined.

(** C1 as stated fails: the row 7 does not exist in the memory backend,
    [get] raises, and the active backend, the directory backend before
    the call, is the memory backend after it. *)
Lemma Saveable_get_not_restored_on_raise :
  ∃ e w',
    @Saveable_get Installation.collaborators Installation.Parent 7
      (BObj Installation.memory_backend) Installation.w0 = (Raise e, w')
    ∧ backend (DB Installation.w0) = BObj Installation.directory_backend
    ∧ backend (DB w') = BObj Installation.memory_backend
    ∧ backend (DB w') ≠ backend (DB Installation.w0).
Proof.
  eexists _, _. split; [vm_compute; reflexivity|].
  repeat split. discriminate.
Qed.

(** ** The decorator [with_memory] *)

(** C2, as amended.  The wrapped function starts in a world whose
    [DB.new_object_backend] is "memory".  When it returns, the decorator
    sets the routing to "none" and returns the same value.  When it
    raises, the exception leaves the decorator at once: the world is the
    one the function left, routing included. *)
Theorem with_memory_routing `{Collab : Collaborators} {A B}
    (function : A → M B) (args : A) (w : World) :
  let w_in := mkWorld (mkDataBase (backend (DB w)) (BStr "memory"))
                (stdout w) (calls w) (next_uid w) (stores w) in
  new_object_backend (DB w_in) = BStr "memory"
  ∧ (∀ r w2, function args w_in = (Ok r, w2) →
       ∃ w', with_memory function args w = (Ok r, w')
             ∧ new_object_backend (DB w') = BStr "none"
             ∧ backend (DB w') = backend (DB w2))
  ∧ (∀ e w2, function args w_in = (Raise e, w2) →
       with_memory function args w = (Raise e, w2)).
Proof.
  intros w_in. split; [reflexivity|]. split.
  - intros r w2 K. eexists. unfold with_memory.
    unfold mbind at 1, M_bind at 1. simpl. fold w_in.
    rewrite (bind_Ok _ _ _ _ _ K). simpl. auto.
  - intros e w2 K. unfold with_memory.
    unfold mbind at 1, M_bind at 1. simpl. fold w_in.
    now rewrite (bind_Raise _ _ _ _ _ K).
Qed.

Lemma with_memory_routing_witness :
  ∃ w', @with_memory Installation.collaborators unit Z
          (λ _, mret 7) () Installation.w0 = (Ok 7, w')
        ∧ new_object_backend (DB w') = BStr "none".
Proof.
  destruct (proj1 (proj2 (@with_memory_routing Installation.collaborators
                            unit Z (λ _, mret 7) () Installation.w0))
              7 _ eq_refl) as (w' & E & R & _).
  exists w'. split; [exact E | exact R].
Defined.

(** C2 as stated fails: a wrapped function that raises leaves the
    routing at "memory". *)
Lemma with_memory_not_restored_on_raise :
  ∃ w', @with_memory Installation.collaborators unit unit
          (λ _, raise ValueError) () Installation.w0 = (Raise ValueError, w')
        ∧ new_object_backend (DB Installation.w0) = BStr "none"
        ∧ new_object_backend (DB w') = BStr "memory".
Proof. eexists. split; [vm_compute; reflexivity|]. split; reflexivity. Qed.

(** ** Switching the backend by name *)



(** ** Merging columns and owned object lists over a hierarchy *)

(** C3, as amended.  Let [Parent] have the table "parent" and one
    column, and let [Child(Parent)] have the table "child", the one list
    of owned objects and a column list that its body sets to the empty
    list.  Both classes pass the checks made at class creation, the full
    columns of [Child] are the columns of [Parent], and its full owned
    object lists are the one list, once. *)
Theorem Child_full_columns_and_lists (column : Column)
    (owned_object_list : OwnedObjectList) :
  let Parent := mkClass "Parent" [Saveable_class] (Some (Some "parent"))
                  (Some [column]) None None None None None false in
  let Child := mkClass "Child" [Parent] (Some (Some "child"))
                  (Some []) (Some [owned_object_list])
                  None None None None false in
  SaveableMetaClass__new__ Parent = Ok Parent
  ∧ SaveableMetaClass__new__ Child = Ok Child
  ∧ class_attr decl_columns Parent = Ok [column]
  ∧ get_full_columns Child = Ok [column]
  ∧ get_full_owned_object_lists Child = Ok [owned_object_list].
Proof. intros Parent Child. repeat split; vm_compute; reflexivity. Qed.

(** C3 as stated fails when the body of [Child] says nothing about
    columns: [Child.columns] is then the list inherited from [Parent],
    the column [name] is met a second time, and [get_full_columns]
    raises [ValueError]. *)
Lemma Child_without_columns_raises :
  decl_columns Installation.Child = None
  ∧ class_attr decl_columns Installation.Child
    = Ok [Installation.name_column]
  ∧ get_full_columns Installation.Child = Raise ValueError.
Proof. repeat split; vm_compute; reflexivity. Qed.

(** ** The property [id] *)

Section Identity.
Context `{Collab : Collaborators}.

(** The getter of [backend] never touches the world; it returns the
    backend the object has, or gives it the registered "none" backend. *)
Lemma Saveable_backend_unfold self w :
  Saveable_backend self w =
    if truthy (_backend self) then (Ok (_backend self, self), w)
    else match dict_get "none" database_backends with
         | Some none => (Ok (BObj none, with_backend self (BObj none)), w)
         | None => (Raise KeyError, w)
         end.
Proof.
  unfold Saveable_backend, subscript.
  destruct (truthy (_backend self)); simpl; trivial.
  destruct (dict_get "none" database_backends); reflexivity.
Qed.

Lemma Saveable_backend_Ok self w r self0 w0 :
  Saveable_backend self w = (Ok (r, self0), w0) →
  w0 = w ∧ _backend self0 = r ∧ truthy r = true
  ∧ _id self0 = _id self ∧ obj_uid self0 = obj_uid self
  ∧ obj_class self0 = obj_class self ∧ obj_attrs self0 = obj_attrs self.
Proof.
  rewrite Saveable_backend_unfold.
  destruct (truthy (_backend self)) eqn:T.
  - intros [= <- <- <-]. auto 10.
  - destruct (dict_get "none" database_backends); [|discriminate].
    intros [= <- <- <-]. simpl. auto 10.
Qed.

(** Once the backend is set, the getter is a plain read. *)
Lemma Saveable_backend_again self w r self0 w0 w' :
  Saveable_backend self w = (Ok (r, self0), w0) →
  Saveable_backend self0 w' = (Ok (r, self0), w').
Proof.
  intros K. apply Saveable_backend_Ok in K as (_ & E & T & _).
  rewrite Saveable_backend_unfold, E, T. reflexivity.
Qed.

Lemma Saveable_backend_type_Ok self w b self0 w0 :
  Saveable_backend self w = (Ok (BObj b, self0), w0) →
  Saveable_backend_type self w = (Ok (backend_type_of b, self0), w0).
Proof.
  intros K. unfold Saveable_backend_type.
  rewrite (bind_Ok _ _ _ _ _ K). reflexivity.
Qed.

(** An object that has an id returns it, whatever the world. *)
Lemma Saveable_id_cached depth self i w :
  _id self = Some i → i ≠ 0 →
  Saveable_id (S depth) self w = (Ok (i, self), w).
Proof.
  intros E Hi. cbn [Saveable_id]. rewrite E. cbn [id_truthy].
  destruct (Z.eqb_spec i 0) as [->|_]; [now destruct Hi|]. reflexivity.
Qed.

(** An object without an id whose backend is of another type than "none"
    and "memory" never gets to raise its [DataBaseError]: formatting the
    message asks for the id again, and again, until the recursion limit. *)
Lemma Saveable_id_recursion depth self b w :
  id_truthy (_id self) = false →
  _backend self = BObj b →
  str_in (backend_type_of b) ["none"; "memory"] = false →
  Saveable_id depth self w = (Raise RecursionError, w).
Proof.
  intros Hid Hb Ht. induction depth as [|depth IH]; [reflexivity|].
  cbn [Saveable_id]. rewrite Hid. cbn [negb].
  assert (Saveable_backend self w = (Ok (BObj b, self), w)) as K
    by (rewrite Saveable_backend_unfold, Hb; reflexivity).
  rewrite (bind_Ok _ _ _ _ _ (Saveable_backend_type_Ok _ _ _ _ _ K)).
  cbn beta iota. rewrite Ht.
  unfold repr_with.
  rewrite (bind_Raise _ _ w RecursionError w); [reflexivity|].
  now rewrite (bind_Raise _ _ _ _ _ IH).
Qed.

End Identity.

(** C8.  Let an object have no id yet, let its backend be [b], of type
    "none" or "memory", and let [b] hand out the id [i], not 0, for the
    object's table.  The first read of [id] returns [i], stores it in
    [_id], and makes exactly one call to the backend, the call of
    [get_next_available_id]; every later read, in any world, returns [i]
    again and changes neither the object nor the world. *)
Theorem Saveable_id_assigned_once `{Collab : Collaborators}
    (self self0 : Saveable) (b : Backend) (table_name : option string)
    (i : Z) (st : store) (w : World) (depth : nat) :
  id_truthy (_id self) = false →
  Saveable_backend self w = (Ok (BObj b, self0), w) →
  str_in (backend_type_of b) ["none"; "memory"] = true →
  class_attr decl_table_name (obj_class self) = Ok table_name →
  backend_get_next_available_id b table_name self0 (stores w) = (Ok i, st) →
  i ≠ 0 →
  let self1 := with_id self0 (Some i) in
  let w1 := mkWorld (DB w) (stdout w)
              (calls w
               ++ [Call_get_next_available_id b table_name (obj_uid self)])
              (next_uid w) st in
  Saveable_id (S depth) self w = (Ok (i, self1), w1)
  ∧ _id self1 = Some i
  ∧ ∀ depth' w', Saveable_id (S depth') self1 w' = (Ok (i, self1), w').
Proof.
  intros Hid Hb Ht Htab Hnext Hi self1 w1.
  split; [|split; [reflexivity|]].
  - cbn [Saveable_id]. rewrite Hid. cbn [negb].
    rewrite (bind_Ok _ _ _ _ _ (Saveable_backend_type_Ok _ _ _ _ _ Hb)).
    cbn beta iota. rewrite Ht.
    rewrite (bind_Ok _ _ _ _ _ (Saveable_backend_again _ _ _ _ _ w Hb)).
    cbn beta iota.
    apply Saveable_backend_Ok in Hb as (_ & _ & _ & _ & Hu & Hc & _).
    unfold Saveable_table_name. rewrite Hc, Htab.
    unfold mbind at 1, M_bind at 1, lift.
    unfold call_get_next_available_id, collaborate.
    unfold mbind, M_bind. rewrite Hnext. cbn [mret M_ret].
    rewrite Hu. reflexivity.
  - intros depth' w'. now apply Saveable_id_cached.
Qed.

Lemma Saveable_id_assigned_once_witness :
  let e := mkSaveable 6 Installation.Parent None BNone
             [("name", VNone)] [] in
  ∃ e1 w1,
    @Saveable_id Installation.collaborators 1 e Installation.w0
      = (Ok (1, e1), w1)
    ∧ _id e1 = Some 1
    ∧ @Saveable_id Installation.collaborators 1 e1 w1 = (Ok (1, e1), w1).
Proof.
  intros e.
  pose proof (@Saveable_id_assigned_once Installation.collaborators
                e (with_backend e (BObj Installation.none_backend))
                Installation.none_backend (Some "parent") 1
                [(Some "parent", 1)] Installation.w0 0%nat
                eq_refl eq_refl) as H.
  destruct H as (H1 & H2 & H3).
  - reflexivity.
  - reflexivity.
  - reflexivity.
  - discriminate.
  - eexists _, _. split; [exact H1|]. split; [exact H2|]. apply H3.
Defined.

(** ** The setter of [backend] *)

Section Setter.
Context `{Collab : Collaborators}.

(** What the setter does with a non-empty name that no registry knows:
    it formats the object, prints the warning and keeps the name. *)
Lemma Saveable_backend_setter_unrecognized depth self s w :
  s ≠ "" →
  dict_get s database_backends = None →
  dict_get s BACKEND_CLASSES = None →
  Saveable_backend_setter depth self (BStr s) w =
    match Saveable__repr__ depth self w with
    | (Ok (cls, i, name, self1), w1) =>
        (Ok (with_backend self1 (BStr s)),
         mkWorld (DB w1)
           (stdout w1 ++ [WARNING_unrecognized_backend cls i name s])
           (calls w1) (next_uid w1) (stores w1))
    | (Raise e, w1) => (Raise e, w1)
    end.
Proof.
  intros Hs Hd Hc.
  unfold Saveable_backend_setter, get_DB.
  unfold mbind at 1, M_bind at 1.
  assert (py_or (BStr s) (new_object_backend (DB w)) = BStr s) as ->.
  { unfold py_or. cbn [truthy].
    destruct (String.eqb_spec s ""); [contradiction|]. reflexivity. }
  rewrite Hd, Hc.
  unfold mbind at 1, M_bind at 1.
  destruct (Saveable__repr__ depth self w) as [[[[[cls i] name] self1]|e] w1]
    eqn:Hr.
  - rewrite (bind_Ok _ _ _ _ _ Hr). reflexivity.
  - rewrite (bind_Raise _ _ _ _ _ Hr). reflexivity.
Qed.

End Setter.

(** C9, as amended.  Let [s] be a non-empty string that is a key of
    neither registry, and let the object be one that [__repr__] can
    format in the present world: its id is there or its backend hands
    one out, and it has a name.  Then assigning [s] to [backend] does not
    raise: the warning is printed and [_backend] is the string [s]. *)
Theorem backend_setter_keeps_unrecognized_name `{Collab : Collaborators}
    (depth : nat) (self self1 : Saveable) (s : string) (w w1 : World)
    (cls : string) (i : Z) (name : value) :
  s ≠ "" →
  dict_get s database_backends = None →
  dict_get s BACKEND_CLASSES = None →
  Saveable__repr__ depth self w = (Ok (cls, i, name, self1), w1) →
  Saveable_backend_setter depth self (BStr s) w
  = (Ok (with_backend self1 (BStr s)),
     mkWorld (DB w1)
       (stdout w1 ++ [WARNING_unrecognized_backend cls i name s])
       (calls w1) (next_uid w1) (stores w1))
  ∧ _backend (with_backend self1 (BStr s)) = BStr s.
Proof.
  intros Hs Hd Hc Hr. split; [|reflexivity].
  rewrite Saveable_backend_setter_unrecognized by assumption.
  now rewrite Hr.
Qed.

Lemma backend_setter_keeps_unrecognized_name_witness :
  let e := mkSaveable 6 Installation.Parent (Some 4)
             (BObj Installation.memory_backend) [("name", VNone)] [] in
  ∃ w', @Saveable_backend_setter Installation.collaborators 1 e
          (BStr "sqlite") Installation.w0
        = (Ok (with_backend e (BStr "sqlite")), w')
        ∧ stdout w' = [WARNING_unrecognized_backend "Parent" 4 VNone "sqlite"].
Proof.
  intros e. eexists. split.
  - refine (proj1 (@backend_setter_keeps_unrecognized_name
                     Installation.collaborators 1 e e "sqlite"
                     Installation.w0 Installation.w0 "Parent" 4 VNone
                     _ _ _ _)).
    + discriminate.
    + reflexivity.
    + reflexivity.
    + reflexivity.
  - reflexivity.
Defined.

(** C9 as stated fails: an object made with [backend="directory"] has
    the directory backend and no id; giving it the unknown name
    "sqlite" formats the object for the warning, which reads its id, and
    the setter raises, whatever the recursion limit. *)
Lemma backend_setter_raises_while_warning :
  let e := mkSaveable 5 Installation.Parent None
             (BObj Installation.directory_backend) [("name", VNone)] [] in
  dict_get "sqlite" (@database_backends Installation.collaborators) = None
  ∧ dict_get "sqlite" (@BACKEND_CLASSES Installation.collaborators) = None
  ∧ ∀ depth,
      @Saveable_backend_setter Installation.collaborators depth e
        (BStr "sqlite") Installation.w0
      = (Raise RecursionError, Installation.w0).
Proof.
  intros e. split; [reflexivity|]. split; [reflexivity|].
  intros depth.
  rewrite Saveable_backend_setter_unrecognized;
    [|discriminate|reflexivity|reflexivity].
  unfold Saveable__repr__, repr_with.
  rewrite (bind_Raise _ _ _ RecursionError Installation.w0); [reflexivity|].
  apply (Saveable_id_recursion depth e Installation.directory_backend);
    reflexivity.
Qed.

(** The empty string is falsy: the setter takes [DB.new_object_backend]
    in its place, and the object does not get the string. *)
Lemma backend_setter_empty_name :
  let e := mkSaveable 6 Installation.Parent (Some 4)
             (BObj Installation.memory_backend) [("name", VNone)] [] in
  @Saveable_backend_setter Installation.collaborators 1 e (BStr "")
    Installation.w0
  = (Ok (with_backend e (BObj Installation.none_backend)), Installation.w0).
Proof. vm_compute. reflexivity. Qed.

(** ** [fill_object_list] *)

Section Filling.
Context `{Collab : Collaborators}.

Lemma item_id_has_id depth s w :
  has_id s → item_id (S depth) s w = (Ok (stored_id s, s), w).
Proof.
  destruct s as [obj|ph]; cbn [has_id item_id stored_id]; intros H.
  - cbn [Saveable_id]. rewrite H. reflexivity.
  - reflexivity.
Qed.

Lemma item_ids_has_id depth object_list w :
  Forall has_id object_list →
  item_ids (S depth) object_list w
  = (Ok (map stored_id object_list, object_list), w).
Proof.
  induction 1 as [|s rest Hs _ IH]; [reflexivity|].
  cbn [item_ids map].
  rewrite (bind_Ok _ _ _ _ _ (item_id_has_id depth s w Hs)). cbn beta iota.
  rewrite (bind_Ok _ _ _ _ _ IH). reflexivity.
Qed.

Lemma PlaceHolderObject__init___real i cls b w :
  real_backend b →
  PlaceHolderObject__init__ i cls b w
  = (Ok (mkPlaceHolderObject (next_uid w) i cls b), allocated w).
Proof.
  intros (T & N & none & Hn & Hs).
  unfold PlaceHolderObject__init__, fresh_uid, get_DB, subscript.
  rewrite T. cbn [negb]. rewrite T, N, Hn. cbn [negb].
  unfold mbind, M_bind, mret, M_ret. rewrite Hs. reflexivity.
Qed.

(** One turn of the loop of [fill_object_list] at a bare id, under an
    active backend that a placeholder can carry. *)
Lemma fill_loop_bare_id cls ids object_list i rest w :
  real_backend (backend (DB w)) →
  fill_loop cls ids object_list (Id_int i :: rest) w =
    if int_in i ids then fill_loop cls ids object_list rest w
    else fill_loop cls ids
           (object_list
            ++ [inr (mkPlaceHolderObject (next_uid w) i cls (backend (DB w)))])
           rest (allocated w).
Proof.
  intros Hreal. cbn [fill_loop]. unfold get_DB.
  unfold mbind at 1, M_bind at 1.
  unfold mbind at 1, M_bind at 1. cbn [mret M_ret].
  destruct (int_in i ids); cbn [negb]; [reflexivity|].
  now rewrite (bind_Ok _ _ _ _ _
                 (PlaceHolderObject__init___real i cls _ w Hreal)).
Qed.

End Filling.

(** C10, as amended.  When no ids are asked for, a non-empty list whose
    objects all have their ids is returned as it was given, and the
    world is unchanged. *)
Theorem fill_object_list_without_ids `{Collab : Collaborators}
    (depth : nat) (object_list : list item)
    (obj_ids : option (list identity)) (cls : option PyClass) (w : World) :
  object_list ≠ [] →
  obj_ids = None ∨ obj_ids = Some [] →
  Forall has_id object_list →
  fill_object_list (S depth) (Some object_list) obj_ids cls w
  = (Ok object_list, w).
Proof.
  intros Hne Hids Hall.
  pose proof (item_ids_has_id depth object_list w Hall) as E.
  unfold fill_object_list.
  destruct object_list as [|first rest]; [now destruct Hne|].
  assert (∃ c, (match cls with
                | Some cls => mret cls
                | None => mret (item_class first)
                end : M PyClass) w = (Ok c, w)) as (c & Ec)
    by (destruct cls; eexists; reflexivity).
  rewrite (bind_Ok _ _ _ _ _ Ec).
  rewrite (bind_Ok _ _ _ _ _ E).
  destruct Hids as [-> | ->]; reflexivity.
Qed.

Lemma fill_object_list_without_ids_witness :
  let l := [inl (Installation.series 11 2 "a")] in
  @fill_object_list Installation.collaborators 1 (Some l) None None
    Installation.w0 = (Ok l, Installation.w0).
Proof.
  intros l.
  apply (@fill_object_list_without_ids Installation.collaborators 0 l None
           None Installation.w0).
  - discriminate.
  - left. reflexivity.
  - repeat constructor.
Defined.

(** C10 as stated fails.  The ids of the objects are read before
    [obj_ids] is looked at.  An object with the directory backend and no
    id makes that read raise, whatever the recursion limit, so that
    nothing is returned; an object that was never saved gets its id, 1,
    and the "none" backend on the way, so that the list comes back with
    a changed element. *)
Lemma fill_object_list_reads_ids_first :
  let e_dir := mkSaveable 5 Installation.Parent None
                 (BObj Installation.directory_backend)
                 [("name", VNone)] [] in
  let e_new := mkSaveable 6 Installation.Parent None BNone
                 [("name", VNone)] [] in
  (∀ depth,
     @fill_object_list Installation.collaborators depth (Some [inl e_dir])
       None None Installation.w0 = (Raise RecursionError, Installation.w0))
  ∧ ∃ w', @fill_object_list Installation.collaborators 1 (Some [inl e_new])
            None None Installation.w0
          = (Ok [inl (with_id (with_backend e_new
                                 (BObj Installation.none_backend))
                        (Some 1))], w')
          ∧ calls w' = [Call_get_next_available_id Installation.none_backend
                          (Some "parent") 6].
Proof.
  intros e_dir e_new. split.
  - intros depth. unfold fill_object_list.
    unfold mbind at 1, M_bind at 1. cbn [mret M_ret].
    rewrite (bind_Raise _ _ _ RecursionError Installation.w0); [reflexivity|].
    cbn [item_ids].
    rewrite (bind_Raise _ _ _ RecursionError Installation.w0); [reflexivity|].
    cbn [item_id].
    rewrite (bind_Raise _ _ _ RecursionError Installation.w0); [reflexivity|].
    apply (Saveable_id_recursion depth e_dir Installation.directory_backend).
    + reflexivity.
    + reflexivity.
    + reflexivity.
  - eexists. split; vm_compute; reflexivity.
Qed.

(** C6.  Let the active backend be one that a placeholder can carry:
    truthy, not the string "none" and not the registered "none" backend.
    For a class [T], filling the empty list with the ids 1, 2, 3 returns
    three placeholders for [T] with these ids and the active backend,
    and filling the list of one object whose id is 2 returns that object,
    as it was, followed by the placeholders for 1 and 3.  The active
    backend stays what it was. *)
Theorem fill_object_list_scenario `{Collab : Collaborators}
    (depth : nat) (T : PyClass) (entity_with_id_2 : Saveable) (w : World) :
  real_backend (backend (DB w)) →
  _id entity_with_id_2 = Some 2 →
  let active := backend (DB w) in
  let u := next_uid w in
  (∃ w', fill_object_list depth (Some [])
           (Some [Id_int 1; Id_int 2; Id_int 3]) (Some T) w
         = (Ok [inr (mkPlaceHolderObject u 1 T active);
                inr (mkPlaceHolderObject (S u) 2 T active);
                inr (mkPlaceHolderObject (S (S u)) 3 T active)], w')
         ∧ DB w' = DB w)
  ∧ (∃ w', fill_object_list (S depth) (Some [inl entity_with_id_2])
             (Some [Id_int 1; Id_int 2; Id_int 3]) (Some T) w
           = (Ok [inl entity_with_id_2;
                  inr (mkPlaceHolderObject u 1 T active);
                  inr (mkPlaceHolderObject (S u) 3 T active)], w')
           ∧ DB w' = DB w).
Proof.
  intros Hreal Hid active u. split.
  - exists (allocated (allocated (allocated w))). split; [|reflexivity].
    unfold fill_object_list.
    unfold mbind at 1, M_bind at 1. cbn [mret M_ret].
    assert (item_ids depth [] w = (Ok ([], []), w)) as E
      by (destruct depth; reflexivity).
    rewrite (bind_Ok _ _ _ _ _ E).
    rewrite !fill_loop_bare_id by exact Hreal. reflexivity.
  - exists (allocated (allocated w)). split; [|reflexivity].
    unfold fill_object_list.
    unfold mbind at 1, M_bind at 1. cbn [mret M_ret].
    assert (item_ids (S depth) [inl entity_with_id_2] w
            = (Ok ([2], [inl entity_with_id_2]), w)) as E.
    { rewrite item_ids_has_id.
      - cbn [map stored_id]. now rewrite Hid.
      - repeat constructor. cbn [has_id]. now rewrite Hid. }
    rewrite (bind_Ok _ _ _ _ _ E).
    rewrite !fill_loop_bare_id by exact Hreal. reflexivity.
Qed.

Lemma fill_object_list_scenario_witness :
  let e := Installation.series 11 2 "a" in
  let d := BObj Installation.directory_backend in
  (∃ w', @fill_object_list Installation.collaborators 1 (Some [])
           (Some [Id_int 1; Id_int 2; Id_int 3]) (Some Installation.Series)
           Installation.w0
         = (Ok [inr (mkPlaceHolderObject 1000 1 Installation.Series d);
                inr (mkPlaceHolderObject 1001 2 Installation.Series d);
                inr (mkPlaceHolderObject 1002 3 Installation.Series d)], w')
         ∧ DB w' = DB Installation.w0)
  ∧ (∃ w', @fill_object_list Installation.collaborators 1 (Some [inl e])
             (Some [Id_int 1; Id_int 2; Id_int 3]) (Some Installation.Series)
             Installation.w0
           = (Ok [inl e;
                  inr (mkPlaceHolderObject 1000 1 Installation.Series d);
                  inr (mkPlaceHolderObject 1001 3 Installation.Series d)], w')
           ∧ DB w' = DB Installation.w0).
Proof.
  intros e d.
  apply (@fill_object_list_scenario Installation.collaborators 0
           Installation.Series e Installation.w0).
  - split; [reflexivity|]. split; [reflexivity|].
    exists Installation.none_backend. split; vm_compute; reflexivity.
  - reflexivity.
Defined.

(** ** Structural equality *)

Section Equality.
Context `{Collab : Collaborators}.

Lemma for_eachM_invariant {A S} (P : S → Prop) (body : S → A → M S) l :
  (∀ s a w s' w', P s → body s a w = (Ok s', w') → P s') →
  ∀ s w s' w', P s → for_eachM body s l w = (Ok s', w') → P s'.
Proof.
  intros Hbody. induction l as [|a l IH]; intros s w s' w' Hs K.
  - injection K as <- _. exact Hs.
  - cbn [for_eachM] in K.
    apply bind_Ok_inv in K as (s1 & w1 & K1 & K2).
    eapply IH; [|exact K2]. eapply Hbody; eauto.
Qed.

(** When [as_dict] returns, the object is still of its class, and the
    class has [child_attrs] and [extra_linkers]. *)
Lemma Saveable_as_dict_Ok depth self exclude w m self' w' :
  Saveable_as_dict depth self exclude w = (Ok (m, self'), w') →
  obj_class self' = obj_class self
  ∧ (∃ child_attrs,
       class_attr decl_child_attrs (obj_class self) = Ok child_attrs)
  ∧ (∃ extra_linkers,
       class_attr decl_extra_linkers (obj_class self) = Ok extra_linkers).
Proof.
  unfold Saveable_as_dict. intros K.
  apply bind_Ok_inv in K as (child_attrs & w1 & K1 & K).
  apply lift_Ok_inv in K1 as (Hca & ->).
  apply bind_Ok_inv in K as (self1 & w2 & K2 & K).
  assert (obj_class self1 = obj_class self) as Hcls.
  { refine (for_eachM_invariant (λ s, obj_class s = obj_class self)
              _ _ _ _ _ _ _ eq_refl K2).
    intros s a w0 s' w0' Hs Kb.
    apply bind_Ok_inv in Kb as (children & w3 & _ & Kb).
    apply bind_Ok_inv in Kb as (children' & w4 & _ & Kb).
    injection Kb as <- _. exact Hs. }
  apply bind_Ok_inv in K as (d1 & w3 & _ & K).
  apply bind_Ok_inv in K as (eca & w4 & _ & K).
  apply bind_Ok_inv in K as (d2 & w5 & _ & K).
  apply bind_Ok_inv in K as (el & w6 & K6 & K).
  apply lift_Ok_inv in K6 as (Hel & ->).
  apply bind_Ok_inv in K as (d3 & w7 & _ & K).
  injection K as _ <- _.
  rewrite Hcls in Hel. eauto.
Qed.

Lemma zip_differs_all_equal depth l1 l2 :
  Forall (λ p, items_equal depth p.1 p.2) (zip l1 l2) →
  ∀ w, ∃ w',
    zip_differs (item_ne (Saveable__eq__ depth)) l1 l2 w = (Ok false, w').
Proof.
  revert l2. induction l1 as [|a l1 IH]; intros [|b l2] H w;
    try (eexists; reflexivity).
  apply Forall_cons in H as [Hab Hrest].
  destruct (Hab w) as (w1 & E). cbn [zip_differs].
  rewrite (bind_Ok _ _ _ _ _ E). now apply IH.
Qed.

Lemma zip_differs_comparable depth l1 l2 :
  Forall (λ p, items_comparable depth p.1 p.2) (zip l1 l2) →
  ∀ w, ∃ b w',
    zip_differs (item_ne (Saveable__eq__ depth)) l1 l2 w = (Ok b, w').
Proof.
  revert l2. induction l1 as [|a l1 IH]; intros [|b l2] H w;
    try (eexists _, _; reflexivity).
  apply Forall_cons in H as [Hab Hrest].
  destruct (Hab w) as ([|] & w1 & E); cbn [zip_differs];
    rewrite (bind_Ok _ _ _ _ _ E).
  - eexists _, _; reflexivity.
  - now apply IH.
Qed.

Lemma zip_differs_found depth n : ∀ l1 l2 c c',
  l1 !! n = Some c → l2 !! n = Some c' →
  items_unequal depth c c' →
  Forall (λ p, items_comparable depth p.1 p.2) (zip (take n l1) (take n l2)) →
  ∀ w, ∃ w',
    zip_differs (item_ne (Saveable__eq__ depth)) l1 l2 w = (Ok true, w').
Proof.
  induction n as [|n IH]; intros [|a l1] [|b l2] c c' H1 H2 Hne Hpre w;
    try discriminate.
  - injection H1 as ->. injection H2 as ->.
    destruct (Hne w) as (w1 & E). cbn [zip_differs].
    rewrite (bind_Ok _ _ _ _ _ E). eexists; reflexivity.
  - cbn [take zip_with] in Hpre. apply Forall_cons in Hpre as [Hab Hrest].
    destruct (Hab w) as ([|] & w1 & E); cbn [zip_differs];
      rewrite (bind_Ok _ _ _ _ _ E).
    + eexists; reflexivity.
    + eapply IH; eauto.
Qed.

Lemma lists_differ_all_equal depth self other child_attrs :
  Forall (lists_related (items_equal depth) self other) child_attrs →
  ∀ w, ∃ w',
    lists_differ (item_ne (Saveable__eq__ depth)) self other child_attrs w
    = (Ok false, w').
Proof.
  induction 1 as [|name rest (l & l' & E1 & E2 & Hall) _ IH]; intros w.
  - eexists; reflexivity.
  - cbn [lists_differ]. rewrite E1, E2.
    unfold mbind at 1, M_bind at 1, lift.
    unfold mbind at 1, M_bind at 1.
    destruct (zip_differs_all_equal depth l l' Hall w) as (w1 & E).
    rewrite (bind_Ok _ _ _ _ _ E). apply IH.
Qed.

Lemma lists_differ_found depth self other before name after l l' n c c' :
  Forall (lists_related (items_comparable depth) self other) before →
  getattr_list self name = Ok l →
  getattr_list other name = Ok l' →
  l !! n = Some c → l' !! n = Some c' →
  items_unequal depth c c' →
  Forall (λ p, items_comparable depth p.1 p.2) (zip (take n l) (take n l')) →
  ∀ w, ∃ w',
    lists_differ (item_ne (Saveable__eq__ depth)) self other
      (before ++ name :: after) w
    = (Ok true, w').
Proof.
  intros Hbefore E1 E2 H1 H2 Hne Hpre.
  induction Hbefore as [|name0 rest (l0 & l0' & E01 & E02 & Hall) _ IH];
    intros w.
  - cbn [app lists_differ]. rewrite E1, E2.
    unfold mbind at 1, M_bind at 1, lift.
    unfold mbind at 1, M_bind at 1.
    destruct (zip_differs_found depth n l l' c c' H1 H2 Hne Hpre w)
      as (w1 & E).
    rewrite (bind_Ok _ _ _ _ _ E). eexists; reflexivity.
  - cbn [app lists_differ]. rewrite E01, E02.
    unfold mbind at 1, M_bind at 1, lift.
    unfold mbind at 1, M_bind at 1.
    destruct (zip_differs_comparable depth l0 l0' Hall w)
      as ([|] & w1 & E); rewrite (bind_Ok _ _ _ _ _ E).
    + eexists; reflexivity.
    + apply IH.
Qed.

Lemma dict_get_Some_key {V} k (d : dict V) v :
  dict_get k d = Some v → In k (map fst d).
Proof.
  induction d as [|[k' v'] d IH]; [discriminate|]. cbn [dict_get map fst].
  destruct (String.eqb_spec k' k) as [->|_]; [now left|].
  intros H. right. now apply IH.
Qed.

Lemma dict_get_key {V} k (d : dict V) :
  In k (map fst d) → ∃ v, dict_get k d = Some v.
Proof.
  induction d as [|[k' v'] d IH]; [intros []|]. cbn [dict_get map fst].
  destruct (String.eqb_spec k' k) as [->|Hne]; [eauto|].
  intros [E|H]; [now destruct Hne|]. now apply IH.
Qed.

(** The loop over the keys finds nothing when the two dictionaries are
    the same and every value is close to itself. *)
Lemma keys_agree (m : dict value) linker_id_names :
  (∀ k v, dict_get k m = Some v → thing_is_close v v = true) →
  existsb (key_differs m m linker_id_names) (map fst m) = false.
Proof.
  intros Hrefl. apply not_true_is_false. intros H.
  apply existsb_exists in H as (k & Hin & Hd).
  destruct (dict_get_key k m Hin) as (v & Hv).
  unfold key_differs, dict_has in Hd. rewrite Hv in Hd. cbn [negb] in Hd.
  destruct (str_in k linker_id_names);
    rewrite (Hrefl k v Hv) in Hd; discriminate.
Qed.

(** The loop over the keys returns [False] at a key whose two values are
    not close, if not before. *)
Lemma keys_disagree (m m' : dict value) linker_id_names k v v' :
  dict_get k m = Some v → dict_get k m' = Some v' →
  thing_is_close v v' = false →
  existsb (key_differs m m' linker_id_names) (map fst m) = true.
Proof.
  intros H1 H2 Hc. apply existsb_exists. exists k. split.
  - eapply dict_get_Some_key, H1.
  - unfold key_differs, dict_has. rewrite H1, H2. cbn [negb].
    destruct (str_in k linker_id_names); now rewrite Hc.
Qed.

(** [__eq__] on two distinct objects of one class, up to the comparison
    of the lists of owned objects. *)
Lemma Saveable__eq___unfold depth self other w m self' w1 m' other' w2
    extra_linkers child_attrs :
  obj_uid self ≠ obj_uid other →
  same_class (obj_class self) (obj_class other) = true →
  Saveable_as_dict depth self [] w = (Ok (m, self'), w1) →
  Saveable_as_dict depth other [] w1 = (Ok (m', other'), w2) →
  class_attr decl_extra_linkers (obj_class self) = Ok extra_linkers →
  class_attr decl_child_attrs (obj_class self) = Ok child_attrs →
  Saveable__eq__ (S depth) self (inl other) w =
    if negb (Nat.eqb (length m) (length m')) then (Ok false, w2)
    else if existsb
              (key_differs m m'
                 (map (λ '(_, (_, id_name)), id_name) extra_linkers))
              (map fst m)
    then (Ok false, w2)
    else (d ← lists_differ (item_ne (Saveable__eq__ depth))
                self' other' child_attrs;
          mret (negb d)) w2.
Proof.
  intros Hu Hc K1 K2 Hel Hca.
  destruct (Saveable_as_dict_Ok _ _ _ _ _ _ _ K1) as (Hcls & _ & _).
  cbn [Saveable__eq__ item_uid item_class].
  destruct (Nat.eqb_spec (obj_uid self) (obj_uid other)) as [E|_];
    [now destruct Hu|].
  rewrite Hc. cbn [negb].
  rewrite (bind_Ok _ _ _ _ _ K1). cbn beta iota.
  rewrite (bind_Ok _ _ _ _ _ K2). cbn beta iota.
  destruct (negb (Nat.eqb (length m) (length m'))); [reflexivity|].
  rewrite Hcls, Hel. unfold mbind at 1, M_bind at 1, lift.
  destruct (existsb _ (map fst m)); [reflexivity|].
  rewrite Hca. reflexivity.
Qed.

End Equality.

(** C7, as amended.  Let [self] and [other] be two distinct objects of
    one class whose [as_dict] both return, with the dictionaries [m] and
    [m'].
    (a) If [m'] is [m], every value of [m] is close to itself, and for
    every name in [child_attrs] the pairs that [zip] makes of the two
    lists compare equal, then [self == other] is [True].
    (b) If at some key the two dictionaries hold values that
    [thing_is_close] does not take as close, then [self == other] is
    [False]; a value changed within the tolerance is not told.
    (c) If in some list of owned objects the elements at some position
    compare unequal, and the pairs before it, in that list and in the
    lists named before it, are compared without an exception, then
    [self == other] is [False]. *)
Theorem structural_equality `{Collab : Collaborators} (depth : nat)
    (self other self' other' : Saveable) (m m' : dict value)
    (w w1 w2 : World) :
  obj_uid self ≠ obj_uid other →
  obj_class self = obj_class other →
  Saveable_as_dict depth self [] w = (Ok (m, self'), w1) →
  Saveable_as_dict depth other [] w1 = (Ok (m', other'), w2) →
  (m' = m →
   (∀ k v, dict_get k m = Some v → thing_is_close v v = true) →
   (∀ child_attrs,
      class_attr decl_child_attrs (obj_class self) = Ok child_attrs →
      Forall (lists_related (items_equal depth) self' other') child_attrs) →
   ∃ w', Saveable__eq__ (S depth) self (inl other) w = (Ok true, w'))
  ∧ (∀ k v v',
       dict_get k m = Some v → dict_get k m' = Some v' →
       thing_is_close v v' = false →
       Saveable__eq__ (S depth) self (inl other) w = (Ok false, w2))
  ∧ (∀ before name after l l' n c c',
       class_attr decl_child_attrs (obj_class self)
       = Ok (before ++ name :: after) →
       Forall (lists_related (items_comparable depth) self' other') before →
       getattr_list self' name = Ok l →
       getattr_list other' name = Ok l' →
       l !! n = Some c → l' !! n = Some c' →
       items_unequal depth c c' →
       Forall (λ p, items_comparable depth p.1 p.2)
         (zip (take n l) (take n l')) →
       ∃ w', Saveable__eq__ (S depth) self (inl other) w = (Ok false, w')).
Proof.
  intros Hu Hcls K1 K2.
  assert (same_class (obj_class self) (obj_class other) = true) as Hc
    by (unfold same_class; rewrite Hcls; apply String.eqb_refl).
  destruct (Saveable_as_dict_Ok _ _ _ _ _ _ _ K1)
    as (_ & (child_attrs & Hca) & (extra_linkers & Hel)).
  rewrite (Saveable__eq___unfold depth self other w m self' w1 m' other' w2
             extra_linkers child_attrs Hu Hc K1 K2 Hel Hca).
  split; [|split].
  - intros -> Hrefl Hlists.
    rewrite Nat.eqb_refl. cbn [negb].
    rewrite keys_agree by exact Hrefl.
    destruct (lists_differ_all_equal depth self' other' child_attrs
                (Hlists _ Hca) w2) as (w' & E).
    rewrite (bind_Ok _ _ _ _ _ E). eexists; reflexivity.
  - intros k v v' H1 H2 Hclose.
    destruct (negb (Nat.eqb (length m) (length m'))); [reflexivity|].
    now rewrite (keys_disagree m m' _ k v v' H1 H2 Hclose).
  - intros before name after l l' n c c' Hca' Hbefore E1 E2 H1 H2 Hne Hpre.
    destruct (negb (Nat.eqb (length m) (length m'))); [eexists; reflexivity|].
    destruct (existsb _ (map fst m)); [eexists; reflexivity|].
    rewrite Hca' in Hca. injection Hca as <-.
    destruct (lists_differ_found depth self' other' before name after
                l l' n c c' Hbefore E1 E2 H1 H2 Hne Hpre w2) as (w' & E).
    rewrite (bind_Ok _ _ _ _ _ E). eexists; reflexivity.
Qed.

Lemma structural_equality_witness :
  let x := Installation.series 11 1 "x" in
  let y := Installation.series 12 2 "y" in
  let x' := Installation.series 21 1 "x" in
  let y' := Installation.series 22 2 "y" in
  let a := Installation.measurement 1 "m" [1; 2] [inl x; inl y] in
  let same := Installation.measurement 2 "m" [1; 2] [inl x'; inl y'] in
  let renamed := Installation.measurement 3 "n" [1; 2] [inl x'; inl y'] in
  let reordered := Installation.measurement 4 "m" [1; 2] [inl y'; inl x'] in
  (∃ w', @Saveable__eq__ Installation.collaborators 2 a (inl same)
           Installation.w0 = (Ok true, w'))
  ∧ @Saveable__eq__ Installation.collaborators 2 a (inl renamed)
      Installation.w0 = (Ok false, Installation.w0)
  ∧ (∃ w', @Saveable__eq__ Installation.collaborators 2 a (inl reordered)
             Installation.w0 = (Ok false, w')).
Proof.
  intros x y x' y' a same renamed reordered.
  set (d := [("name", VStr "m"); ("s_ids", VList [VInt 1; VInt 2])]).
  split; [|split].
  - refine (proj1 (@structural_equality Installation.collaborators 1
                     a same a same d d Installation.w0 Installation.w0
                     Installation.w0 _ eq_refl eq_refl eq_refl) eq_refl _ _).
    + discriminate.
    + intros k v H. unfold d in H. cbn [dict_get] in H.
      destruct (String.eqb "name" k); [injection H as <-; reflexivity|].
      destruct (String.eqb "s_ids" k); [injection H as <-; reflexivity|].
      discriminate.
    + intros child_attrs [= <-]. repeat constructor.
      exists [inl x; inl y], [inl x'; inl y'].
      split; [reflexivity|]. split; [reflexivity|].
      repeat constructor; intros w0; exists w0; reflexivity.
  - refine (proj1 (proj2 (@structural_equality Installation.collaborators 1
                     a renamed a renamed d
                     [("name", VStr "n"); ("s_ids", VList [VInt 1; VInt 2])]
                     Installation.w0 Installation.w0
                     Installation.w0 _ eq_refl eq_refl eq_refl))
              "name" (VStr "m") (VStr "n") eq_refl eq_refl eq_refl).
    discriminate.
  - refine (proj2 (proj2 (@structural_equality Installation.collaborators 1
                     a reordered a reordered d d
                     Installation.w0 Installation.w0
                     Installation.w0 _ eq_refl eq_refl eq_refl))
              [] "series_list" [] [inl x; inl y] [inl y'; inl x'] 0%nat
              (inl x) (inl y') eq_refl _ eq_refl eq_refl eq_refl eq_refl _ _).
    + discriminate.
    + constructor.
    + intros w0. exists w0. reflexivity.
    + constructor.
Defined.

(** C7 as stated fails: being close is not being equal.  Two readings
    with the same name whose values are two neighbouring floats, 1.0 and
    the double after it, differ in one attribute and compare equal,
    whatever the recursion limit. *)
Lemma eq_accepts_close_floats :
  let a := Installation.reading 1 "r" 4607182418800017408 in
  let b := Installation.reading 2 "r" 4607182418800017409 in
  obj_uid a ≠ obj_uid b
  ∧ obj_class a = obj_class b
  ∧ getattr a "name" = getattr b "name"
  ∧ getattr a "value" ≠ getattr b "value"
  ∧ ∀ depth,
      @Saveable__eq__ Installation.collaborators (S depth) a (inl b)
        Installation.w0 = (Ok true, Installation.w0).
Proof.
  intros a b. split; [discriminate|]. split; [reflexivity|].
  split; [reflexivity|]. split; [discriminate|].
  intros depth. reflexivity.
Qed.

(** ** The linker id columns *)

(** The list of linker id names has no effect on the comparison at a
    key: [pass] lets the key through to [thing_is_close]. *)
Lemma key_differs_linker_names `{Collab : Collaborators}
    (m m' : dict value) (linker_id_names : list string) (key : string) :
  key_differs m m' linker_id_names key = key_differs m m' [] key.
Proof.
  unfold key_differs. now destruct (str_in key linker_id_names).
Qed.

(** C5 fails on the code.  Two measurements with the same name and with
    lists of series that compare equal, whose linker id column [s_ids]
    is [[1]] for the one and [[2]] for the other, compare unequal,
    whatever the recursion limit. *)
Lemma eq_compares_linker_ids :
  let s := Installation.series 11 1 "x" in
  let s' := Installation.series 12 2 "x" in
  let a := Installation.measurement 1 "m" [1] [inl s] in
  let b := Installation.measurement 2 "m" [2] [inl s'] in
  class_attr decl_extra_linkers (obj_class a)
  = Ok [("measurement_series", ("series", "s_ids"))]
  ∧ @items_equal Installation.collaborators 1 (inl s) (inl s')
  ∧ ∀ depth,
      @Saveable__eq__ Installation.collaborators (S depth) a (inl b)
        Installation.w0 = (Ok false, Installation.w0).
Proof.
  intros s s' a b. split; [reflexivity|]. split.
  - intros w. exists w. reflexivity.
  - intros depth. reflexivity.
Qed.

(** * Further properties *)

(** ** The column resolution order *)

Section Resolution.

Lemma cro_insert_Permutation c l : cro_insert c l ≡ₚ c :: l.
Proof.
  induction l as [|x l IH]; [reflexivity|]. cbn [cro_insert].
  destruct (issubclass x c); [reflexivity|].
  rewrite IH. apply Permutation_swap.
Qed.

Lemma fold_left_pointwise {A B} (f g : A → B → A) (l : list B) :
  (∀ a b, f a b = g a b) → ∀ a, fold_left f l a = fold_left g l a.
Proof.
  intros H. induction l as [|b l IH]; intros a; [reflexivity|].
  cbn [fold_left]. now rewrite H, IH.
Qed.

Lemma get_column_resolution_order_fold cls l :
  mro cls = Some l →
  get_column_resolution_order cls = Ok (fold_left cro_step l []).
Proof.
  intros E. unfold get_column_resolution_order. rewrite E. f_equal.
  apply fold_left_pointwise. intros cro c. unfold cro_step, contributes.
  destruct (issubclass c Saveable_class); [|reflexivity].
  now destruct (same_class c Saveable_class).
Qed.

Lemma cro_fold_Permutation l : ∀ acc,
  fold_left cro_step l acc ≡ₚ List.filter contributes l ++ acc.
Proof.
  induction l as [|c l IH]; intros acc; [reflexivity|].
  cbn [fold_left List.filter]. rewrite IH. unfold cro_step.
  destruct (contributes c); [|reflexivity].
  rewrite cro_insert_Permutation. cbn [app].
  now rewrite Permutation_middle.
Qed.

Lemma cro_insert_elem c l x : In x (cro_insert c l) → x = c ∨ In x l.
Proof.
  intros H.
  apply (Permutation_in _ (cro_insert_Permutation c l)) in H.
  destruct H as [<-|H]; auto.
Qed.

Lemma parents_first_cons a rest :
  parents_first (a :: rest)
  = forallb (λ b, negb (issubclass a b)) rest && parents_first rest.
Proof. reflexivity. Qed.

Lemma cro_insert_parents_first c l :
  parents_first l = true →
  forallb (λ b, negb (issubclass c b)) l = true →
  parents_first (cro_insert c l) = true.
Proof.
  induction l as [|x l IH]; intros Hl Hc; [reflexivity|].
  cbn [cro_insert]. destruct (issubclass x c) eqn:Hx.
  - rewrite parents_first_cons. now rewrite Hc, Hl.
  - rewrite parents_first_cons in *. cbn [forallb] in Hc.
    apply andb_true_iff in Hl as [Hxl Hl].
    apply andb_true_iff in Hc as [_ Hc].
    apply andb_true_iff. split; [|now apply IH].
    apply forallb_forall. intros y Hy.
    apply cro_insert_elem in Hy as [->|Hy].
    + now rewrite Hx.
    + rewrite forallb_forall in Hxl. now apply Hxl.
Qed.

Lemma cro_fold_parents_first l : ∀ acc,
  children_first l = true →
  parents_first acc = true →
  (∀ x y, In x acc → In y l → issubclass y x = false) →
  parents_first (fold_left cro_step l acc) = true.
Proof.
  induction l as [|c l IH]; intros acc Hl Hacc Hcross; [exact Hacc|].
  cbn [fold_left]. cbn [children_first] in Hl.
  apply andb_true_iff in Hl as [Hcl Hl].
  rewrite forallb_forall in Hcl.
  apply IH; [exact Hl| |].
  - unfold cro_step. destruct (contributes c); [|exact Hacc].
    apply cro_insert_parents_first; [exact Hacc|].
    apply forallb_forall. intros x Hx.
    rewrite (Hcross x c Hx); [reflexivity|now left].
  - intros x y Hx Hy. unfold cro_step in Hx.
    destruct (contributes c).
    + apply cro_insert_elem in Hx as [->|Hx].
      * apply negb_true_iff, Hcl, Hy.
      * apply Hcross; [exact Hx|now right].
    + apply Hcross; [exact Hx|now right].
Qed.

Lemma cro_insert_last c l z :
  last l = Some z → issubclass z c = true →
  last (cro_insert c l) = Some z.
Proof.
  induction l as [|x l IH]; [discriminate|]. intros Hz Hc.
  cbn [cro_insert]. destruct (issubclass x c) eqn:Hx.
  - now rewrite last_cons, Hz.
  - destruct l as [|y l].
    + cbn in Hz. injection Hz as ->. congruence.
    + rewrite last_cons in Hz. cbn [last] in Hz.
      assert (last (y :: l) = Some z) as Hz'
        by (destruct (last (y :: l)) eqn:E; [exact Hz|
            apply last_None in E; discriminate]).
      rewrite last_cons, (IH Hz' Hc). reflexivity.
Qed.

Lemma cro_fold_last l : ∀ acc z,
  last acc = Some z →
  (∀ c, In c l → issubclass z c = true) →
  last (fold_left cro_step l acc) = Some z.
Proof.
  induction l as [|c l IH]; intros acc z Hz Hsub; [exact Hz|].
  cbn [fold_left]. apply IH; [|intros c' Hc'; apply Hsub; now right].
  unfold cro_step. destruct (contributes c); [|exact Hz].
  apply cro_insert_last; [exact Hz|]. apply Hsub. now left.
Qed.

(** The resolution order of a class starts with the class. *)
Lemma mro_head cls l : mro cls = Some l → ∃ rest, l = cls :: rest.
Proof.
  destruct cls as [n bases t c o ca eca el cha skip]. cbn [mro].
  match goal with |- context [match ?m with Some _ => _ | None => _ end] =>
    destruct m as [ls|]; [|discriminate] end.
  destruct (mro_merge _ _) as [m|]; [|discriminate].
  intros [= <-]. eauto.
Qed.

End Resolution.

(** X1.  The column resolution order of a class holds the classes of
    its method resolution order that are subclasses of [Saveable],
    [Saveable] itself left out, each as often as there: none is lost and
    none is added. *)
Theorem get_column_resolution_order_Permutation (cls : PyClass)
    (l : list PyClass) :
  mro cls = Some l →
  ∃ cro, get_column_resolution_order cls = Ok cro
         ∧ cro ≡ₚ List.filter contributes l.
Proof.
  intros E. eexists.
  split; [exact (get_column_resolution_order_fold cls l E)|].
  rewrite cro_fold_Permutation. now rewrite app_nil_r.
Qed.

Lemma get_column_resolution_order_Permutation_witness :
  ∃ cro, get_column_resolution_order Hierarchy.D = Ok cro
         ∧ cro ≡ₚ [Hierarchy.D; Hierarchy.B; Hierarchy.C; Hierarchy.A].
Proof.
  apply (get_column_resolution_order_Permutation Hierarchy.D
           [Hierarchy.D; Hierarchy.B; Hierarchy.C; Hierarchy.A;
            Saveable_class]).
  reflexivity.
Defined.

(** X2.  When the method resolution order lists children first, as
    Python's does, the column resolution order lists parents first: no
    class in it is a subclass of one that comes after it. *)
Theorem get_column_resolution_order_parents_first (cls : PyClass)
    (l : list PyClass) :
  mro cls = Some l →
  children_first l = true →
  ∃ cro, get_column_resolution_order cls = Ok cro
         ∧ parents_first cro = true.
Proof.
  intros E Hl. eexists.
  split; [exact (get_column_resolution_order_fold cls l E)|].
  apply cro_fold_parents_first; [exact Hl|reflexivity|].
  intros x y [].
Qed.

Lemma get_column_resolution_order_parents_first_witness :
  ∃ cro, get_column_resolution_order Hierarchy.D = Ok cro
         ∧ parents_first cro = true.
Proof.
  apply (get_column_resolution_order_parents_first Hierarchy.D
           [Hierarchy.D; Hierarchy.B; Hierarchy.C; Hierarchy.A;
            Saveable_class]);
    reflexivity.
Defined.

(** X3.  The class itself comes last in its column resolution order,
    when it is a subclass of [Saveable] other than [Saveable]. *)
Theorem get_column_resolution_order_last (cls : PyClass) (l : list PyClass) :
  mro cls = Some l →
  contributes cls = true →
  ∃ cro, get_column_resolution_order cls = Ok cro ∧ last cro = Some cls.
Proof.
  intros E Hc. eexists.
  split; [exact (get_column_resolution_order_fold cls l E)|].
  destruct (mro_head cls l E) as (rest & ->).
  cbn [fold_left]. unfold cro_step at 2. rewrite Hc. cbn [cro_insert].
  apply cro_fold_last; [reflexivity|].
  intros c Hin. unfold issubclass. rewrite E.
  apply existsb_exists. exists c. split; [now right|].
  unfold same_class. apply String.eqb_refl.
Qed.

Lemma get_column_resolution_order_last_witness :
  ∃ cro, get_column_resolution_order Hierarchy.D = Ok cro
         ∧ last cro = Some Hierarchy.D.
Proof.
  apply (get_column_resolution_order_last Hierarchy.D
           [Hierarchy.D; Hierarchy.B; Hierarchy.C; Hierarchy.A;
            Saveable_class]);
    reflexivity.
Defined.

(** ** The merged columns and owned object lists *)

Section Merging.

Lemma result_bind_Ok_inv {A B} (r : result A) (k : A → result B) b :
  r ≫= k = Ok b → ∃ a, r = Ok a ∧ k a = Ok b.
Proof. destruct r as [a|e]; [eauto|discriminate]. Qed.

Lemma for_each_invariant {A S} (P : S → Prop) (body : S → A → result S) l :
  (∀ s a s', P s → body s a = Ok s' → P s') →
  ∀ s s', P s → for_each body s l = Ok s' → P s'.
Proof.
  intros Hbody. induction l as [|a l IH]; intros s s' Hs K.
  - injection K as <-. exact Hs.
  - cbn [for_each] in K. apply result_bind_Ok_inv in K as (s1 & K1 & K2).
    eapply IH; [|exact K2]. eapply Hbody; eauto.
Qed.

Lemma str_in_true x l : str_in x l = true ↔ In x l.
Proof.
  unfold str_in. rewrite existsb_exists. split.
  - intros (y & Hy & E). apply String.eqb_eq in E. now subst.
  - intros H. exists x. split; [exact H|apply String.eqb_refl].
Qed.

Lemma str_in_false x l : str_in x l = false ↔ ¬ In x l.
Proof.
  rewrite <- str_in_true. destruct (str_in x l); split; congruence.
Qed.

Lemma NoDup_snoc {A} (l : list A) x : NoDup l → ¬ In x l → NoDup (l ++ [x]).
Proof.
  intros Hl Hx. apply NoDup_app. split; [exact Hl|]. split.
  - intros y Hy Hy'. apply list_elem_of_singleton in Hy'. subst.
    apply Hx. now apply list_elem_of_In.
  - apply NoDup_singleton.
Qed.


Lemma add_owned_object_list_distinct acc owned_object_list acc' :
  lists_distinct acc →
  add_owned_object_list acc owned_object_list = Ok acc' →
  lists_distinct acc'.
Proof.
  destruct acc as [ls attrs]. intros [E N]. cbn [fst snd] in *.
  unfold add_owned_object_list.
  destruct (str_in (list_name owned_object_list) attrs) eqn:Hin;
    [discriminate|].
  intros [= <-]. split; cbn [fst snd].
  - now rewrite map_app, E.
  - apply NoDup_snoc; [exact N|]. now apply str_in_false.
Qed.


Lemma get_full_owned_object_lists_distinct cls l :
  get_full_owned_object_lists cls = Ok l → NoDup (map list_name l).
Proof.
  unfold get_full_owned_object_lists. intros K.
  apply result_bind_Ok_inv in K as (cro & _ & K).
  apply result_bind_Ok_inv in K as (acc & K & E). injection E as <-.
  enough (lists_distinct acc.1) as [E N] by now rewrite <- E.
  refine (for_each_invariant (λ acc, lists_distinct acc.1)
            _ _ _ _ _ _ K); [|split; [reflexivity|constructor]].
  intros [[ls attrs] tc] parent_class acc' Hacc Kb.
  apply result_bind_Ok_inv in Kb as (table_name & _ & Kb).
  destruct (is_Some_b _); [injection Kb as <-; exact Hacc|].
  apply result_bind_Ok_inv in Kb as (ools & _ & Kb).
  apply result_bind_Ok_inv in Kb as (lists & Kl & Kb).
  injection Kb as <-. cbn [fst].
  refine (for_each_invariant lists_distinct _ _ _ _ _ Hacc Kl).
  intros s a s'. apply add_owned_object_list_distinct.
Qed.

End Merging.



(** X5.  Whenever [get_full_owned_object_lists] returns, no two of the
    descriptors it returns have the same list name. *)
Theorem get_full_owned_object_lists_NoDup (cls : PyClass)
    (l : list OwnedObjectList) :
  get_full_owned_object_lists cls = Ok l → NoDup (map list_name l).
Proof. apply get_full_owned_object_lists_distinct. Qed.

Lemma get_full_owned_object_lists_NoDup_witness :
  ∃ l, get_full_owned_object_lists Installation.Child_with_empty_columns
       = Ok l
       ∧ NoDup (map list_name l) ∧ length l = 1%nat.
Proof.
  eexists. split; [reflexivity|].
  split; [|reflexivity].
  exact (get_full_owned_object_lists_NoDup
           Installation.Child_with_empty_columns _ eq_refl).
Defined.


Section Roots.

Lemma same_class_refl c : same_class c c = true.
Proof. apply String.eqb_refl. Qed.

Lemma mro_root name table_name columns owned_object_lists :
  mro (root_table_class name table_name columns owned_object_lists)
  = Some [root_table_class name table_name columns owned_object_lists;
          Saveable_class].
Proof. reflexivity. Qed.

Lemma mro_plain_subclass name base_name table_name columns owned_object_lists :
  base_name ≠ "Saveable" →
  let base := root_table_class base_name table_name columns
                owned_object_lists in
  mro (plain_subclass name base)
  = Some [plain_subclass name base; base; Saveable_class].
Proof.
  intros Hb base.
  assert (same_class base Saveable_class = false) as E
    by now apply String.eqb_neq.
  change (mro (plain_subclass name base))
    with (option_map (cons (plain_subclass name base))
            (mro_merge 4 [[base; Saveable_class]; [base]])).
  cbn [mro_merge List.filter nonempty mro_candidate existsb in_tail tail
       map drop_head option_map orb].
  rewrite E. cbn [orb]. rewrite same_class_refl.
  cbn [mro_merge List.filter nonempty mro_candidate existsb in_tail tail
       map drop_head option_map orb].
  reflexivity.
Qed.

Lemma contributes_root name table_name columns owned_object_lists :
  name ≠ "Saveable" →
  contributes (root_table_class name table_name columns owned_object_lists)
  = true.
Proof.
  intros Hn. unfold contributes, issubclass. rewrite mro_root.
  cbn [existsb]. rewrite same_class_refl, orb_true_r. cbn [andb].
  apply negb_true_iff. now apply String.eqb_neq.
Qed.

Lemma cro_root name table_name columns owned_object_lists :
  name ≠ "Saveable" →
  let cls := root_table_class name table_name columns owned_object_lists in
  get_column_resolution_order cls = Ok [cls].
Proof.
  intros Hn cls.
  rewrite (get_column_resolution_order_fold cls _ (mro_root _ _ _ _)).
  cbn [fold_left]. unfold cro_step.
  rewrite contributes_root by exact Hn. reflexivity.
Qed.

Lemma cro_plain_subclass name base_name table_name columns
    owned_object_lists :
  name ≠ "Saveable" → base_name ≠ "Saveable" →
  let base := root_table_class base_name table_name columns
                owned_object_lists in
  get_column_resolution_order (plain_subclass name base)
  = Ok [base; plain_subclass name base].
Proof.
  intros Hn Hb base.
  pose proof (mro_plain_subclass name base_name table_name columns
                owned_object_lists Hb) as E. cbv zeta in E. fold base in E.
  rewrite (get_column_resolution_order_fold _ _ E).
  assert (contributes (plain_subclass name base) = true) as C1.
  { unfold contributes, issubclass. rewrite E. cbn [existsb].
    rewrite same_class_refl, !orb_true_r. cbn [andb].
    apply negb_true_iff. now apply String.eqb_neq. }
  assert (issubclass (plain_subclass name base) base = true) as C2.
  { unfold issubclass. rewrite E. cbn [existsb].
    now rewrite same_class_refl, orb_true_r. }
  assert (contributes base = true) as C3
    by now apply contributes_root.
  cbn [fold_left]. unfold cro_step. rewrite C1, C3.
  cbn [cro_insert]. rewrite C2. reflexivity.
Qed.

Lemma table_name_eqb_refl t : table_name_eqb t t = true.
Proof. destruct t; [apply String.eqb_refl|reflexivity]. Qed.

Lemma add_column_fresh table_classes cols attrs c :
  str_in (column_attribute_name c) attrs = false →
  add_column table_classes (cols, attrs) c
  = Ok (cols ++ [c], attrs ++ [column_attribute_name c]).
Proof. intros E. unfold add_column. now rewrite E. Qed.

Lemma add_column_repeated table_classes cols attrs c :
  str_in (column_attribute_name c) attrs = true →
  column_foreign_key c = None →
  add_column table_classes (cols, attrs) c = Raise ValueError.
Proof.
  intros E Hc. unfold add_column, refers_to_known_column.
  now rewrite E, Hc.
Qed.

(** The loop over the columns of one class, when no attribute comes
    twice. *)
Lemma add_columns_fresh table_classes columns : ∀ cols attrs,
  NoDup (attrs ++ map column_attribute_name columns) →
  for_each (add_column table_classes) (cols, attrs) columns
  = Ok (cols ++ columns, attrs ++ map column_attribute_name columns).
Proof.
  induction columns as [|c columns IH]; intros cols attrs N.
  - cbn. now rewrite !app_nil_r.
  - cbn [for_each map].
    assert (str_in (column_attribute_name c) attrs = false) as E.
    { apply str_in_false. intros Hin.
      pose proof N as N'.
      apply NoDup_app in N' as (_ & N' & _).
      apply (N' (column_attribute_name c)).
      - now apply list_elem_of_In.
      - apply list_elem_of_here. }
    rewrite (add_column_fresh _ _ _ _ E).
    cbn [mbind result_bind]. rewrite IH.
    + now rewrite <- !app_assoc.
    + now rewrite <- app_assoc.
Qed.

(** The loop over the columns of one class, when an attribute comes
    twice and no column is a foreign key. *)
Lemma add_columns_repeated table_classes columns : ∀ cols attrs,
  Forall (λ c, column_foreign_key c = None) columns →
  NoDup attrs →
  ¬ NoDup (attrs ++ map column_attribute_name columns) →
  for_each (add_column table_classes) (cols, attrs) columns
  = Raise ValueError.
Proof.
  induction columns as [|c columns IH]; intros cols attrs Hfk N R.
  - destruct R. now rewrite app_nil_r.
  - apply Forall_cons in Hfk as [Hc Hfk].
    cbn [for_each].
    destruct (str_in (column_attribute_name c) attrs) eqn:Hin.
    + now rewrite (add_column_repeated _ _ _ _ Hin Hc).
    + rewrite (add_column_fresh _ _ _ _ Hin).
      cbn [mbind result_bind]. apply IH; [exact Hfk| |].
      * apply NoDup_snoc; [exact N|now apply str_in_false].
      * cbn [map] in R. now rewrite <- app_assoc.
Qed.

End Roots.

(** X6.  For a class right under [Saveable] that declares a table name
    and columns of which no two are for the same attribute, the full
    columns are the declared columns, in their order. *)
Theorem get_full_columns_of_root (name : string) (table_name : option string)
    (columns : list Column) (owned_object_lists : list OwnedObjectList) :
  name ≠ "Saveable" →
  NoDup (map column_attribute_name columns) →
  get_full_columns
    (root_table_class name table_name columns owned_object_lists)
  = Ok columns.
Proof.
  intros Hn N. unfold get_full_columns.
  rewrite cro_root by exact Hn. cbn [mbind result_bind for_each].
  change (class_attr decl_table_name
            (root_table_class name table_name columns owned_object_lists))
    with (Ok table_name).
  cbn [table_class is_Some_b].
  change (class_attr decl_columns
            (root_table_class name table_name columns owned_object_lists))
    with (Ok columns).
  cbn [mbind result_bind]. rewrite add_columns_fresh by exact N.
  reflexivity.
Qed.

Lemma get_full_columns_of_root_witness :
  get_full_columns Hierarchy.A = Ok [Column__init__ "name" "str" None None].
Proof.
  apply (get_full_columns_of_root "A" (Some "a")
           [Column__init__ "name" "str" None None] []).
  - discriminate.
  - repeat constructor. intros H. inversion H.
Defined.

(** X7.  For a class right under [Saveable] whose declared columns
    include two for the same attribute, none of the columns being a
    foreign key, [get_full_columns] raises [ValueError]. *)
Theorem get_full_columns_repeated_attribute (name : string)
    (table_name : option string) (columns : list Column)
    (owned_object_lists : list OwnedObjectList) :
  name ≠ "Saveable" →
  Forall (λ c, column_foreign_key c = None) columns →
  ¬ NoDup (map column_attribute_name columns) →
  get_full_columns
    (root_table_class name table_name columns owned_object_lists)
  = Raise ValueError.
Proof.
  intros Hn Hfk R. unfold get_full_columns.
  rewrite cro_root by exact Hn. cbn [mbind result_bind for_each].
  change (class_attr decl_table_name
            (root_table_class name table_name columns owned_object_lists))
    with (Ok table_name).
  cbn [table_class is_Some_b].
  change (class_attr decl_columns
            (root_table_class name table_name columns owned_object_lists))
    with (Ok columns).
  cbn [mbind result_bind].
  rewrite add_columns_repeated; [reflexivity|exact Hfk| |exact R].
  constructor.
Qed.

Lemma get_full_columns_repeated_attribute_witness :
  get_full_columns
    (root_table_class "Twice" (Some "twice")
       [Column__init__ "t" "float" None None;
        Column__init__ "time" "float" (Some "t") None] [])
  = Raise ValueError.
Proof.
  apply get_full_columns_repeated_attribute.
  - discriminate.
  - repeat constructor.
  - intros N. inversion N as [|? ? Hin _]; subst. apply Hin.
    apply list_elem_of_here.
Defined.


Section Subclasses.

Lemma class_attr_plain_subclass {A} (decl : PyClass → option A) name
    base_name table_name columns owned_object_lists :
  base_name ≠ "Saveable" →
  let base := root_table_class base_name table_name columns
                owned_object_lists in
  decl (plain_subclass name base) = None →
  class_attr decl (plain_subclass name base) = class_attr decl base.
Proof.
  intros Hb base Hd. subst base. unfold class_attr.
  rewrite (mro_plain_subclass name base_name table_name columns
             owned_object_lists Hb), mro_root.
  cbn [omap list_omap]. now rewrite Hd.
Qed.

End Subclasses.

(** X8.  A subclass whose body declares neither a table name nor
    columns nor owned object lists, right under a class that stands
    right under [Saveable], does not contribute a table of its own: its
    full columns and its full owned object lists are those of its base
    class, be they a list or an exception. *)
Theorem plain_subclass_adds_nothing (name base_name : string)
    (table_name : option string) (columns : list Column)
    (owned_object_lists : list OwnedObjectList) :
  name ≠ "Saveable" → base_name ≠ "Saveable" →
  let base := root_table_class base_name table_name columns
                owned_object_lists in
  get_full_columns (plain_subclass name base) = get_full_columns base
  ∧ get_full_owned_object_lists (plain_subclass name base)
    = get_full_owned_object_lists base.
Proof.
  intros Hn Hb base.
  pose proof (class_attr_plain_subclass decl_table_name name base_name
                table_name columns owned_object_lists Hb eq_refl) as Et.
  pose proof (cro_plain_subclass name base_name table_name columns
                owned_object_lists Hn Hb) as Ec.
  pose proof (cro_root base_name table_name columns owned_object_lists Hb)
    as Eb.
  cbv zeta in Et, Ec, Eb. fold base in Et, Ec, Eb.
  assert (class_attr decl_table_name base = Ok table_name) as Etb
    by reflexivity.
  rewrite Etb in Et.
  split.
  - unfold get_full_columns. rewrite Ec, Eb.
    cbn [mbind result_bind for_each]. rewrite Etb, Et.
    cbn [mbind result_bind table_class is_Some_b app].
    destruct (class_attr decl_columns base) as [cs|e]; [|reflexivity].
    cbn [mbind result_bind].
    destruct (for_each _ _ cs) as [[cols attrs]|e]; [|reflexivity].
    cbn [mbind result_bind table_class].
    now rewrite table_name_eqb_refl.
  - unfold get_full_owned_object_lists. rewrite Ec, Eb.
    cbn [mbind result_bind for_each]. rewrite Etb, Et.
    cbn [mbind result_bind table_class is_Some_b app].
    destruct (class_attr decl_owned_object_lists base) as [ls|e];
      [|reflexivity].
    cbn [mbind result_bind].
    destruct (for_each _ _ ls) as [[ools attrs]|e]; [|reflexivity].
    cbn [mbind result_bind table_class].
    now rewrite table_name_eqb_refl.
Qed.

Lemma plain_subclass_adds_nothing_witness :
  get_full_columns (plain_subclass "Technique" Hierarchy.A)
  = Ok [Column__init__ "name" "str" None None].
Proof.
  exact (eq_trans
           (proj1 (plain_subclass_adds_nothing "Technique" "A" (Some "a")
                     [Column__init__ "name" "str" None None] []
                     ltac:(discriminate) ltac:(discriminate)))
           eq_refl).
Defined.

(** ** The checks at class creation *)

Section Creation.

Lemma for_each_unit_Ok {A} (body : unit → A → result unit) l :
  for_each body () l = Ok () → Forall (λ a, body () a = Ok ()) l.
Proof.
  induction l as [|a l IH]; [constructor|]. cbn [for_each]. intros K.
  apply result_bind_Ok_inv in K as ([] & K1 & K2).
  constructor; [exact K1|now apply IH].
Qed.

End Creation.

(** X9.  When [SaveableMetaClass.__new__] lets a class through that has
    a truthy table name, is not marked [_SKIP_IN_TABLE_SCAN] and
    declares columns, not none, then the body of the class declares its
    table name, and every base class has a table name, another one. *)
Theorem SaveableMetaClass__new___accepted (new_cls created : PyClass)
    (table_name : option string) (column : Column) (columns : list Column) :
  SaveableMetaClass__new__ new_cls = Ok created →
  class_attr decl_table_name new_cls = Ok table_name →
  table_name_truthy table_name = true →
  decl_SKIP_IN_TABLE_SCAN new_cls = false →
  decl_columns new_cls = Some (column :: columns) →
  created = new_cls
  ∧ decl_table_name new_cls = Some table_name
  ∧ Forall (λ base_class,
              ∃ base_table_name,
                class_attr decl_table_name base_class = Ok base_table_name
                ∧ table_name_eqb table_name base_table_name = false)
      (cls_bases new_cls).
Proof.
  unfold SaveableMetaClass__new__. intros K Ht Htruthy Hskip Hcols.
  rewrite Ht in K. cbn [mbind result_bind] in K.
  rewrite Htruthy, Hskip, Hcols in K. cbn [andb negb] in K.
  destruct (decl_table_name new_cls) as [own|] eqn:Hown; [|discriminate].
  apply result_bind_Ok_inv in K as ([] & K & E). injection E as <-.
  assert (own = table_name) as ->.
  { revert Ht. unfold class_attr.
    destruct (mro new_cls) as [l|] eqn:El; [|discriminate].
    destruct (mro_head new_cls l El) as (rest & ->).
    cbn [omap list_omap]. rewrite Hown. now intros [= <-]. }
  split; [reflexivity|]. split; [reflexivity|].
  apply for_each_unit_Ok in K.
  eapply Forall_impl; [exact K|]. intros base Kb. cbn beta in Kb.
  apply result_bind_Ok_inv in Kb as (tb & Etb & Kb).
  exists tb. split; [exact Etb|].
  now destruct (table_name_eqb table_name tb).
Qed.

Lemma SaveableMetaClass__new___accepted_witness :
  SaveableMetaClass__new__ Hierarchy.D = Ok Hierarchy.D
  ∧ Forall (λ base_class,
              ∃ base_table_name,
                class_attr decl_table_name base_class = Ok base_table_name
                ∧ table_name_eqb (Some "d") base_table_name = false)
      [Hierarchy.B; Hierarchy.C].
Proof.
  split; [reflexivity|].
  exact (proj2 (proj2 (SaveableMetaClass__new___accepted Hierarchy.D
                         Hierarchy.D (Some "d")
                         (Column__init__ "z" "float" None None) []
                         eq_refl eq_refl eq_refl eq_refl eq_refl))).
Defined.

(** X10.  The check for a table name is not made when the table name
    is falsy.  A class right under [Saveable] that declares columns and no
    table name, so that its table name is the [None] of [Saveable], is
    let through, and when no two of its columns are for the same
    attribute its full columns are its columns. *)
Theorem columns_without_table_name_accepted (name : string)
    (columns : list Column) :
  name ≠ "Saveable" →
  NoDup (map column_attribute_name columns) →
  let new_cls := untabled_root_class name columns in
  class_attr decl_table_name new_cls = Ok None
  ∧ SaveableMetaClass__new__ new_cls = Ok new_cls
  ∧ get_full_columns new_cls = Ok columns.
Proof.
  intros Hn N new_cls.
  split; [reflexivity|]. split; [reflexivity|].
  assert (contributes new_cls = true) as C.
  { unfold contributes, issubclass.
    change (mro new_cls) with (Some [new_cls; Saveable_class]).
    cbn [existsb]. rewrite same_class_refl, orb_true_r. cbn [andb].
    apply negb_true_iff. now apply String.eqb_neq. }
  unfold get_full_columns.
  rewrite (get_column_resolution_order_fold new_cls
             [new_cls; Saveable_class] eq_refl).
  cbn [fold_left]. unfold cro_step. rewrite C.
  change (contributes Saveable_class) with false.
  cbn [cro_insert mbind result_bind for_each].
  change (class_attr decl_table_name new_cls) with (@Ok (option string) None).
  change (class_attr decl_columns new_cls) with (Ok columns).
  cbn [mbind result_bind table_class is_Some_b].
  rewrite add_columns_fresh by exact N. reflexivity.
Qed.

Lemma columns_without_table_name_accepted_witness :
  let new_cls := untabled_root_class "Loose"
                   [Column__init__ "u" "int" None None] in
  SaveableMetaClass__new__ new_cls = Ok new_cls
  ∧ get_full_columns new_cls = Ok [Column__init__ "u" "int" None None].
Proof.
  exact (proj2 (columns_without_table_name_accepted "Loose"
                  [Column__init__ "u" "int" None None]
                  ltac:(discriminate)
                  ltac:(repeat constructor; intros H; inversion H))).
Defined.

(** ** The facade and the placeholders *)

Section Facade.
Context `{Collab : Collaborators}.

Lemma collaborate_run {A} c (f : store → result A * store) w r st :
  f (stores w) = (r, st) →
  collaborate c f w
  = (r, mkWorld (DB w) (stdout w) (calls w ++ [c]) (next_uid w) st).
Proof. intros E. unfold collaborate. now rewrite E. Qed.

Lemma DataBase_get_run cls i b w target r st :
  py_or b (backend (DB w)) = BObj target →
  backend_get target cls i (stores w) = (r, st) →
  DataBase_get cls i b w
  = (r, mkWorld (DB w) (stdout w)
          (calls w ++ [Call_get target (cls_name cls) i]) (next_uid w) st).
Proof.
  intros Et Er. unfold DataBase_get, get_DB.
  unfold mbind at 1, M_bind at 1. rewrite Et. cbn [call_get].
  unfold mbind, M_bind. rewrite (collaborate_run _ _ _ _ _ Er).
  now destruct r.
Qed.

Lemma is_same_refl_truthy b : truthy b = true → is_same b b = true.
Proof.
  destruct b as [|s|b]; cbn; intros H; [discriminate| |].
  - apply String.eqb_refl.
  - apply Nat.eqb_refl.
Qed.

(** [PlaceHolderObject.__init__], whatever backend it is given. *)
Lemma PlaceHolderObject__init___run i cls b w none :
  dict_get "none" database_backends = Some none →
  let effective := py_or b (backend (DB w)) in
  PlaceHolderObject__init__ i cls b w
  = if truthy effective && negb (equals_none_str effective)
       && negb (is_same effective (BObj none))
    then (Ok (mkPlaceHolderObject (next_uid w) i cls effective), allocated w)
    else (Raise DataBaseError, allocated w).
Proof.
  intros Hn effective.
  unfold PlaceHolderObject__init__, fresh_uid, get_DB, subscript.
  unfold mbind at 1, M_bind at 1. unfold mbind at 1, M_bind at 1.
  cbn [DB]. fold (allocated w).
  assert ((if negb (truthy b) then backend (DB w) else b) = effective) as ->
    by (unfold effective, py_or; now destruct (truthy b)).
  destruct (truthy effective); [|reflexivity]. cbn [negb andb].
  destruct (equals_none_str effective); [reflexivity|]. cbn [negb andb].
  rewrite Hn. unfold mbind, M_bind, mret, M_ret.
  now destruct (is_same effective (BObj none)).
Qed.

End Facade.

(** X11.  [DataBase.get] asks one backend, the one it is given or else
    the active one, once, and touches neither the active backend nor the
    routing of new objects, whether that backend returns or raises.
    When there is no backend object to ask, [None] or a name being in
    its place, it raises [AttributeError] and nothing is called. *)
Theorem DataBase_get_asks_one_backend `{Collab : Collaborators}
    (cls : PyClass) (i : Z) (b : backend_ref) (w : World) :
  (∀ target r st,
     py_or b (backend (DB w)) = BObj target →
     backend_get target cls i (stores w) = (r, st) →
     DataBase_get cls i b w
     = (r, mkWorld (DB w) (stdout w)
             (calls w ++ [Call_get target (cls_name cls) i])
             (next_uid w) st))
  ∧ ((∀ target, py_or b (backend (DB w)) ≠ BObj target) →
     DataBase_get cls i b w = (Raise AttributeError, w)).
Proof.
  split.
  - intros target r st. apply DataBase_get_run.
  - intros Hno. unfold DataBase_get, get_DB.
    unfold mbind at 1, M_bind at 1.
    destruct (py_or b (backend (DB w))) as [|s|t] eqn:E;
      [reflexivity|reflexivity|now destruct (Hno t)].
Qed.

Lemma DataBase_get_asks_one_backend_witness :
  @DataBase_get Installation.collaborators Installation.Parent 7 BNone
    Installation.w0
  = (Raise (CollaboratorError "no such row"),
     @mkWorld Installation.collaborators
       (mkDataBase (BObj Installation.directory_backend) (BStr "none")) []
       [Call_get Installation.directory_backend "Parent" 7] 1000%nat [])
  ∧ @DataBase_get Installation.collaborators Installation.Parent 7
      (BStr "memory") Installation.w0
    = (Raise AttributeError, Installation.w0).
Proof.
  split.
  - exact (proj1 (@DataBase_get_asks_one_backend Installation.collaborators
                    Installation.Parent 7 BNone Installation.w0)
             Installation.directory_backend _ _ eq_refl eq_refl).
  - apply (proj2 (@DataBase_get_asks_one_backend Installation.collaborators
                    Installation.Parent 7 (BStr "memory") Installation.w0)).
    intros target. discriminate.
Defined.

(** X12.  When the backend asked for is the active backend object, or
    none is asked for, [T.get] leaves the active backend as it was on
    every way out, also when the underlying [get] raises, and it asks
    the active backend once. *)
Theorem Saveable_get_from_active_backend `{Collab : Collaborators}
    (cls : PyClass) (i : Z) (b : backend_ref) (w : World)
    (active : Backend) (r : result Saveable) (st : store) :
  backend (DB w) = BObj active →
  py_or b (BObj active) = BObj active →
  backend_get active cls i (stores w) = (r, st) →
  Saveable_get cls i b w
  = (r, mkWorld (DB w) (stdout w)
          (calls w ++ [Call_get active (cls_name cls) i]) (next_uid w) st).
Proof.
  intros Ha Hb Hr.
  destruct w as [[bk nob] out cs uid sto]. cbn [DB backend] in Ha.
  subst bk. cbn [DB stdout calls next_uid stores] in *.
  set (w := mkWorld (mkDataBase (BObj active) nob) out cs uid sto).
  assert (DataBase_set_backend (BObj active) [] w = (Ok (BObj active), w))
    as Hset by reflexivity.
  unfold Saveable_get, get_DB.
  unfold mbind at 1, M_bind at 1. cbn [DB backend w]. fold w. rewrite Hb.
  rewrite (bind_Ok _ _ _ _ _ Hset).
  pose proof (DataBase_get_run cls i BNone w active r st eq_refl Hr) as Hget.
  destruct r as [obj|e].
  - rewrite (bind_Ok _ _ _ _ _ Hget). reflexivity.
  - rewrite (bind_Raise _ _ _ _ _ Hget). reflexivity.
Qed.

Lemma Saveable_get_from_active_backend_witness :
  @Saveable_get Installation.collaborators Installation.Parent 7 BNone
    Installation.w0
  = (Raise (CollaboratorError "no such row"),
     @mkWorld Installation.collaborators
       (mkDataBase (BObj Installation.directory_backend) (BStr "none")) []
       [Call_get Installation.directory_backend "Parent" 7] 1000%nat []).
Proof.
  exact (@Saveable_get_from_active_backend Installation.collaborators
           Installation.Parent 7 BNone Installation.w0
           Installation.directory_backend _ _ eq_refl eq_refl eq_refl).
Defined.

(** X13.  Resolving a placeholder whose backend is a backend object
    returns what that backend's [get] returns for the placeholder's class
    and id; that backend is asked once, no other is, and the facade is
    afterwards as it was, the active backend being a backend object or
    [None] and not a bare name. *)
Theorem PlaceHolderObject_get_object_returns `{Collab : Collaborators}
    (self : PlaceHolderObject) (b : Backend) (obj : Saveable) (st : store)
    (w : World) :
  ph_backend self = BObj b →
  (∀ s, backend (DB w) ≠ BStr s) →
  backend_get b (ph_cls self) (ph_id self) (stores w) = (Ok obj, st) →
  PlaceHolderObject_get_object self w
  = (Ok obj,
     mkWorld (DB w) (stdout w)
       (calls w ++ [Call_get b (cls_name (ph_cls self)) (ph_id self)])
       (next_uid w) st).
Proof.
  intros Hb Hold Hr.
  destruct w as [[old nob] out cs uid sto].
  cbn [DB backend stores stdout calls next_uid] in *.
  unfold PlaceHolderObject_get_object, Saveable_get, get_DB.
  unfold mbind at 1, M_bind at 1. rewrite Hb.
  cbn [DB backend py_or truthy].
  rewrite (bind_Ok _ _ _ _ _
             (DataBase_set_backend_object (BObj b) [] _ ltac:(discriminate))).
  cbn [DB stdout calls next_uid stores new_object_backend].
  erewrite (bind_Ok _ _ _ obj); cycle 1.
  { apply DataBase_get_run; [reflexivity|exact Hr]. }
  rewrite (bind_Ok _ _ _ _ _ (DataBase_set_backend_object old [] _ Hold)).
  reflexivity.
Qed.

Lemma PlaceHolderObject_get_object_returns_witness :
  let ph := mkPlaceHolderObject 50 1 Installation.Series
              (BObj Installation.memory_backend) in
  @PlaceHolderObject_get_object Installation.collaborators ph Installation.w0
  = (Ok (Installation.loaded Installation.memory_backend
           Installation.Series 1),
     @mkWorld Installation.collaborators
       (mkDataBase (BObj Installation.directory_backend) (BStr "none")) []
       [Call_get Installation.memory_backend "Series" 1] 1000%nat []).
Proof.
  intros ph.
  exact (@PlaceHolderObject_get_object_returns Installation.collaborators
           ph Installation.memory_backend _ _ Installation.w0 eq_refl
           ltac:(discriminate) eq_refl).
Defined.

(** X14.  A placeholder is only ever made with a backend that it can
    carry.  When [PlaceHolderObject.__init__] returns, the placeholder has
    the id and the class given and carries the backend given, or the
    active backend when the one given is falsy, and this backend is
    truthy, is not the string "none" and is not the registered "none"
    backend.  When that backend is falsy, the string "none" or the
    registered "none" backend, [__init__] raises [DataBaseError]. *)
Theorem PlaceHolderObject__init___carries_real_backend
    `{Collab : Collaborators} (i : Z) (cls : PyClass) (b : backend_ref)
    (w : World) :
  let effective := py_or b (backend (DB w)) in
  (∀ self w', PlaceHolderObject__init__ i cls b w = (Ok self, w') →
     ph_id self = i ∧ ph_cls self = cls ∧ ph_backend self = effective
     ∧ real_backend effective)
  ∧ (∀ none, dict_get "none" database_backends = Some none →
       truthy effective = false ∨ equals_none_str effective = true
       ∨ is_same effective (BObj none) = true →
       PlaceHolderObject__init__ i cls b w
       = (Raise DataBaseError, allocated w)).
Proof.
  intros effective. split.
  - intros self w'.
    destruct (dict_get "none" database_backends) as [none|] eqn:Hn.
    + rewrite (PlaceHolderObject__init___run i cls b w none Hn).
      fold effective.
      destruct (truthy effective) eqn:T; [|discriminate].
      destruct (equals_none_str effective) eqn:N; [discriminate|].
      destruct (is_same effective (BObj none)) eqn:S; [discriminate|].
      intros [= <- _]. repeat split; eauto.
    + unfold PlaceHolderObject__init__, fresh_uid, get_DB, subscript.
      unfold mbind at 1, M_bind at 1. unfold mbind at 1, M_bind at 1.
      cbn [DB].
      assert ((if negb (truthy b) then backend (DB w) else b) = effective)
        as -> by (unfold effective, py_or; now destruct (truthy b)).
      destruct (truthy effective); [|discriminate]. cbn [negb].
      destruct (equals_none_str effective); [discriminate|].
      rewrite Hn. discriminate.
  - intros none Hn Hbad.
    rewrite (PlaceHolderObject__init___run i cls b w none Hn).
    fold effective.
    destruct Hbad as [-> | [-> | ->]]; [reflexivity| |].
    + now rewrite andb_false_r.
    + now rewrite andb_false_r.
Qed.

Lemma PlaceHolderObject__init___carries_real_backend_witness :
  (∃ w', @PlaceHolderObject__init__ Installation.collaborators 3
           Installation.Series BNone Installation.w0
         = (Ok (mkPlaceHolderObject 1000 3 Installation.Series
                  (BObj Installation.directory_backend)), w'))
  ∧ ∃ w', @PlaceHolderObject__init__ Installation.collaborators 3
            Installation.Series (BObj Installation.none_backend)
            Installation.w0
          = (Raise DataBaseError, w').
Proof.
  split.
  - eexists.
    assert (@PlaceHolderObject__init__ Installation.collaborators 3
              Installation.Series BNone Installation.w0
            = (Ok (mkPlaceHolderObject 1000 3 Installation.Series
                     (BObj Installation.directory_backend)),
               allocated Installation.w0)) as E by reflexivity.
    pose proof (proj1 (@PlaceHolderObject__init___carries_real_backend
                         Installation.collaborators 3 Installation.Series
                         BNone Installation.w0) _ _ E) as _.
    exact E.
  - eexists.
    apply (proj2 (@PlaceHolderObject__init___carries_real_backend
                    Installation.collaborators 3 Installation.Series
                    (BObj Installation.none_backend) Installation.w0)
             Installation.none_backend eq_refl).
    right. right. reflexivity.
Defined.

(** ** Short identities and the filling of object lists *)

Section Identities.
Context `{Collab : Collaborators}.

Lemma is_same_real_backend a b :
  is_same a b = true → real_backend a → real_backend b.
Proof.
  intros Hs (T & N & none & Hn & S).
  destruct a as [|s|x], b as [|t|y]; cbn [truthy is_same] in *;
    try discriminate.
  - apply String.eqb_eq in Hs. subst t. repeat split; eauto.
  - apply Nat.eqb_eq in Hs.
    split; [reflexivity|]. split; [reflexivity|].
    exists none. split; [exact Hn|]. cbn [is_same]. now rewrite <- Hs.
Qed.

Lemma is_same_sym a b : is_same a b = is_same b a.
Proof.
  destruct a as [|s|x], b as [|t|y]; try reflexivity; cbn [is_same].
  - apply String.eqb_sym.
  - apply Nat.eqb_sym.
Qed.

(** [PlaceHolderObject.__init__] under a backend that it can carry. *)
Lemma PlaceHolderObject__init___effective i cls b w :
  real_backend (py_or b (backend (DB w))) →
  PlaceHolderObject__init__ i cls b w
  = (Ok (mkPlaceHolderObject (next_uid w) i cls (py_or b (backend (DB w)))),
     allocated w).
Proof.
  intros (T & N & none & Hn & S).
  rewrite (PlaceHolderObject__init___run i cls b w none Hn). cbv zeta.
  now rewrite T, N, S.
Qed.

(** One turn of the loop of [fill_object_list]. *)
Lemma fill_loop_step cls provided object_list x rest w :
  (int_in (identity_id x) provided = false →
   real_backend (identity_backend (backend (DB w)) x)) →
  fill_loop cls provided object_list (x :: rest) w =
    if int_in (identity_id x) provided
    then fill_loop cls provided object_list rest w
    else fill_loop cls provided
           (object_list
            ++ [inr (mkPlaceHolderObject (next_uid w) (identity_id x) cls
                       (identity_backend (backend (DB w)) x))])
           rest (allocated w).
Proof.
  intros Hreal. cbn [fill_loop].
  destruct x as [i|b i]; cbn [identity_id identity_backend] in *.
  - unfold get_DB. unfold mbind at 1, M_bind at 1.
    unfold mbind at 1, M_bind at 1. cbn [mret M_ret].
    destruct (int_in i provided); cbn [negb]; [reflexivity|].
    assert (py_or (backend (DB w)) (backend (DB w)) = backend (DB w)) as E
      by (unfold py_or; now destruct (truthy _)).
    rewrite (bind_Ok _ _ _ _ _
               (PlaceHolderObject__init___effective i cls _ w
                  ltac:(rewrite E; auto))).
    now rewrite E.
  - unfold mbind at 1, M_bind at 1. cbn [mret M_ret].
    destruct (int_in i provided); cbn [negb]; [reflexivity|].
    now rewrite (bind_Ok _ _ _ _ _
                   (PlaceHolderObject__init___effective i cls b w
                      ltac:(auto))).
Qed.

Lemma fill_loop_run cls provided obj_ids : ∀ object_list w,
  Forall (λ x, int_in (identity_id x) provided = false →
               real_backend (identity_backend (backend (DB w)) x)) obj_ids →
  let news := new_placeholders cls (backend (DB w)) provided (next_uid w)
                obj_ids in
  fill_loop cls provided object_list obj_ids w
  = (Ok (object_list ++ news), allocated_n (length news) w).
Proof.
  induction obj_ids as [|x rest IH]; intros object_list w Hreal news.
  - subst news. cbn. rewrite app_nil_r. now destruct w.
  - apply Forall_cons in Hreal as [Hx Hrest].
    rewrite fill_loop_step by exact Hx. subst news.
    cbn [new_placeholders].
    destruct (int_in (identity_id x) provided).
    + now apply IH.
    + rewrite (IH _ (allocated w) Hrest). cbv zeta.
      cbn [allocated DB next_uid length].
      rewrite <- app_assoc. cbn [app]. f_equal.
      unfold allocated_n, allocated. cbn [DB stdout calls next_uid stores].
      f_equal. lia.
Qed.

Lemma fill_loop_all_provided cls provided obj_ids : ∀ object_list w,
  Forall (λ x, int_in (identity_id x) provided = true) obj_ids →
  fill_loop cls provided object_list obj_ids w = (Ok object_list, w).
Proof.
  induction obj_ids as [|x rest IH]; intros object_list w Hall;
    [reflexivity|].
  apply Forall_cons in Hall as [Hx Hrest].
  rewrite fill_loop_step by (rewrite Hx; discriminate).
  rewrite Hx. now apply IH.
Qed.

Lemma int_in_true x l : int_in x l = true ↔ In x l.
Proof.
  unfold int_in. rewrite existsb_exists. split.
  - intros (y & Hy & E). apply Z.eqb_eq in E. now subst.
  - intros H. exists x. split; [exact H|apply Z.eqb_refl].
Qed.

Lemma int_in_app x l l' : int_in x (l ++ l') = int_in x l || int_in x l'.
Proof. unfold int_in. apply existsb_app. Qed.

(** The head of [fill_object_list], for objects that have their ids. *)
Lemma fill_object_list_unfold depth object_list obj_ids cls w :
  Forall has_id object_list →
  fill_object_list (S depth) (Some object_list) (Some obj_ids) (Some cls) w
  = match obj_ids with
    | [] => (Ok object_list, w)
    | _ => fill_loop cls (map stored_id object_list) object_list obj_ids w
    end.
Proof.
  intros Hall. unfold fill_object_list.
  unfold mbind at 1, M_bind at 1. cbn [mret M_ret].
  assert (match object_list with [] => [] | _ :: _ => object_list end
          = object_list) as -> by now destruct object_list.
  rewrite (bind_Ok _ _ _ _ _ (item_ids_has_id depth object_list w Hall)).
  now destruct obj_ids.
Qed.

End Identities.

(** X15.  An object that has its id and its backend, and a placeholder
    with the same id and backend, have the same short identity: the bare
    id when the backend is the active one, the backend with the id else.
    Reading it changes neither the object nor the world. *)
Theorem short_identity_of_object_and_placeholder `{Collab : Collaborators}
    (depth : nat) (self : Saveable) (ph : PlaceHolderObject) (i : Z)
    (w : World) :
  _id self = Some i → i ≠ 0 →
  truthy (_backend self) = true →
  ph_id ph = i → ph_backend ph = _backend self →
  let short := if is_same (_backend self) (backend (DB w))
               then Id_int i else Id_pair (_backend self) i in
  Saveable_short_identity (S depth) self w = (Ok (short, self), w)
  ∧ PlaceHolderObject_short_identity ph w = (Ok short, w).
Proof.
  intros Hid Hi Ht Hpi Hpb short. subst short. split.
  - unfold Saveable_short_identity.
    assert (Saveable_backend self w = (Ok (_backend self, self), w)) as Hb
      by (rewrite Saveable_backend_unfold, Ht; reflexivity).
    rewrite (bind_Ok _ _ _ _ _ Hb). cbn beta iota.
    unfold get_DB. unfold mbind at 1, M_bind at 1.
    destruct (is_same (_backend self) (backend (DB w))).
    + now rewrite (bind_Ok _ _ _ _ _ (Saveable_id_cached depth self i w Hid Hi)).
    + rewrite (bind_Ok _ _ _ _ _ Hb). cbn beta iota.
      now rewrite (bind_Ok _ _ _ _ _
                     (Saveable_id_cached depth self i w Hid Hi)).
  - unfold PlaceHolderObject_short_identity, get_DB.
    unfold mbind at 1, M_bind at 1. rewrite Hpb, Hpi.
    now destruct (is_same (_backend self) (backend (DB w))).
Qed.

Lemma short_identity_of_object_and_placeholder_witness :
  let s := Installation.series 11 4 "x" in
  let ph := mkPlaceHolderObject 12 4 Installation.Series
              (BObj Installation.memory_backend) in
  @Saveable_short_identity Installation.collaborators 1 s Installation.w0
  = (Ok (Id_pair (BObj Installation.memory_backend) 4, s), Installation.w0)
  ∧ @PlaceHolderObject_short_identity Installation.collaborators ph
      Installation.w0
    = (Ok (Id_pair (BObj Installation.memory_backend) 4), Installation.w0).
Proof.
  intros s ph.
  exact (@short_identity_of_object_and_placeholder
           Installation.collaborators 0 s ph 4 Installation.w0
           eq_refl ltac:(discriminate) eq_refl eq_refl eq_refl).
Defined.

(** X16.  The short identity of a placeholder is enough to make the
    placeholder again: filling the empty list with it, for the class of
    the placeholder, gives one placeholder with the same id and class,
    whose backend is the same object as the first one's. *)
Theorem fill_object_list_from_short_identity `{Collab : Collaborators}
    (depth : nat) (ph : PlaceHolderObject) (w : World) :
  real_backend (ph_backend ph) →
  ∃ short ph',
    PlaceHolderObject_short_identity ph w = (Ok short, w)
    ∧ fill_object_list (S depth) (Some []) (Some [short]) (Some (ph_cls ph)) w
      = (Ok [inr ph'], allocated w)
    ∧ ph_id ph' = ph_id ph ∧ ph_cls ph' = ph_cls ph
    ∧ is_same (ph_backend ph') (ph_backend ph) = true.
Proof.
  intros Hreal.
  unfold PlaceHolderObject_short_identity, get_DB.
  unfold mbind at 1, M_bind at 1.
  destruct (is_same (ph_backend ph) (backend (DB w))) eqn:Hs.
  - eexists _, _. split; [reflexivity|].
    rewrite fill_object_list_unfold by constructor.
    rewrite fill_loop_step
      by (intros _; exact (is_same_real_backend _ _ Hs Hreal)).
    cbn [map int_in existsb identity_id identity_backend fill_loop app].
    split; [reflexivity|]. cbn [ph_id ph_cls ph_backend].
    split; [reflexivity|]. split; [reflexivity|].
    now rewrite is_same_sym.
  - eexists _, _. split; [reflexivity|].
    assert (py_or (ph_backend ph) (backend (DB w)) = ph_backend ph) as E
      by (unfold py_or; now rewrite (proj1 Hreal)).
    rewrite fill_object_list_unfold by constructor.
    rewrite fill_loop_step
      by (intros _; cbn [identity_backend]; now rewrite E).
    cbn [map int_in existsb identity_id identity_backend fill_loop app].
    rewrite E.
    split; [reflexivity|]. cbn [ph_id ph_cls ph_backend].
    split; [reflexivity|]. split; [reflexivity|].
    apply is_same_refl_truthy, Hreal.
Qed.

Lemma fill_object_list_from_short_identity_witness :
  let ph := mkPlaceHolderObject 12 4 Installation.Series
              (BObj Installation.memory_backend) in
  ∃ short ph',
    @PlaceHolderObject_short_identity Installation.collaborators ph
      Installation.w0 = (Ok short, Installation.w0)
    ∧ @fill_object_list Installation.collaborators 1 (Some [])
        (Some [short]) (Some Installation.Series) Installation.w0
      = (Ok [inr ph'], allocated Installation.w0)
    ∧ ph_id ph' = 4 ∧ ph_cls ph' = Installation.Series
    ∧ is_same (ph_backend ph') (BObj Installation.memory_backend) = true.
Proof.
  intros ph.
  apply (@fill_object_list_from_short_identity Installation.collaborators
           0 ph Installation.w0).
  split; [reflexivity|]. split; [reflexivity|].
  exists Installation.none_backend. split; reflexivity.
Defined.

Section Appending.
Context `{Collab : Collaborators}.

Lemma new_placeholders_has_id cls active provided obj_ids : ∀ uid,
  Forall has_id (new_placeholders cls active provided uid obj_ids).
Proof.
  induction obj_ids as [|x rest IH]; intros uid; [constructor|].
  cbn [new_placeholders]. destruct (int_in _ provided); [apply IH|].
  constructor; [exact I|apply IH].
Qed.

Lemma new_placeholders_cover cls active provided obj_ids : ∀ uid,
  Forall (λ x, int_in (identity_id x)
                 (provided
                  ++ map stored_id
                       (new_placeholders cls active provided uid obj_ids))
               = true) obj_ids.
Proof.
  induction obj_ids as [|x rest IH]; intros uid; [constructor|].
  cbn [new_placeholders].
  destruct (int_in (identity_id x) provided) eqn:Hx.
  - constructor; [|apply IH]. now rewrite int_in_app, Hx.
  - constructor.
    + rewrite int_in_app. cbn [map stored_id ph_id int_in existsb].
      now rewrite Z.eqb_refl, orb_true_r.
    + eapply Forall_impl; [apply (IH (S uid))|]. intros y Hy. cbn beta in *.
      rewrite int_in_app in *. cbn [map int_in existsb].
      apply orb_true_iff in Hy as [->|Hy]; [reflexivity|].
      fold (int_in (identity_id y)
              (map stored_id
                 (new_placeholders cls active provided (S uid) rest))).
      rewrite Hy. now rewrite !orb_true_r.
Qed.

End Appending.

(** X17.  For objects that have their ids and a class given,
    [fill_object_list] returns the list it was given followed by one new
    placeholder for each element of [obj_ids] whose id is not the id of
    an element of the given list, in the order of [obj_ids]; the
    placeholder carries the backend of the element, or the active one
    for a bare id.  Nothing else changes in the world than the count of
    allocated objects.  The backends of the placeholders must be ones
    that placeholders can carry. *)
Theorem fill_object_list_appends_placeholders `{Collab : Collaborators}
    (depth : nat) (object_list : list item) (obj_ids : list identity)
    (cls : PyClass) (w : World) :
  Forall has_id object_list →
  Forall (λ x, int_in (identity_id x) (map stored_id object_list) = false →
               real_backend (identity_backend (backend (DB w)) x)) obj_ids →
  let news := new_placeholders cls (backend (DB w))
                (map stored_id object_list) (next_uid w) obj_ids in
  fill_object_list (S depth) (Some object_list) (Some obj_ids) (Some cls) w
  = (Ok (object_list ++ news), allocated_n (length news) w).
Proof.
  intros Hall Hreal news.
  rewrite fill_object_list_unfold by exact Hall.
  destruct obj_ids as [|x rest].
  - subst news. cbn. rewrite app_nil_r. now destruct w.
  - now apply fill_loop_run.
Qed.

Lemma fill_object_list_appends_placeholders_witness :
  let e := Installation.series 11 2 "a" in
  let m := BObj Installation.memory_backend in
  let d := BObj Installation.directory_backend in
  @fill_object_list Installation.collaborators 1 (Some [inl e])
    (Some [Id_pair m 5; Id_int 2; Id_int 5; Id_int 7])
    (Some Installation.Series) Installation.w0
  = (Ok [inl e;
         inr (mkPlaceHolderObject 1000 5 Installation.Series m);
         inr (mkPlaceHolderObject 1001 5 Installation.Series d);
         inr (mkPlaceHolderObject 1002 7 Installation.Series d)],
     allocated_n 3 Installation.w0).
Proof.
  intros e m d.
  apply (@fill_object_list_appends_placeholders Installation.collaborators
           0 [inl e] [Id_pair m 5; Id_int 2; Id_int 5; Id_int 7]
           Installation.Series Installation.w0).
  - repeat constructor.
  - repeat (apply Forall_cons_2; [intros Hnew|]); [..|apply Forall_nil_2];
      try discriminate Hnew;
      (split; [reflexivity|]; split; [reflexivity|];
       exists Installation.none_backend; split; reflexivity).
Defined.

(** X18.  Filling is idempotent: filling the list that
    [fill_object_list] returned with the same [obj_ids] once more returns
    that list as it is and changes nothing, also when an id comes twice
    in [obj_ids]. *)
Theorem fill_object_list_idempotent `{Collab : Collaborators}
    (depth depth' : nat) (object_list : list item) (obj_ids : list identity)
    (cls : PyClass) (w : World) :
  Forall has_id object_list →
  Forall (λ x, int_in (identity_id x) (map stored_id object_list) = false →
               real_backend (identity_backend (backend (DB w)) x)) obj_ids →
  ∃ filled w',
    fill_object_list (S depth) (Some object_list) (Some obj_ids) (Some cls) w
    = (Ok filled, w')
    ∧ fill_object_list (S depth') (Some filled) (Some obj_ids) (Some cls) w'
      = (Ok filled, w').
Proof.
  intros Hall Hreal. destruct obj_ids as [|x rest].
  - exists object_list, w.
    now rewrite !fill_object_list_unfold by exact Hall.
  - eexists _, _. split.
    + rewrite fill_object_list_unfold by exact Hall.
      now apply fill_loop_run.
    + rewrite fill_object_list_unfold
        by (apply Forall_app; split;
            [exact Hall|apply new_placeholders_has_id]).
      apply fill_loop_all_provided. rewrite map_app.
      apply new_placeholders_cover.
Qed.

Lemma fill_object_list_idempotent_witness :
  ∃ filled w',
    @fill_object_list Installation.collaborators 1 (Some [])
      (Some [Id_int 1; Id_int 1]) (Some Installation.Series) Installation.w0
    = (Ok filled, w')
    ∧ length filled = 2%nat
    ∧ @fill_object_list Installation.collaborators 1 (Some filled)
        (Some [Id_int 1; Id_int 1]) (Some Installation.Series) w'
      = (Ok filled, w').
Proof.
  destruct (@fill_object_list_idempotent Installation.collaborators 0 0 []
              [Id_int 1; Id_int 1] Installation.Series Installation.w0)
    as (filled & w' & E1 & E2).
  - constructor.
  - repeat (apply Forall_cons_2; [intros Hnew|]); [..|apply Forall_nil_2];
      try discriminate Hnew;
      (split; [reflexivity|]; split; [reflexivity|];
       exists Installation.none_backend; split; reflexivity).
  - exists filled, w'. split; [exact E1|]. split; [|exact E2].
    cbv in E1. now injection E1 as <- _.
Defined.

(** X19.  When every id in [obj_ids] is the id of an element of the
    list, [fill_object_list] makes no placeholder and needs no backend:
    it returns the list as it is and changes nothing, whatever the active
    backend, the "none" backend included. *)
Theorem fill_object_list_nothing_missing `{Collab : Collaborators}
    (depth : nat) (object_list : list item) (obj_ids : list identity)
    (cls : PyClass) (w : World) :
  Forall has_id object_list →
  Forall (λ x, In (identity_id x) (map stored_id object_list)) obj_ids →
  fill_object_list (S depth) (Some object_list) (Some obj_ids) (Some cls) w
  = (Ok object_list, w).
Proof.
  intros Hall Hin.
  rewrite fill_object_list_unfold by exact Hall.
  destruct obj_ids as [|x rest]; [reflexivity|].
  apply fill_loop_all_provided.
  eapply Forall_impl; [exact Hin|]. intros y Hy. now apply int_in_true.
Qed.

Lemma fill_object_list_nothing_missing_witness :
  let e := Installation.series 11 2 "a" in
  let w := @mkWorld Installation.collaborators
             (mkDataBase (BObj Installation.none_backend) (BStr "none"))
             [] [] 0%nat [] in
  @fill_object_list Installation.collaborators 1 (Some [inl e])
    (Some [Id_int 2]) (Some Installation.Series) w
  = (Ok [inl e], w).
Proof.
  intros e w.
  apply (@fill_object_list_nothing_missing Installation.collaborators 0
           [inl e] [Id_int 2] Installation.Series w).
  - repeat constructor.
  - repeat constructor.
Defined.

(** X20.  When the active backend is one that no placeholder can carry,
    falsy or the registered "none" backend, [fill_object_list] raises
    [DataBaseError] at the first bare id that is not the id of an
    element of the list. *)
Theorem fill_object_list_without_real_backend `{Collab : Collaborators}
    (depth : nat) (object_list : list item)
    (before after : list identity) (i : Z) (cls : PyClass) (none : Backend)
    (w : World) :
  Forall has_id object_list →
  dict_get "none" database_backends = Some none →
  truthy (backend (DB w)) = false
  ∨ is_same (backend (DB w)) (BObj none) = true →
  Forall (λ x, In (identity_id x) (map stored_id object_list)) before →
  ¬ In i (map stored_id object_list) →
  fill_object_list (S depth) (Some object_list)
    (Some (before ++ Id_int i :: after)) (Some cls) w
  = (Raise DataBaseError, allocated w).
Proof.
  intros Hall Hn Hbad Hbefore Hi.
  rewrite fill_object_list_unfold by exact Hall.
  assert (fill_loop cls (map stored_id object_list) object_list
            (before ++ Id_int i :: after) w
          = (Raise DataBaseError, allocated w)) as E.
  { induction Hbefore as [|x rest Hx _ IH].
    - cbn [app fill_loop]. unfold get_DB.
      unfold mbind at 1, M_bind at 1.
      unfold mbind at 1, M_bind at 1. cbn [mret M_ret].
      assert (int_in i (map stored_id object_list) = false) as ->
        by (apply not_true_is_false; now rewrite int_in_true).
      cbn [negb].
      rewrite (bind_Raise _ _ _ DataBaseError (allocated w)); [reflexivity|].
      rewrite (PlaceHolderObject__init___run i cls _ w none Hn). cbv zeta.
      assert (py_or (backend (DB w)) (backend (DB w)) = backend (DB w))
        as -> by (unfold py_or; now destruct (truthy _)).
      destruct Hbad as [-> | ->]; [reflexivity|].
      now rewrite andb_false_r.
    - cbn [app]. rewrite fill_loop_step.
      + apply int_in_true in Hx. rewrite Hx. exact IH.
      + apply int_in_true in Hx. rewrite Hx. discriminate. }
  destruct before; exact E.
Qed.

Lemma fill_object_list_without_real_backend_witness :
  let e := Installation.series 11 2 "a" in
  let w := @mkWorld Installation.collaborators
             (mkDataBase (BObj Installation.none_backend) (BStr "none"))
             [] [] 0%nat [] in
  @fill_object_list Installation.collaborators 1 (Some [inl e])
    (Some [Id_int 2; Id_int 3]) (Some Installation.Series) w
  = (Raise DataBaseError, allocated w).
Proof.
  intros e w.
  apply (@fill_object_list_without_real_backend Installation.collaborators
           0 [inl e] [Id_int 2] [] 3 Installation.Series
           Installation.none_backend w).
  - repeat constructor.
  - reflexivity.
  - right. reflexivity.
  - repeat constructor.
  - intros [H|[]]. discriminate.
Defined.

Section Routing.
Context `{Collab : Collaborators}.

(** The setter with a name that [database_backends] holds: the
    registered instance, and nothing else happens. *)
Lemma Saveable_backend_setter_registered depth self new_backend s b w :
  py_or new_backend (new_object_backend (DB w)) = BStr s →
  dict_get s database_backends = Some b →
  Saveable_backend_setter depth self new_backend w
  = (Ok (with_backend self (BObj b)), w).
Proof.
  intros Hor Hs. unfold Saveable_backend_setter, get_DB.
  unfold mbind at 1, M_bind at 1. rewrite Hor, Hs. reflexivity.
Qed.

End Routing.

(** X21.  An object without an id whose backend is of another type than
    "none" and "memory" can neither tell its id nor be formatted: reading
    [id] and calling [__repr__] both end in [RecursionError] at every
    recursion limit, with the world as it was.  The [DataBaseError] that
    [id] is written to raise is never raised, because its message
    formats the object. *)
Theorem Saveable_id_without_id_recurses `{Collab : Collaborators}
    (self : Saveable) (b : Backend) (w : World) :
  id_truthy (_id self) = false →
  _backend self = BObj b →
  str_in (backend_type_of b) ["none"; "memory"] = false →
  ∀ depth,
    Saveable_id depth self w = (Raise RecursionError, w)
    ∧ Saveable__repr__ depth self w = (Raise RecursionError, w).
Proof.
  intros Hid Hb Ht depth.
  pose proof (Saveable_id_recursion depth self b w Hid Hb Ht) as E.
  split; [exact E|].
  unfold Saveable__repr__, repr_with.
  now rewrite (bind_Raise _ _ _ _ _ E).
Qed.

Lemma Saveable_id_without_id_recurses_witness :
  let e := mkSaveable 5 Installation.Parent (Some 0)
             (BObj Installation.directory_backend) [("name", VNone)] [] in
  @Saveable_id Installation.collaborators 3 e Installation.w0
  = (Raise RecursionError, Installation.w0)
  ∧ @Saveable__repr__ Installation.collaborators 3 e Installation.w0
    = (Raise RecursionError, Installation.w0).
Proof.
  intros e.
  apply (@Saveable_id_without_id_recurses Installation.collaborators e
           Installation.directory_backend Installation.w0);
    reflexivity.
Defined.

(** X22.  Under [with_memory], an object whose backend is set without a
    backend, as [Saveable.__init__] does for [backend=None], gets the
    registered "memory" backend; when the wrapped function has returned,
    new objects are routed to "none" again. *)
Theorem with_memory_set_backend `{Collab : Collaborators}
    (depth : nat) (self : Saveable) (new_backend : backend_ref)
    (memory : Backend) (w : World) :
  truthy new_backend = false →
  dict_get "memory" database_backends = Some memory →
  with_memory (λ self, Saveable_set_backend depth self new_backend) self w
  = (Ok (with_backend self (BObj memory)),
     mkWorld (mkDataBase (backend (DB w)) (BStr "none"))
       (stdout w) (calls w) (next_uid w) (stores w)).
Proof.
  intros Hf Hm. unfold with_memory, Saveable_set_backend.
  unfold mbind at 1, M_bind at 1. cbn [set_DB_new_object_backend].
  set (w1 := mkWorld (mkDataBase (backend (DB w)) (BStr "memory"))
               (stdout w) (calls w) (next_uid w) (stores w)).
  rewrite (bind_Ok _ _ _ _ _
             (Saveable_backend_setter_registered depth self new_backend
                "memory" memory w1
                ltac:(unfold py_or; rewrite Hf; reflexivity) Hm)).
  reflexivity.
Qed.

Lemma with_memory_set_backend_witness :
  let e := mkSaveable 5 Installation.Parent None BNone [("name", VNone)] [] in
  @with_memory Installation.collaborators _ _
    (λ self, Saveable_set_backend 0 self BNone) e Installation.w0
  = (Ok (with_backend e (BObj Installation.memory_backend)),
     Installation.w0).
Proof.
  intros e.
  apply (@with_memory_set_backend Installation.collaborators 0 e BNone
           Installation.memory_backend Installation.w0); reflexivity.
Defined.

Section Serialisation.
Context `{Collab : Collaborators}.

Lemma dict_get_set {V} k k' (v : V) d :
  dict_get k (dict_set k' v d)
  = if String.eqb k' k then Some v else dict_get k d.
Proof.
  induction d as [|[k0 v0] d IH]; cbn [dict_set dict_get].
  - reflexivity.
  - destruct (String.eqb_spec k0 k') as [->|Hne]; cbn [dict_get].
    + now destruct (String.eqb k' k).
    + destruct (String.eqb_spec k0 k) as [->|Hne'].
      * destruct (String.eqb_spec k' k) as [->|_]; [now destruct Hne|].
        reflexivity.
      * exact IH.
Qed.

Lemma dict_set_keys {V} k (v : V) d :
  map fst (dict_set k v d)
  = if dict_has k d then map fst d else map fst d ++ [k].
Proof.
  unfold dict_has.
  induction d as [|[k0 v0] d IH]; cbn [dict_set dict_get map fst app].
  - reflexivity.
  - destruct (String.eqb_spec k0 k) as [->|Hne]; [reflexivity|].
    cbn [map fst]. rewrite IH. now destruct (dict_get k d).
Qed.

Lemma dict_set_same {V} k (v : V) d :
  dict_get k d = Some v → dict_set k v d = d.
Proof.
  induction d as [|[k0 v0] d IH]; [discriminate|]. cbn [dict_get dict_set].
  destruct (String.eqb_spec k0 k) as [->|Hne].
  - now intros [= ->].
  - intros H. now rewrite IH.
Qed.

Lemma dict_set_NoDup {V} k (v : V) d :
  NoDup (map fst d) → NoDup (map fst (dict_set k v d)).
Proof.
  intros Hd. rewrite dict_set_keys. unfold dict_has.
  destruct (dict_get k d) eqn:E; [exact Hd|].
  apply NoDup_snoc; [exact Hd|].
  intros Hin. apply dict_get_key in Hin as (v' & Hv). congruence.
Qed.

Lemma serialises_more self exclude names names' d :
  serialises self exclude names d →
  Forall (λ k, str_in k exclude = true) names' →
  serialises self exclude (names ++ names') d.
Proof.
  intros [Hnd H] Hex. split; [exact Hnd|]. intros k v. rewrite H.
  rewrite in_app_iff. split; [tauto|].
  intros ([Hin|Hin] & Hk & Hv); [tauto|].
  rewrite List.Forall_forall in Hex. rewrite (Hex k Hin) in Hk. discriminate.
Qed.

(** The comprehension over a list of attribute names adds just these
    names, when it does not raise. *)
Lemma attrs_into_serialises self exclude attrs : ∀ names d d',
  serialises self exclude names d →
  attrs_into self exclude d attrs = Ok d' →
  serialises self exclude (names ++ attrs) d'.
Proof.
  unfold attrs_into.
  induction attrs as [|attr attrs IH]; intros names d d' Hd K.
  - injection K as <-. now rewrite app_nil_r.
  - cbn [for_each] in K.
    replace (names ++ attr :: attrs) with ((names ++ [attr]) ++ attrs)
      by now rewrite <- app_assoc.
    destruct (str_in attr exclude) eqn:Hex.
    + cbn [mbind result_bind] in K. eapply IH; [|exact K].
      apply serialises_more; [exact Hd|]. now constructor.
    + destruct (getattr self attr) as [v0|e] eqn:Hv;
        cbn [mbind result_bind] in K; [|discriminate].
      eapply IH; [|exact K]. destruct Hd as [Hnd H]. split.
      * now apply dict_set_NoDup.
      * intros k v. rewrite dict_get_set, in_app_iff.
        destruct (String.eqb_spec attr k) as [->|Hne].
        -- split.
           ++ intros [= <-]. split; [right; now left|]. now split.
           ++ intros (_ & _ & Hv'). congruence.
        -- rewrite H. split; [tauto|].
           intros ([Hin|[E|[]]] & Hk & Hv'); [tauto|now destruct Hne].
Qed.

Lemma extras_into_serialises self exclude
    (extra_column_attrs : dict (list string)) : ∀ names d d',
  serialises self exclude names d →
  for_each (λ d '(table_name, extras), attrs_into self exclude d extras)
    d extra_column_attrs = Ok d' →
  serialises self exclude (names ++ concat (map snd extra_column_attrs)) d'.
Proof.
  induction extra_column_attrs as [|[t extras] rest IH];
    intros names d d' Hd K.
  - injection K as <-. cbn. now rewrite app_nil_r.
  - cbn [for_each] in K.
    destruct (attrs_into self exclude d extras) as [d1|e] eqn:K1;
      cbn [mbind result_bind] in K; [|discriminate].
    cbn [map snd concat]. rewrite app_assoc.
    eapply IH; [|exact K]. now apply attrs_into_serialises with d.
Qed.

Lemma linkers_into_serialises self exclude
    (extra_linkers : dict (string * string)) : ∀ names d d',
  serialises self exclude names d →
  for_each (λ d '(table_name, (linked_table_name, attr)),
              attrs_into self exclude d [attr])
    d extra_linkers = Ok d' →
  serialises self exclude
    (names ++ map (λ linker, linker.2.2) extra_linkers) d'.
Proof.
  induction extra_linkers as [|[t [lt attr]] rest IH];
    intros names d d' Hd K.
  - injection K as <-. cbn. now rewrite app_nil_r.
  - cbn [for_each] in K.
    destruct (attrs_into self exclude d [attr]) as [d1|e] eqn:K1;
      cbn [mbind result_bind] in K; [|discriminate].
    cbn [map snd]. replace (names ++ attr :: map (λ linker, linker.2.2) rest)
      with ((names ++ [attr]) ++ map (λ linker, linker.2.2) rest)
      by now rewrite <- app_assoc.
    eapply IH; [|exact K]. now apply attrs_into_serialises with d.
Qed.

(** The first loop of [as_dict] changes the lists of owned objects
    only. *)
Lemma saving_children_keeps_attrs (child_attrs : list string) :
  ∀ self w self1 w1,
  for_eachM
    (λ self child_object_list_name,
       children ← lift (getattr_list self child_object_list_name);
       children ← mapM save_if_unsaved children;
       mret (with_lists self
               (dict_set child_object_list_name children (obj_lists self))))
    self child_attrs w = (Ok self1, w1) →
  obj_attrs self1 = obj_attrs self ∧ obj_class self1 = obj_class self.
Proof.
  intros self w self1 w1 K.
  refine (for_eachM_invariant
            (λ s, obj_attrs s = obj_attrs self
                  ∧ obj_class s = obj_class self)
            _ _ _ _ _ _ _ (conj eq_refl eq_refl) K).
  intros s a w0 s' w0' Hs Kb.
  apply bind_Ok_inv in Kb as (children & w3 & _ & Kb).
  apply bind_Ok_inv in Kb as (children' & w4 & _ & Kb).
  injection Kb as <- _. exact Hs.
Qed.

Lemma getattr_attrs self self1 k :
  obj_attrs self1 = obj_attrs self → getattr self1 k = getattr self k.
Proof. unfold getattr. now intros ->. Qed.

Lemma serialises_attrs self self1 exclude names d :
  obj_attrs self1 = obj_attrs self →
  serialises self1 exclude names d → serialises self exclude names d.
Proof.
  intros E [Hnd H]. split; [exact Hnd|]. intros k v.
  now rewrite H, (getattr_attrs self self1 k E).
Qed.

End Serialisation.

(** X23.  What [as_dict] returns, when it returns: a dictionary whose
    keys are, each once, the names in [column_attrs], in the lists of
    [extra_column_attrs] and in the linker attributes of
    [extra_linkers], those in [exclude] left out, and whose value at a
    key is the object's attribute of that name. *)
Theorem as_dict_serialises_attributes `{Collab : Collaborators}
    (depth : nat) (self self' : Saveable) (exclude : list string)
    (m : dict value) (w w' : World) :
  Saveable_as_dict depth self exclude w = (Ok (m, self'), w') →
  ∃ column_attrs extra_column_attrs extra_linkers,
    class_attr decl_column_attrs (obj_class self) = Ok (Some column_attrs)
    ∧ class_attr decl_extra_column_attrs (obj_class self)
      = Ok extra_column_attrs
    ∧ class_attr decl_extra_linkers (obj_class self) = Ok extra_linkers
    ∧ serialises self exclude
        (serialised_names column_attrs extra_column_attrs extra_linkers) m.
Proof.
  unfold Saveable_as_dict. intros K.
  apply bind_Ok_inv in K as (child_attrs & w1 & _ & K).
  apply bind_Ok_inv in K as (self1 & w2 & K2 & K).
  apply saving_children_keeps_attrs in K2 as [Hattrs Hcls].
  apply bind_Ok_inv in K as (d1 & w3 & K3 & K).
  apply bind_Ok_inv in K as (eca & w4 & K4 & K).
  apply lift_Ok_inv in K4 as (Heca & ->).
  apply bind_Ok_inv in K as (d2 & w5 & K5 & K).
  apply lift_Ok_inv in K5 as (Hd2 & ->).
  apply bind_Ok_inv in K as (el & w6 & K6 & K).
  apply lift_Ok_inv in K6 as (Hel & ->).
  apply bind_Ok_inv in K as (d3 & w7 & K7 & K).
  apply lift_Ok_inv in K7 as (Hd3 & ->).
  injection K as <- <- <-.
  unfold Saveable_get_main_dict in K3.
  apply bind_Ok_inv in K3 as (ca & w8 & K8 & K3).
  apply lift_Ok_inv in K8 as (Hca & ->).
  destruct ca as [column_attrs|].
  2:{ apply bind_Ok_inv in K3 as (? & ? & _ & K3). discriminate. }
  apply lift_Ok_inv in K3 as (Hd1 & ->).
  rewrite Hcls in Hca, Heca, Hel.
  exists column_attrs, eca, el.
  split; [exact Hca|]. split; [exact Heca|]. split; [exact Hel|].
  apply (serialises_attrs self self1); [exact Hattrs|].
  unfold serialised_names. rewrite app_assoc.
  apply linkers_into_serialises with d2; [|exact Hd3].
  apply extras_into_serialises with d1; [|exact Hd2].
  apply (attrs_into_serialises self1 exclude column_attrs [] [] d1);
    [|exact Hd1].
  split; [constructor|]. intros k v. cbn. split; [discriminate|tauto].
Qed.

Lemma as_dict_serialises_attributes_witness :
  let a := Installation.measurement 1 "m" [1; 2] [] in
  ∃ m,
    @Saveable_as_dict Installation.collaborators 0 a ["name"]
      Installation.w0 = (Ok (m, a), Installation.w0)
    ∧ serialises a ["name"] ["name"; "s_ids"] m.
Proof.
  intros a.
  destruct (@as_dict_serialises_attributes Installation.collaborators 0 a a
              ["name"] [("s_ids", VList [VInt 1; VInt 2])]
              Installation.w0 Installation.w0 eq_refl)
    as (ca & eca & el & Hca & Heca & Hel & H).
  injection Hca as <-. injection Heca as <-. injection Hel as <-.
  eexists. split; [reflexivity|]. exact H.
Defined.

Section Children.
Context `{Collab : Collaborators}.

(** The first loop of [as_dict]. *)
#[warnings="-notation-for-abbreviation"] Local Notation save_children :=
  (for_eachM
     (λ self child_object_list_name,
        children ← lift (getattr_list self child_object_list_name);
        children ← mapM save_if_unsaved children;
        mret (with_lists self
                (dict_set child_object_list_name children (obj_lists self))))).

Lemma subscript_Ok_inv {V} (d : dict V) k w v w' :
  subscript d k w = (Ok v, w') → dict_get k d = Some v ∧ w' = w.
Proof.
  unfold subscript. destruct (dict_get k d); [|discriminate].
  now intros [= <- <-].
Qed.

(** When [as_dict] returns, the world is as the first loop left it. *)
Lemma Saveable_as_dict_Ok_inv depth self exclude w m self' w' :
  Saveable_as_dict depth self exclude w = (Ok (m, self'), w') →
  ∃ child_attrs,
    class_attr decl_child_attrs (obj_class self) = Ok child_attrs
    ∧ save_children self child_attrs w = (Ok self', w').
Proof.
  unfold Saveable_as_dict. intros K.
  apply bind_Ok_inv in K as (child_attrs & w1 & K1 & K).
  apply lift_Ok_inv in K1 as (Hca & ->).
  apply bind_Ok_inv in K as (self1 & w2 & K2 & K).
  apply bind_Ok_inv in K as (d1 & w3 & K3 & K).
  apply bind_Ok_inv in K as (eca & w4 & K4 & K).
  apply lift_Ok_inv in K4 as (_ & ->).
  apply bind_Ok_inv in K as (d2 & w5 & K5 & K).
  apply lift_Ok_inv in K5 as (_ & ->).
  apply bind_Ok_inv in K as (el & w6 & K6 & K).
  apply lift_Ok_inv in K6 as (_ & ->).
  apply bind_Ok_inv in K as (d3 & w7 & K7 & K).
  apply lift_Ok_inv in K7 as (_ & ->).
  injection K as <- <- <-.
  unfold Saveable_get_main_dict in K3.
  apply bind_Ok_inv in K3 as (ca & w8 & K8 & K3).
  apply lift_Ok_inv in K8 as (_ & ->).
  destruct ca as [column_attrs|].
  2:{ apply bind_Ok_inv in K3 as (? & ? & _ & K3). discriminate. }
  apply lift_Ok_inv in K3 as (_ & ->).
  exists child_attrs. now split.
Qed.

Lemma with_lists_same self : with_lists self (obj_lists self) = self.
Proof. now destruct self. Qed.

(** A saved child is left alone. *)
Lemma save_if_unsaved_saved none child_obj w :
  dict_get "none" database_backends = Some none →
  saved none child_obj →
  save_if_unsaved child_obj w = (Ok child_obj, w).
Proof.
  intros Hn Hs. unfold save_if_unsaved, subscript. rewrite Hn.
  destruct child_obj as [obj|ph]; cbn [saved] in Hs.
  - destruct Hs as [Ht Hs].
    assert (Saveable_backend obj w = (Ok (_backend obj, obj), w)) as K
      by now rewrite Saveable_backend_unfold, Ht.
    unfold mbind at 1, M_bind at 1.
    rewrite (bind_Ok _ _ _ _ _ K). cbn [mret M_ret].
    unfold mbind at 1, M_bind at 1. cbn [mret M_ret]. now rewrite Hs.
  - unfold mbind at 1, M_bind at 1. cbn [mret M_ret].
    unfold mbind at 1, M_bind at 1. cbn [mret M_ret]. now rewrite Hs.
Qed.

Lemma mapM_saved none l w :
  dict_get "none" database_backends = Some none →
  Forall (saved none) l →
  mapM save_if_unsaved l w = (Ok l, w).
Proof.
  intros Hn. induction 1 as [|x l Hx _ IH]; [reflexivity|].
  cbn [mapM].
  rewrite (bind_Ok _ _ _ _ _ (save_if_unsaved_saved none x w Hn Hx)).
  now rewrite (bind_Ok _ _ _ _ _ IH).
Qed.

Lemma save_children_saved none child_attrs self w :
  dict_get "none" database_backends = Some none →
  Forall (λ name, ∃ l, getattr_list self name = Ok l
                       ∧ Forall (saved none) l) child_attrs →
  save_children self child_attrs w = (Ok self, w).
Proof.
  intros Hn. induction 1 as [|name rest (l & Hl & Hs) _ IH]; [reflexivity|].
  cbn [for_eachM]. rewrite Hl.
  unfold mbind at 1, M_bind at 1.
  unfold mbind at 1, M_bind at 1, lift.
  rewrite (bind_Ok _ _ _ _ _ (mapM_saved none l w Hn Hs)).
  cbn [mret M_ret].
  unfold getattr_list in Hl.
  destruct (dict_get name (obj_lists self)) as [l0|] eqn:E; [|discriminate].
  injection Hl as ->.
  now rewrite (dict_set_same _ _ _ E), with_lists_same.
Qed.

(** Every step of the first loop adds calls to the log and takes none
    away. *)
Lemma save_if_unsaved_calls child_obj w child_obj' w' :
  save_if_unsaved child_obj w = (Ok child_obj', w') →
  ∃ new, calls w' = calls w ++ new.
Proof.
  unfold save_if_unsaved. intros K.
  apply bind_Ok_inv in K as ([b c] & w1 & K1 & K).
  assert (w1 = w) as ->.
  { destruct child_obj as [obj|ph].
    - apply bind_Ok_inv in K1 as ([b0 obj0] & w2 & K1 & K1').
      apply Saveable_backend_Ok in K1 as (-> & _). now injection K1'.
    - now injection K1. }
  apply bind_Ok_inv in K as (none & w3 & Kn & K).
  apply subscript_Ok_inv in Kn as (_ & ->).
  destruct (is_same b (BObj none)).
  - apply bind_Ok_inv in K as (memory & w4 & Km & K).
    apply subscript_Ok_inv in Km as (_ & ->).
    unfold call_save, collaborate in K.
    destruct (backend_save memory c (stores w)) as [r st].
    injection K as _ <-. eexists. reflexivity.
  - injection K as _ <-. exists []. now rewrite app_nil_r.
Qed.

(** An unsaved child is saved in the registered "memory" backend. *)
Lemma save_if_unsaved_unsaved none memory child_obj w child_obj' w' :
  dict_get "none" database_backends = Some none →
  dict_get "memory" database_backends = Some memory →
  unsaved none child_obj →
  save_if_unsaved child_obj w = (Ok child_obj', w') →
  calls w' = calls w ++ [Call_save memory (item_uid child_obj)].
Proof.
  intros Hn Hm Hu. unfold save_if_unsaved. intros K.
  apply bind_Ok_inv in K as ([b c] & w1 & K1 & K).
  assert (w1 = w ∧ is_same b (BObj none) = true
          ∧ item_uid c = item_uid child_obj) as (-> & Hb & Hc).
  { destruct child_obj as [obj|ph]; cbn [unsaved] in Hu.
    - apply bind_Ok_inv in K1 as ([b0 obj0] & w2 & K1 & K1').
      injection K1' as <- <- <-.
      rewrite Saveable_backend_unfold in K1.
      destruct (truthy (_backend obj)) eqn:Ht.
      + injection K1 as <- <- <-. destruct Hu as [Hu|Hu]; [discriminate|].
        now split.
      + rewrite Hn in K1. injection K1 as <- <- <-.
        split; [reflexivity|]. split; [|reflexivity].
        cbn [is_same]. apply Nat.eqb_refl.
    - injection K1 as <- <- <-. now split. }
  apply bind_Ok_inv in K as (none' & w3 & Kn & K).
  apply subscript_Ok_inv in Kn as (Hn' & ->).
  rewrite Hn in Hn'. injection Hn' as <-. rewrite Hb in K.
  apply bind_Ok_inv in K as (memory' & w4 & Km & K).
  apply subscript_Ok_inv in Km as (Hm' & ->).
  rewrite Hm in Hm'. injection Hm' as <-.
  unfold call_save, collaborate in K.
  destruct (backend_save memory c (stores w)) as [r st].
  injection K as _ <-. cbn [calls]. now rewrite Hc.
Qed.

Lemma mapM_save_calls l : ∀ w l' w',
  mapM save_if_unsaved l w = (Ok l', w') →
  ∃ new, calls w' = calls w ++ new.
Proof.
  induction l as [|x l IH]; intros w l' w' K.
  - injection K as _ <-. exists []. now rewrite app_nil_r.
  - cbn [mapM] in K.
    apply bind_Ok_inv in K as (x' & w1 & K1 & K).
    apply bind_Ok_inv in K as (xs & w2 & K2 & K).
    injection K as _ <-.
    apply save_if_unsaved_calls in K1 as (new1 & E1).
    apply IH in K2 as (new2 & E2).
    exists (new1 ++ new2). now rewrite E2, E1, app_assoc.
Qed.

Lemma mapM_save_logs none memory child_obj l : ∀ w l' w',
  dict_get "none" database_backends = Some none →
  dict_get "memory" database_backends = Some memory →
  In child_obj l → unsaved none child_obj →
  mapM save_if_unsaved l w = (Ok l', w') →
  ∃ new, calls w' = calls w ++ new
         ∧ In (Call_save memory (item_uid child_obj)) new.
Proof.
  induction l as [|x l IH]; intros w l' w' Hn Hm Hin Hu K; [destruct Hin|].
  cbn [mapM] in K.
  apply bind_Ok_inv in K as (x' & w1 & K1 & K).
  apply bind_Ok_inv in K as (xs & w2 & K2 & K).
  injection K as _ <-.
  destruct Hin as [->|Hin].
  - apply (save_if_unsaved_unsaved none memory) in K1 as E1; try assumption.
    apply mapM_save_calls in K2 as (new2 & E2).
    exists ([Call_save memory (item_uid child_obj)] ++ new2).
    split; [now rewrite E2, E1, app_assoc|]. now left.
  - apply save_if_unsaved_calls in K1 as (new1 & E1).
    apply IH in K2 as (new2 & E2 & Hin2); try assumption.
    exists (new1 ++ new2). split; [now rewrite E2, E1, app_assoc|].
    apply in_or_app. now right.
Qed.

Lemma save_children_calls child_attrs : ∀ self w self' w',
  save_children self child_attrs w = (Ok self', w') →
  ∃ new, calls w' = calls w ++ new.
Proof.
  induction child_attrs as [|name rest IH]; intros self w self' w' K.
  - injection K as _ <-. exists []. now rewrite app_nil_r.
  - cbn [for_eachM] in K.
    apply bind_Ok_inv in K as (self1 & w1 & Kb & K).
    apply bind_Ok_inv in Kb as (children & w2 & Kl & Kb).
    apply lift_Ok_inv in Kl as (_ & ->).
    apply bind_Ok_inv in Kb as (children' & w3 & Km & Kb).
    injection Kb as _ <-.
    apply mapM_save_calls in Km as (new1 & E1).
    apply IH in K as (new2 & E2).
    exists (new1 ++ new2). now rewrite E2, E1, app_assoc.
Qed.

Lemma save_children_logs none memory name l child_obj child_attrs :
  ∀ self w self' w',
  dict_get "none" database_backends = Some none →
  dict_get "memory" database_backends = Some memory →
  In name child_attrs →
  getattr_list self name = Ok l →
  In child_obj l → unsaved none child_obj →
  save_children self child_attrs w = (Ok self', w') →
  ∃ new, calls w' = calls w ++ new
         ∧ In (Call_save memory (item_uid child_obj)) new.
Proof.
  induction child_attrs as [|name0 rest IH];
    intros self w self' w' Hn Hm Hname Hl Hin Hu K; [destruct Hname|].
  cbn [for_eachM] in K.
  apply bind_Ok_inv in K as (self1 & w1 & Kb & K).
  apply bind_Ok_inv in Kb as (children & w2 & Kl & Kb).
  apply lift_Ok_inv in Kl as (Hl0 & ->).
  apply bind_Ok_inv in Kb as (children' & w3 & Km & Kb).
  injection Kb as <- <-.
  destruct (String.eqb_spec name0 name) as [->|Hne].
  - rewrite Hl in Hl0. injection Hl0 as <-.
    apply (mapM_save_logs none memory child_obj) in Km
      as (new1 & E1 & Hin1); try assumption.
    apply save_children_calls in K as (new2 & E2).
    exists (new1 ++ new2). split; [now rewrite E2, E1, app_assoc|].
    apply in_or_app. now left.
  - destruct Hname as [E|Hname]; [now destruct Hne|].
    apply mapM_save_calls in Km as (new1 & E1).
    apply IH in K as (new2 & E2 & Hin2); try assumption.
    + exists (new1 ++ new2). split; [now rewrite E2, E1, app_assoc|].
      apply in_or_app. now right.
    + unfold getattr_list in *. cbn [with_lists obj_lists].
      rewrite dict_get_set.
      destruct (String.eqb_spec name0 name) as [E|_]; [now destruct Hne|].
      exact Hl.
Qed.

End Children.

(** X24.  [as_dict] on an object all of whose owned objects are saved,
    that is, have another backend than the registered "none" backend,
    is a pure read: when it returns, the object and the world are as
    they were, and no backend has been called. *)
Theorem as_dict_with_saved_children `{Collab : Collaborators}
    (depth : nat) (self self' : Saveable) (exclude : list string)
    (none : Backend) (child_attrs : list string) (m : dict value)
    (w w' : World) :
  dict_get "none" database_backends = Some none →
  class_attr decl_child_attrs (obj_class self) = Ok child_attrs →
  Forall (λ name, ∃ l, getattr_list self name = Ok l
                       ∧ Forall (saved none) l) child_attrs →
  Saveable_as_dict depth self exclude w = (Ok (m, self'), w') →
  self' = self ∧ w' = w.
Proof.
  intros Hn Hca Hall K.
  apply Saveable_as_dict_Ok_inv in K as (child_attrs' & Hca' & K).
  rewrite Hca in Hca'. injection Hca' as <-.
  rewrite (save_children_saved none child_attrs self w Hn Hall) in K.
  now injection K as <- <-.
Qed.

Lemma as_dict_with_saved_children_witness :
  let x := Installation.series 11 1 "x" in
  let ph := mkPlaceHolderObject 12 2 Installation.Series
              (BObj Installation.directory_backend) in
  let a := Installation.measurement 1 "m" [1; 2] [inl x; inr ph] in
  ∃ m, @Saveable_as_dict Installation.collaborators 0 a []
         Installation.w0 = (Ok (m, a), Installation.w0).
Proof.
  intros x ph a.
  destruct (@Saveable_as_dict Installation.collaborators 0 a []
              Installation.w0) as [[[m a']|e] w'] eqn:K; [|discriminate K].
  destruct (@as_dict_with_saved_children Installation.collaborators 0 a a'
              [] Installation.none_backend ["series_list"] m
              Installation.w0 w' eq_refl eq_refl) as [-> ->].
  - constructor; [|constructor].
    exists [inl x; inr ph]. split; [reflexivity|].
    repeat constructor.
  - exact K.
  - exists m. reflexivity.
Defined.

(** X25.  [as_dict] saves the unsaved owned objects first: when it
    returns, each owned object that had no backend, or the registered
    "none" backend, has been passed to [save] of the registered "memory"
    backend, and no call has been taken from the log. *)
Theorem as_dict_saves_unsaved_children `{Collab : Collaborators}
    (depth : nat) (self self' : Saveable) (exclude : list string)
    (none memory : Backend) (child_attrs : list string) (m : dict value)
    (w w' : World) :
  dict_get "none" database_backends = Some none →
  dict_get "memory" database_backends = Some memory →
  class_attr decl_child_attrs (obj_class self) = Ok child_attrs →
  Saveable_as_dict depth self exclude w = (Ok (m, self'), w') →
  ∃ new,
    calls w' = calls w ++ new
    ∧ ∀ name l child_obj,
        In name child_attrs → getattr_list self name = Ok l →
        In child_obj l → unsaved none child_obj →
        In (Call_save memory (item_uid child_obj)) new.
Proof.
  intros Hn Hm Hca K.
  apply Saveable_as_dict_Ok_inv in K as (child_attrs' & Hca' & K).
  rewrite Hca in Hca'. injection Hca' as <-.
  destruct (save_children_calls _ _ _ _ _ K) as (new & E).
  exists new. split; [exact E|].
  intros name l child_obj Hname Hl Hin Hu.
  destruct (save_children_logs none memory name l child_obj child_attrs
              self w self' w' Hn Hm Hname Hl Hin Hu K) as (new' & E' & Hin').
  rewrite E in E'. apply app_inv_head in E'. now subst.
Qed.

Lemma as_dict_saves_unsaved_children_witness :
  let x := mkSaveable 11 Installation.Series None BNone
             [("name", VStr "x")] [] in
  let y := Installation.series 12 2 "y" in
  let a := Installation.measurement 1 "m" [1; 2] [inl x; inl y] in
  ∃ m a' w',
    @Saveable_as_dict Installation.collaborators 0 a []
      Installation.w0 = (Ok (m, a'), w')
    ∧ In (Call_save Installation.memory_backend 11) (calls w').
Proof.
  intros x y a.
  destruct (@Saveable_as_dict Installation.collaborators 0 a []
              Installation.w0) as [[[m a']|e] w'] eqn:K; [|discriminate K].
  destruct (@as_dict_saves_unsaved_children Installation.collaborators 0 a a'
              [] Installation.none_backend Installation.memory_backend
              ["series_list"] m Installation.w0 w'
              eq_refl eq_refl eq_refl K) as (new & E & H).
  exists m, a', w'. split; [reflexivity|].
  rewrite E. apply in_or_app. right.
  apply (H "series_list" [inl x; inl y] (inl x)).
  - now left.
  - reflexivity.
  - now left.
  - left. reflexivity.
Defined.

Section Placeholders.
Context `{Collab : Collaborators}.

(** [!=] on a placeholder and another object that is not the same
    object is [True]: [PlaceHolderObject] has no [__eq__], and
    [Saveable.__eq__] answers [False] for an object of another class. *)
Lemma placeholder_mismatch_unequal depth object other_object :
  placeholder_mismatch object other_object →
  items_unequal (S depth) object other_object.
Proof.
  intros H w. exists w.
  destruct object as [obj|ph], other_object as [obj'|ph'];
    cbn [placeholder_mismatch] in H; [destruct H| | |].
  - destruct H as [Hu Hc].
    cbn [item_ne Saveable__eq__ item_uid item_class].
    destruct (Nat.eqb_spec (obj_uid obj) (ph_uid ph')) as [E|_];
      [now destruct Hu|].
    rewrite Hc. reflexivity.
  - destruct H as [Hu Hc].
    cbn [item_ne Saveable__eq__ item_uid item_class].
    destruct (Nat.eqb_spec (obj_uid obj') (ph_uid ph)) as [E|_];
      [now destruct Hu|].
    rewrite Hc. reflexivity.
  - cbn [item_ne].
    destruct (Nat.eqb_spec (ph_uid ph) (ph_uid ph')) as [E|_];
      [now destruct H|].
    reflexivity.
Qed.

End Placeholders.

(** X26.  Placeholders are compared by identity.  Let two distinct
    objects of one class both serialise, and let, at some position of
    one of their lists of owned objects, the two elements be two
    different objects of which at least one is a placeholder.  If the
    pairs before them are compared without an exception, the two objects
    compare unequal, also when the placeholders stand for the same row
    of the same backend and whatever the dictionaries are. *)
Theorem eq_compares_placeholders_by_identity `{Collab : Collaborators}
    (depth : nat) (self other self' other' : Saveable) (m m' : dict value)
    (w w1 w2 : World) (before after : list string) (name : string)
    (l l' : list item) (n : nat) (c c' : item) :
  obj_uid self ≠ obj_uid other →
  same_class (obj_class self) (obj_class other) = true →
  Saveable_as_dict (S depth) self [] w = (Ok (m, self'), w1) →
  Saveable_as_dict (S depth) other [] w1 = (Ok (m', other'), w2) →
  class_attr decl_child_attrs (obj_class self)
  = Ok (before ++ name :: after) →
  Forall (lists_related (items_comparable (S depth)) self' other') before →
  getattr_list self' name = Ok l →
  getattr_list other' name = Ok l' →
  l !! n = Some c → l' !! n = Some c' →
  placeholder_mismatch c c' →
  Forall (λ p, items_comparable (S depth) p.1 p.2)
    (zip (take n l) (take n l')) →
  ∃ w', Saveable__eq__ (S (S depth)) self (inl other) w = (Ok false, w').
Proof.
  intros Hu Hc K1 K2 Hca Hbefore E1 E2 H1 H2 Hph Hpre.
  destruct (Saveable_as_dict_Ok _ _ _ _ _ _ _ K1)
    as (_ & _ & (extra_linkers & Hel)).
  rewrite (Saveable__eq___unfold (S depth) self other w m self' w1 m' other'
             w2 extra_linkers (before ++ name :: after) Hu Hc K1 K2 Hel Hca).
  destruct (negb (Nat.eqb (length m) (length m'))); [eexists; reflexivity|].
  destruct (existsb _ (map fst m)); [eexists; reflexivity|].
  destruct (lists_differ_found (S depth) self' other' before name after
              l l' n c c' Hbefore E1 E2 H1 H2
              (placeholder_mismatch_unequal depth c c' Hph) Hpre w2)
    as (w' & E).
  rewrite (bind_Ok _ _ _ _ _ E). eexists; reflexivity.
Qed.

Lemma eq_compares_placeholders_by_identity_witness :
  let ph := mkPlaceHolderObject 11 1 Installation.Series
              (BObj Installation.directory_backend) in
  let ph' := mkPlaceHolderObject 12 1 Installation.Series
               (BObj Installation.directory_backend) in
  let a := Installation.measurement 1 "m" [1] [inr ph] in
  let b := Installation.measurement 2 "m" [1] [inr ph'] in
  ∃ w', @Saveable__eq__ Installation.collaborators 2 a (inl b)
          Installation.w0 = (Ok false, w').
Proof.
  intros ph ph' a b.
  set (d := [("name", VStr "m"); ("s_ids", VList [VInt 1])]).
  refine (@eq_compares_placeholders_by_identity Installation.collaborators
            0 a b a b d d Installation.w0 Installation.w0 Installation.w0
            [] [] "series_list" [inr ph] [inr ph'] 0 (inr ph) (inr ph')
            _ eq_refl eq_refl eq_refl eq_refl _ eq_refl eq_refl eq_refl
            eq_refl _ _).
  - discriminate.
  - constructor.
  - cbn. discriminate.
  - constructor.
Defined.

(** ** Reading timestamps *)

Section Timestamps.
Context `{Time : TimeModule}.

(** After a form that parses, forms that do not parse change nothing. *)
Lemma try_forms_none_parses timestamp_string forms : ∀ struct,
  Forall (λ form, strptime timestamp_string form = Raise ValueError) forms →
  try_forms timestamp_string struct forms = Ok struct.
Proof.
  induction forms as [|form forms IH]; intros struct H; [reflexivity|].
  apply Forall_cons in H as [Hf H]. cbn [try_forms]. rewrite Hf.
  now apply IH.
Qed.

(** What the loop held before a form that parses is forgotten. *)
Lemma try_forms_last_parsed timestamp_string before form after parsed :
  ∀ struct,
  Forall (λ form, strptime timestamp_string form = Raise ValueError
                  ∨ ∃ struct', strptime timestamp_string form = Ok struct')
    before →
  strptime timestamp_string form = Ok parsed →
  Forall (λ form, strptime timestamp_string form = Raise ValueError) after →
  try_forms timestamp_string struct (before ++ form :: after)
  = Ok (Some parsed).
Proof.
  induction before as [|form0 before IH]; intros struct Hb Hf Ha.
  - cbn [app try_forms]. rewrite Hf. now apply try_forms_none_parses.
  - apply Forall_cons in Hb as [[H0|(struct' & H0)] Hb];
      cbn [app try_forms]; rewrite H0; now apply IH.
Qed.

Lemma result_bind_Ok_id {A} (r : result A) : (a ← r; Ok a) = r.
Proof. now destruct r. Qed.

Lemma prompt_loop_unparsed path_to_file form default default_timestring
    bads : ∀ typed' shown,
  Forall (λ timestamp_string,
            timestamp_string ≠ ""
            ∧ mktime_strptime timestamp_string form = Raise ValueError)
    bads →
  prompt_loop path_to_file form default default_timestring
    (bads ++ typed') shown
  = prompt_loop path_to_file form default default_timestring typed'
      (shown
       ++ flat_map
            (λ timestamp_string,
               [Please_input path_to_file form default default_timestring;
                Could_not_parse timestamp_string form])
            bads).
Proof.
  induction bads as [|bad bads IH]; intros typed' shown H.
  - cbn [app flat_map]. now rewrite app_nil_r.
  - apply Forall_cons in H as [[Hne Hbad] H].
    cbn [app prompt_loop flat_map].
    destruct (String.eqb_spec bad "") as [E|_]; [now destruct Hne|].
    rewrite Hbad, IH by exact H. f_equal.
    now rewrite <- !app_assoc.
Qed.

End Timestamps.

(** X27.  [timestamp_string_to_tstamp] tries every form, and the last
    one that parses decides: when no [form] is given and the string
    parses with one of [forms] and with none of those after it, the
    result is [mktime] of that parse, whatever the forms before it gave,
    a parse or a [ValueError]. *)
Theorem timestamp_string_to_tstamp_last_form_wins `{Time : TimeModule}
    (timestamp_string : string) (form : option string)
    (before after : list string) (last_form : string) (parsed : struct_time) :
  form = None ∨ form = Some "" →
  Forall (λ form, strptime timestamp_string form = Raise ValueError
                  ∨ ∃ struct', strptime timestamp_string form = Ok struct')
    before →
  strptime timestamp_string last_form = Ok parsed →
  Forall (λ form, strptime timestamp_string form = Raise ValueError) after →
  timestamp_string_to_tstamp timestamp_string form
    (before ++ last_form :: after)
  = mktime parsed.
Proof.
  intros Hform Hb Hf Ha. unfold timestamp_string_to_tstamp.
  assert (match form with
          | Some form =>
              if String.eqb form "" then before ++ last_form :: after
              else [form]
          | None => before ++ last_form :: after
          end = before ++ last_form :: after) as ->
    by now destruct Hform as [-> | ->].
  rewrite (try_forms_last_parsed timestamp_string before last_form after
             parsed None Hb Hf Ha).
  cbn [mbind result_bind call_mktime]. apply result_bind_Ok_id.
Qed.

Lemma timestamp_string_to_tstamp_last_form_wins_witness :
  @timestamp_string_to_tstamp Clock.time_module "2001" None
    [STANDARD_TIMESTAMP_FORM; "%s"; "%Y"; "%d"]
  = Ok (31 * Clock.year).
Proof.
  apply (@timestamp_string_to_tstamp_last_form_wins Clock.time_module
           "2001" None [STANDARD_TIMESTAMP_FORM; "%s"] ["%d"] "%Y"
           (31 * Clock.year)).
  - now left.
  - apply Forall_cons_2; [now left|].
    apply Forall_cons_2; [right; now exists 2001|]. apply Forall_nil_2.
  - reflexivity.
  - apply Forall_cons_2; [reflexivity|apply Forall_nil_2].
Defined.

(** X28.  A string that no form parses is reported as a [TypeError],
    not as the [ValueError] of the parser: when [strptime] raises
    [ValueError] for every form that is tried, [mktime] is called with
    [None].  The forms tried are [forms] when no [form] is given, and
    the one [form] when it is, whatever [forms] holds. *)
Theorem timestamp_string_to_tstamp_unparsed `{Time : TimeModule}
    (timestamp_string : string) (forms : list string) :
  (∀ form,
     form = None ∨ form = Some "" →
     Forall (λ form, strptime timestamp_string form = Raise ValueError)
       forms →
     timestamp_string_to_tstamp timestamp_string form forms
     = Raise TypeError)
  ∧ (∀ form,
       form ≠ "" →
       strptime timestamp_string form = Raise ValueError →
       timestamp_string_to_tstamp timestamp_string (Some form) forms
       = Raise TypeError).
Proof.
  split.
  - intros form Hform H. unfold timestamp_string_to_tstamp.
    assert (match form with
            | Some form => if String.eqb form "" then forms else [form]
            | None => forms
            end = forms) as ->
      by now destruct Hform as [-> | ->].
    now rewrite try_forms_none_parses.
  - intros form Hne H. unfold timestamp_string_to_tstamp.
    destruct (String.eqb_spec form "") as [E|_]; [now destruct Hne|].
    cbn [try_forms]. now rewrite H.
Qed.

Lemma timestamp_string_to_tstamp_unparsed_witness :
  @timestamp_string_to_tstamp Clock.time_module "May 2001" None ["%s"; "%Y"]
  = Raise TypeError
  ∧ @timestamp_string_to_tstamp Clock.time_module "2001" (Some "%d")
      ["%s"; "%Y"]
    = Raise TypeError.
Proof.
  split.
  - apply (proj1 (@timestamp_string_to_tstamp_unparsed Clock.time_module
                    "May 2001" ["%s"; "%Y"]) None); [now left|].
    apply Forall_cons_2; [reflexivity|].
    apply Forall_cons_2; [reflexivity|apply Forall_nil_2].
  - apply (proj2 (@timestamp_string_to_tstamp_unparsed Clock.time_module
                    "2001" ["%s"; "%Y"]) "%d"); [discriminate|reflexivity].
Defined.

(** X29.  [prompt_for_tstamp] asks until an entry parses: each entry
    that is not empty and does not parse is answered with the message,
    the first one that parses ends the prompt, and the lines after it
    are not read.  The result is the parsed timestamp, unless that is
    zero, which counts as no timestamp: then it is the default. *)
Theorem prompt_for_tstamp_until_parsed `{Time : TimeModule}
    (path_to_file form : string) (default : default_arg)
    (default_tstamp tstamp : py_float) (local : struct_time)
    (default_timestring : string) (bads : list string) (good : string)
    (rest : list string) (shown0 : list terminal_output) :
  choose_default_tstamp path_to_file default = Ok default_tstamp →
  localtime default_tstamp = Ok local →
  strftime form local = Ok default_timestring →
  Forall (λ timestamp_string,
            timestamp_string ≠ ""
            ∧ mktime_strptime timestamp_string form = Raise ValueError)
    bads →
  good ≠ "" →
  mktime_strptime good form = Ok tstamp →
  let please :=
    Please_input path_to_file form default default_timestring in
  prompt_for_tstamp path_to_file default form
    (mkTerminal (bads ++ good :: rest) shown0)
  = (Ok (if py_float_truthy tstamp then tstamp else default_tstamp),
     mkTerminal rest
       (shown0
        ++ flat_map (λ timestamp_string,
                       [please; Could_not_parse timestamp_string form]) bads
        ++ [please])).
Proof.
  intros Hd Hl Hs Hbads Hne Hgood please. unfold prompt_for_tstamp.
  rewrite Hd. cbn [mbind result_bind]. rewrite Hl. cbn [mbind result_bind].
  rewrite Hs. cbn [mbind result_bind typed shown].
  rewrite prompt_loop_unparsed by exact Hbads.
  cbn [prompt_loop].
  destruct (String.eqb_spec good "") as [E|_]; [now destruct Hne|].
  rewrite Hgood. now rewrite <- app_assoc.
Qed.

Lemma prompt_for_tstamp_until_parsed_witness :
  let please := @Please_input Clock.time_module "run.mpt" "%Y"
                  (Default_str "creation") "later" in
  @prompt_for_tstamp Clock.time_module "run.mpt" (Default_str "creation")
    "%Y" (mkTerminal ["May 2001"; "1970"; "2001"] [])
  = (Ok 1600000000,
     mkTerminal ["2001"]
       [please; Could_not_parse "May 2001" "%Y"; please]).
Proof.
  intros please.
  apply (@prompt_for_tstamp_until_parsed Clock.time_module "run.mpt" "%Y"
           (Default_str "creation") 1600000000 0 1600000000 "later"
           ["May 2001"] "1970" ["2001"] []).
  - reflexivity.
  - reflexivity.
  - reflexivity.
  - apply Forall_cons_2; [|apply Forall_nil_2].
    split; [discriminate|reflexivity].
  - discriminate.
  - reflexivity.
Defined.

(** X30.  An empty entry ends the prompt with the default: the
    modification time of the file for "creation", the present time for
    "now", the number itself for a number.  Entries before it that did
    not parse leave no trace in the result. *)
Theorem prompt_for_tstamp_default `{Time : TimeModule}
    (path_to_file form : string) (default : default_arg)
    (default_tstamp : py_float) (local : struct_time)
    (default_timestring : string) (bads rest : list string)
    (shown0 : list terminal_output) :
  choose_default_tstamp path_to_file default = Ok default_tstamp →
  localtime default_tstamp = Ok local →
  strftime form local = Ok default_timestring →
  Forall (λ timestamp_string,
            timestamp_string ≠ ""
            ∧ mktime_strptime timestamp_string form = Raise ValueError)
    bads →
  let please :=
    Please_input path_to_file form default default_timestring in
  prompt_for_tstamp path_to_file default form
    (mkTerminal (bads ++ "" :: rest) shown0)
  = (Ok default_tstamp,
     mkTerminal rest
       (shown0
        ++ flat_map (λ timestamp_string,
                       [please; Could_not_parse timestamp_string form]) bads
        ++ [please])).
Proof.
  intros Hd Hl Hs Hbads please. unfold prompt_for_tstamp.
  rewrite Hd. cbn [mbind result_bind]. rewrite Hl. cbn [mbind result_bind].
  rewrite Hs. cbn [mbind result_bind typed shown].
  rewrite prompt_loop_unparsed by exact Hbads.
  cbn [prompt_loop String.eqb]. now rewrite <- app_assoc.
Qed.

Lemma prompt_for_tstamp_default_witness :
  let please := @Please_input Clock.time_module "run.mpt" "%s"
                  (Default_str "now") "later" in
  @prompt_for_tstamp Clock.time_module "run.mpt" (Default_str "now")
    "%s" (mkTerminal ["yesterday"; ""] [])
  = (Ok 1700000000,
     mkTerminal [] [please; Could_not_parse "yesterday" "%s"; please]).
Proof.
  intros please.
  apply (@prompt_for_tstamp_default Clock.time_module "run.mpt" "%s"
           (Default_str "now") 1700000000 1700000000 "later"
           ["yesterday"] [] []).
  - reflexivity.
  - reflexivity.
  - reflexivity.
  - apply Forall_cons_2; [|apply Forall_nil_2].
    split; [discriminate|reflexivity].
Defined.
